(** * fedmsg-notify: the notification daemon, embedded and verified

    A shallow embedding of [fedmsg_notify/daemon.py] (class
    [FedmsgNotifyService]).  The service object is a record of its
    attributes together with the part of the world it acts on (cache
    directory, reactor timers, pending downloads, log and bus trace);
    every method is a state-passing function that either returns or raises.
    What the daemon calls without defining it (fedmsg.text, fmn.lib,
    requests, the filter classes of [filters.py]) is gathered in the class
    [Collaborators]. *)

From Stdlib Require Import ZArith.
From stdpp Require Import base option list strings gmap.

Local Open Scope string_scope.
Local Open Scope list_scope.
Local Set Warnings "-register-all".

(** ** Python values and exceptions *)

Inductive Exn :=
| KeyError | TypeError | AttributeError | ValueError | IndexError
| ImportError | ConnectionError | GError | RuntimeError | AssertionError
| IOError.

Global Instance Exn_eq_dec : EqDecision Exn.
Proof. solve_decision. Defined.

Inductive Outcome (A : Type) :=
| Returned (a : A)
| Raised (e : Exn).
Arguments Returned {A} a.
Arguments Raised {A} e.

(** Decoded message bodies and JSON documents.  [VFn] is a callable that
    [fedmsg.utils.load_class] resolved from a dotted path. *)
Inductive Value :=
| VNone
| VBool (b : bool)
| VInt (z : Z)
| VStr (s : string)
| VList (l : list Value)
| VDict (kv : list (string * Value))
| VFn (path : string).

Fixpoint assoc_get (k : string) (kv : list (string * Value)) : option Value :=
  match kv with
  | [] => None
  | (k', v) :: kv' => if decide (k = k') then Some v else assoc_get k kv'
  end.

Fixpoint assoc_set (k : string) (v : Value) (kv : list (string * Value))
  : list (string * Value) :=
  match kv with
  | [] => [(k, v)]
  | (k', v') :: kv' =>
      if decide (k = k') then (k, v) :: kv' else (k', v') :: assoc_set k v kv'
  end.

(** [d[k]] *)
Definition py_getitem (d : Value) (k : string) : Outcome Value :=
  match d with
  | VDict kv => match assoc_get k kv with
                | Some v => Returned v
                | None => Raised KeyError
                end
  | _ => Raised TypeError
  end.

(** [d.get(k)] *)
Definition py_get (d : Value) (k : string) : Outcome Value :=
  match d with
  | VDict kv => Returned (default VNone (assoc_get k kv))
  | _ => Raised AttributeError
  end.

(** [d[k] = v] *)
Definition py_setitem (d : Value) (k : string) (v : Value) : Outcome Value :=
  match d with
  | VDict kv => Returned (VDict (assoc_set k v kv))
  | _ => Raised TypeError
  end.

(** Truth value of a string, as in [if s:]. *)
Definition str_truthy (s : string) : bool :=
  match s with EmptyString => false | String _ _ => true end.

(** Truth value of [x] when [x] is [None] or a string. *)
Definition opt_truthy (o : option string) : bool :=
  match o with Some s => str_truthy s | None => false end.

(** [needle in hay] on strings. *)
Fixpoint str_contains (needle hay : string) : bool :=
  String.prefix needle hay ||
  match hay with
  | EmptyString => false
  | String _ hay' => str_contains needle hay'
  end.

(** [l.remove(x)]: drops the first element equal to [x]; [ValueError] when
    there is none. *)
Fixpoint py_remove {A} `{EqDecision A} (x : A) (l : list A)
  : Outcome (list A) :=
  match l with
  | [] => Raised ValueError
  | y :: l' =>
      if decide (x = y) then Returned l'
      else match py_remove x l' with
           | Returned r => Returned (y :: r)
           | Raised e => Raised e
           end
  end.

(** [l.pop()]: removes and returns the last element. *)
Definition py_pop {A} (l : list A) : Outcome (A * list A) :=
  match last l with
  | Some x => Returned (x, removelast l)
  | None => Raised IndexError
  end.

(** ** Data model *)

(** [Gio.Settings]: the typed getters the daemon uses. *)
Record Settings := {
  get_boolean : string -> bool;
  get_int : string -> Z;
  get_string : string -> string
}.

(** An instance of one of the filter classes of [filters.py]: its class
    name and the settings value its constructor received.  Python compares
    instances by identity; [settings_changed] removes the instances of a
    class all together, which comes to the same list under the structural
    equality used here. *)
Record CustomFilter := {
  f_class : string;
  f_settings : string
}.

Global Instance CustomFilter_eq_dec : EqDecision CustomFilter.
Proof. solve_decision. Defined.

(** A [fedmsg.text] processor: [__name__] and the pattern of its compiled
    [__prefix__]. *)
Record Processor := {
  p_name : string;
  p_prefix : string
}.

(** A [Notify.Notification] object.  [note_id] is its identity. *)
Record Note := {
  note_id : nat;
  summary : string;
  body_text : string;
  note_icon : option string;
  image_path : option string
}.

Global Instance Note_eq_dec : EqDecision Note.
Proof. solve_decision. Defined.

(** [requests.Response]: its truth value and what [.json()] decodes, [None]
    when the text is not JSON. *)
Record Response := {
  resp_ok : bool;
  resp_json : option Value
}.

(** A [downloadPage] in flight. *)
Record Download := {
  d_id : nat;
  d_url : string;
  d_file : string
}.

(** A [DeferredList] that has not fired: the downloads it still waits for
    and the argument bound to [display_notification]. *)
Record Pending := {
  awaiting : list nat;
  p_body : Value
}.

Inductive Level := Debug | Info | Warning | Error | Exception.

(** What the daemon does to the outside: log records, the D-Bus signal,
    and calls on notification objects and on the hub. *)
Inductive Event :=
| Log (lv : Level) (text : string)
| MessageReceived (topic body : string)
| Show (n : Note)
| Close (n : Note)
| NotifyUninit
| HubClose
| ReactorStop.

Global Instance Level_eq_dec : EqDecision Level.
Proof. solve_decision. Defined.
Global Instance Event_eq_dec : EqDecision Event.
Proof. solve_decision. Defined.

(** The service object and the world it runs in.  The first fifteen
    fields are attributes of [FedmsgNotifyService]; [disk] is the file
    system (path to contents), [downloads], [deferred] and [timers] are
    what the reactor holds, [trace] is the chronological list of events and
    [next_id] the identity of the next object created. *)
Record Daemon := {
  settings : Settings;
  enabled : bool;
  emit_dbus_signals : bool;
  max_notifications : Z;
  expire : Z;
  fmn_url : string;
  use_server_prefs : bool;
  _fmn_openid : string;
  _preferences : option (list Value);
  enabled_filters : list string;
  filters : list CustomFilter;
  service_filters : list string;
  notifications : list Note;
  _icon_cache : gmap string string;
  cache_dir : string;
  disk : gmap string string;
  downloads : list Download;
  deferred : list Pending;
  timers : list (Z * Note);
  trace : list Event;
  next_id : nat
}.

Definition set_cache_dir (v : string) (s : Daemon) : Daemon :=
  {| settings := settings s; enabled := enabled s;
     emit_dbus_signals := emit_dbus_signals s;
     max_notifications := max_notifications s; expire := expire s;
     fmn_url := fmn_url s; use_server_prefs := use_server_prefs s;
     _fmn_openid := _fmn_openid s; _preferences := _preferences s;
     enabled_filters := enabled_filters s; filters := filters s;
     service_filters := service_filters s; notifications := notifications s;
     _icon_cache := _icon_cache s; cache_dir := v; disk := disk s;
     downloads := downloads s; deferred := deferred s; timers := timers s;
     trace := trace s; next_id := next_id s |}.

Definition set_enabled (v : bool) (s : Daemon) : Daemon :=
  {| settings := settings s; enabled := v;
     emit_dbus_signals := emit_dbus_signals s;
     max_notifications := max_notifications s; expire := expire s;
     fmn_url := fmn_url s; use_server_prefs := use_server_prefs s;
     _fmn_openid := _fmn_openid s; _preferences := _preferences s;
     enabled_filters := enabled_filters s; filters := filters s;
     service_filters := service_filters s; notifications := notifications s;
     _icon_cache := _icon_cache s; cache_dir := cache_dir s; disk := disk s;
     downloads := downloads s; deferred := deferred s; timers := timers s;
     trace := trace s; next_id := next_id s |}.

Definition set_emit_dbus_signals (v : bool) (s : Daemon) : Daemon :=
  {| settings := settings s; enabled := enabled s; emit_dbus_signals := v;
     max_notifications := max_notifications s; expire := expire s;
     fmn_url := fmn_url s; use_server_prefs := use_server_prefs s;
     _fmn_openid := _fmn_openid s; _preferences := _preferences s;
     enabled_filters := enabled_filters s; filters := filters s;
     service_filters := service_filters s; notifications := notifications s;
     _icon_cache := _icon_cache s; cache_dir := cache_dir s; disk := disk s;
     downloads := downloads s; deferred := deferred s; timers := timers s;
     trace := trace s; next_id := next_id s |}.

Definition set_expire (v : Z) (s : Daemon) : Daemon :=
  {| settings := settings s; enabled := enabled s;
     emit_dbus_signals := emit_dbus_signals s;
     max_notifications := max_notifications s; expire := v;
     fmn_url := fmn_url s; use_server_prefs := use_server_prefs s;
     _fmn_openid := _fmn_openid s; _preferences := _preferences s;
     enabled_filters := enabled_filters s; filters := filters s;
     service_filters := service_filters s; notifications := notifications s;
     _icon_cache := _icon_cache s; cache_dir := cache_dir s; disk := disk s;
     downloads := downloads s; deferred := deferred s; timers := timers s;
     trace := trace s; next_id := next_id s |}.

Definition set_fmn_openid (v : string) (s : Daemon) : Daemon :=
  {| settings := settings s; enabled := enabled s;
     emit_dbus_signals := emit_dbus_signals s;
     max_notifications := max_notifications s; expire := expire s;
     fmn_url := fmn_url s; use_server_prefs := use_server_prefs s;
     _fmn_openid := v; _preferences := _preferences s;
     enabled_filters := enabled_filters s; filters := filters s;
     service_filters := service_filters s; notifications := notifications s;
     _icon_cache := _icon_cache s; cache_dir := cache_dir s; disk := disk s;
     downloads := downloads s; deferred := deferred s; timers := timers s;
     trace := trace s; next_id := next_id s |}.

Definition set_preferences (v : option (list Value)) (s : Daemon) : Daemon :=
  {| settings := settings s; enabled := enabled s;
     emit_dbus_signals := emit_dbus_signals s;
     max_notifications := max_notifications s; expire := expire s;
     fmn_url := fmn_url s; use_server_prefs := use_server_prefs s;
     _fmn_openid := _fmn_openid s; _preferences := v;
     enabled_filters := enabled_filters s; filters := filters s;
     service_filters := service_filters s; notifications := notifications s;
     _icon_cache := _icon_cache s; cache_dir := cache_dir s; disk := disk s;
     downloads := downloads s; deferred := deferred s; timers := timers s;
     trace := trace s; next_id := next_id s |}.

Definition set_enabled_filters (v : list string) (s : Daemon) : Daemon :=
  {| settings := settings s; enabled := enabled s;
     emit_dbus_signals := emit_dbus_signals s;
     max_notifications := max_notifications s; expire := expire s;
     fmn_url := fmn_url s; use_server_prefs := use_server_prefs s;
     _fmn_openid := _fmn_openid s; _preferences := _preferences s;
     enabled_filters := v; filters := filters s;
     service_filters := service_filters s; notifications := notifications s;
     _icon_cache := _icon_cache s; cache_dir := cache_dir s; disk := disk s;
     downloads := downloads s; deferred := deferred s; timers := timers s;
     trace := trace s; next_id := next_id s |}.

Definition set_filters (v : list CustomFilter) (s : Daemon) : Daemon :=
  {| settings := settings s; enabled := enabled s;
     emit_dbus_signals := emit_dbus_signals s;
     max_notifications := max_notifications s; expire := expire s;
     fmn_url := fmn_url s; use_server_prefs := use_server_prefs s;
     _fmn_openid := _fmn_openid s; _preferences := _preferences s;
     enabled_filters := enabled_filters s; filters := v;
     service_filters := service_filters s; notifications := notifications s;
     _icon_cache := _icon_cache s; cache_dir := cache_dir s; disk := disk s;
     downloads := downloads s; deferred := deferred s; timers := timers s;
     trace := trace s; next_id := next_id s |}.

Definition set_service_filters (v : list string) (s : Daemon) : Daemon :=
  {| settings := settings s; enabled := enabled s;
     emit_dbus_signals := emit_dbus_signals s;
     max_notifications := max_notifications s; expire := expire s;
     fmn_url := fmn_url s; use_server_prefs := use_server_prefs s;
     _fmn_openid := _fmn_openid s; _preferences := _preferences s;
     enabled_filters := enabled_filters s; filters := filters s;
     service_filters := v; notifications := notifications s;
     _icon_cache := _icon_cache s; cache_dir := cache_dir s; disk := disk s;
     downloads := downloads s; deferred := deferred s; timers := timers s;
     trace := trace s; next_id := next_id s |}.

Definition set_notifications (v : list Note) (s : Daemon) : Daemon :=
  {| settings := settings s; enabled := enabled s;
     emit_dbus_signals := emit_dbus_signals s;
     max_notifications := max_notifications s; expire := expire s;
     fmn_url := fmn_url s; use_server_prefs := use_server_prefs s;
     _fmn_openid := _fmn_openid s; _preferences := _preferences s;
     enabled_filters := enabled_filters s; filters := filters s;
     service_filters := service_filters s; notifications := v;
     _icon_cache := _icon_cache s; cache_dir := cache_dir s; disk := disk s;
     downloads := downloads s; deferred := deferred s; timers := timers s;
     trace := trace s; next_id := next_id s |}.

Definition set_icon_cache (v : gmap string string) (s : Daemon) : Daemon :=
  {| settings := settings s; enabled := enabled s;
     emit_dbus_signals := emit_dbus_signals s;
     max_notifications := max_notifications s; expire := expire s;
     fmn_url := fmn_url s; use_server_prefs := use_server_prefs s;
     _fmn_openid := _fmn_openid s; _preferences := _preferences s;
     enabled_filters := enabled_filters s; filters := filters s;
     service_filters := service_filters s; notifications := notifications s;
     _icon_cache := v; cache_dir := cache_dir s; disk := disk s;
     downloads := downloads s; deferred := deferred s; timers := timers s;
     trace := trace s; next_id := next_id s |}.

Definition set_disk (v : gmap string string) (s : Daemon) : Daemon :=
  {| settings := settings s; enabled := enabled s;
     emit_dbus_signals := emit_dbus_signals s;
     max_notifications := max_notifications s; expire := expire s;
     fmn_url := fmn_url s; use_server_prefs := use_server_prefs s;
     _fmn_openid := _fmn_openid s; _preferences := _preferences s;
     enabled_filters := enabled_filters s; filters := filters s;
     service_filters := service_filters s; notifications := notifications s;
     _icon_cache := _icon_cache s; cache_dir := cache_dir s; disk := v;
     downloads := downloads s; deferred := deferred s; timers := timers s;
     trace := trace s; next_id := next_id s |}.

Definition set_downloads (v : list Download) (s : Daemon) : Daemon :=
  {| settings := settings s; enabled := enabled s;
     emit_dbus_signals := emit_dbus_signals s;
     max_notifications := max_notifications s; expire := expire s;
     fmn_url := fmn_url s; use_server_prefs := use_server_prefs s;
     _fmn_openid := _fmn_openid s; _preferences := _preferences s;
     enabled_filters := enabled_filters s; filters := filters s;
     service_filters := service_filters s; notifications := notifications s;
     _icon_cache := _icon_cache s; cache_dir := cache_dir s; disk := disk s;
     downloads := v; deferred := deferred s; timers := timers s;
     trace := trace s; next_id := next_id s |}.

Definition set_deferred (v : list Pending) (s : Daemon) : Daemon :=
  {| settings := settings s; enabled := enabled s;
     emit_dbus_signals := emit_dbus_signals s;
     max_notifications := max_notifications s; expire := expire s;
     fmn_url := fmn_url s; use_server_prefs := use_server_prefs s;
     _fmn_openid := _fmn_openid s; _preferences := _preferences s;
     enabled_filters := enabled_filters s; filters := filters s;
     service_filters := service_filters s; notifications := notifications s;
     _icon_cache := _icon_cache s; cache_dir := cache_dir s; disk := disk s;
     downloads := downloads s; deferred := v; timers := timers s;
     trace := trace s; next_id := next_id s |}.

Definition set_timers (v : list (Z * Note)) (s : Daemon) : Daemon :=
  {| settings := settings s; enabled := enabled s;
     emit_dbus_signals := emit_dbus_signals s;
     max_notifications := max_notifications s; expire := expire s;
     fmn_url := fmn_url s; use_server_prefs := use_server_prefs s;
     _fmn_openid := _fmn_openid s; _preferences := _preferences s;
     enabled_filters := enabled_filters s; filters := filters s;
     service_filters := service_filters s; notifications := notifications s;
     _icon_cache := _icon_cache s; cache_dir := cache_dir s; disk := disk s;
     downloads := downloads s; deferred := deferred s; timers := v;
     trace := trace s; next_id := next_id s |}.

Definition set_trace (v : list Event) (s : Daemon) : Daemon :=
  {| settings := settings s; enabled := enabled s;
     emit_dbus_signals := emit_dbus_signals s;
     max_notifications := max_notifications s; expire := expire s;
     fmn_url := fmn_url s; use_server_prefs := use_server_prefs s;
     _fmn_openid := _fmn_openid s; _preferences := _preferences s;
     enabled_filters := enabled_filters s; filters := filters s;
     service_filters := service_filters s; notifications := notifications s;
     _icon_cache := _icon_cache s; cache_dir := cache_dir s; disk := disk s;
     downloads := downloads s; deferred := deferred s; timers := timers s;
     trace := v; next_id := next_id s |}.

Definition set_next_id (v : nat) (s : Daemon) : Daemon :=
  {| settings := settings s; enabled := enabled s;
     emit_dbus_signals := emit_dbus_signals s;
     max_notifications := max_notifications s; expire := expire s;
     fmn_url := fmn_url s; use_server_prefs := use_server_prefs s;
     _fmn_openid := _fmn_openid s; _preferences := _preferences s;
     enabled_filters := enabled_filters s; filters := filters s;
     service_filters := service_filters s; notifications := notifications s;
     _icon_cache := _icon_cache s; cache_dir := cache_dir s; disk := disk s;
     downloads := downloads s; deferred := deferred s; timers := timers s;
     trace := trace s; next_id := v |}.

(** ** Methods as state-passing computations

    A method takes the state and gives back its outcome and the state it
    left behind; an exception keeps the mutations made before it. *)

Global Instance Outcome_ret : MRet Outcome := λ A a, Returned a.
Global Instance Outcome_bind : MBind Outcome := λ A B f o,
  match o with
  | Returned a => f a
  | Raised e => Raised e
  end.
Global Instance Outcome_fmap : FMap Outcome := λ A B f o,
  match o with
  | Returned a => Returned (f a)
  | Raised e => Raised e
  end.

Definition M (A : Type) : Type := Daemon -> Outcome A * Daemon.

Global Instance M_ret : MRet M := λ A a s, (Returned a, s).
Global Instance M_bind : MBind M := λ A B f c s,
  match c s with
  | (Returned a, s') => f a s'
  | (Raised e, s') => (Raised e, s')
  end.

Definition raise {A} (e : Exn) : M A := λ s, (Raised e, s).
Definition lift {A} (o : Outcome A) : M A := λ s, (o, s).
Definition gets {A} (f : Daemon -> A) : M A := λ s, (Returned (f s), s).
Definition modify (f : Daemon -> Daemon) : M unit := λ s, (Returned tt, f s).
Definition emit (e : Event) : M unit :=
  modify (λ s, set_trace (trace s ++ [e]) s).
Definition log (lv : Level) (text : string) : M unit := emit (Log lv text).

(** [try: c except: h] *)
Definition try_except {A} (c : M A) (h : Exn -> M A) : M A := λ s,
  match c s with
  | (Raised e, s') => h e s'
  | r => r
  end.

(** [for x in l: body] over a list fixed when the loop starts. *)
Fixpoint for_each {A} (l : list A) (body : A -> M unit) : M unit :=
  match l with
  | [] => mret tt
  | x :: l' => body x ;; for_each l' body
  end.

(** A fresh object identity. *)
Definition fresh : M nat :=
  n ← gets next_id; modify (set_next_id (S n)) ;; mret n.

(** The message Moksha hands to [consume]. *)
Record Message := {
  topic : string;
  body : Value
}.

(** [os.path.join(d, name)] for a relative [name]. *)
Definition path_join (d name : string) : string := d ++ "/" ++ name.

Definition pidfile : string := "~/.fedmsg-notify.pid".

(** What [json.loads] makes of the filter-settings text: an object, kept
    as the map of its members, or another JSON value. *)
Inductive Json :=
| JObject (members : gmap string string)
| JOther.

(** [filter_settings.get(name, '')]: only an object has [get]. *)
Definition json_get (j : Json) (name : string) : Outcome string :=
  match j with
  | JObject members => Returned (default EmptyString (members !! name))
  | JOther => Raised AttributeError
  end.

(** ** The service *)

(** *** Collaborators

    [filters.py] is not part of the sources at hand: its list of filter
    classes and [get_enabled_filters] are taken as given, as are the
    libraries the daemon calls. *)
Class Collaborators := {
  (** [filters.get_enabled_filters(settings)] *)
  get_enabled_filters : Settings -> list string;
  (** [filters.filters], each class by its [__name__]; calling the class
      on a settings value builds a [CustomFilter] of that class. *)
  all_filters : list string;
  (** [filter.match(msg, processor)] of a filter instance. *)
  filter_match : CustomFilter -> Value -> Processor -> bool;
  (** [fedmsg.text.processors] and [fedmsg.text.msg2processor]. *)
  processors : list Processor;
  msg2processor : Value -> Processor;
  (** [pattern.match(topic)] of a compiled regular expression. *)
  re_match : string -> string -> bool;
  (** [json.loads] on the filter-settings text ([None]: it raises
      [ValueError]) and [json.dumps]. *)
  json_loads : string -> option Json;
  json_dumps : Value -> string;
  (** [fmn.lib.recipients(preferences, msg, valid_paths, cfg)] *)
  recipients : list Value -> Value -> list string;
  (** [fedora_cert.read_user_cert()] *)
  username : string;
  (** [requests.get(url)] *)
  requests_get : string -> Outcome Response;
  (** [fedmsg.utils.load_class] and [str] *)
  load_class : string -> Outcome Value;
  py_str : Value -> string;
  (** [fedmsg.text.msg2repr], [msg2title], [msg2subtitle], [msg2link],
      [msg2icon] and [msg2secondary_icon], with the daemon's [cfg]. *)
  msg2repr : Value -> string;
  msg2title : Value -> option string;
  msg2subtitle : Value -> option string;
  msg2link : Value -> option string;
  msg2icon : Value -> option string;
  msg2secondary_icon : Value -> option string;
  (** [str(uuid.uuid5(uuid.NAMESPACE_URL, s))] and the hex MD5 digest. *)
  uuid5_url : string -> string;
  md5_hexdigest : string -> string;
  (** Whether [note.show()] and [note.close()] raise, and what. *)
  show_raises : Note -> option Exn;
  close_raises : Note -> option Exn
}.

Section Service.

Context `{Collaborators}.

(** *** FilterRegistry: [settings_changed] *)

(** [filter(arg)] for the class [filter] of that name. *)
Definition instantiate (name arg : string) : CustomFilter :=
  {| f_class := name; f_settings := arg |}.

(** The inner loop of the removal branch:
    [for loaded_filter in [f for f in self.filters if
    f.__class__.__name__ == name]: self.filters.remove(loaded_filter)]. *)
Definition remove_loaded (name : string) : M unit :=
  fs ← gets filters;
  for_each (filter (λ f, f_class f = name) fs) (λ loaded_filter,
    cur ← gets filters;
    r ← lift (py_remove loaded_filter cur);
    modify (set_filters r)).

(** One iteration of [for filter in all_filters]. *)
Definition reload_filter (enabled : list string)
    (filter_settings : Json) (name : string) : M unit :=
  ef ← gets enabled_filters;
  (if bool_decide (name ∈ enabled) && bool_decide (name ∉ ef) then
     log Debug ("Removing filter: " ++ name) ;;
     remove_loaded name
   else mret tt) ;;
  (if bool_decide (name ∉ enabled) && bool_decide (name ∈ ef) then
     log Debug ("Initializing filter: " ++ name) ;;
     arg ← lift (json_get filter_settings name);
     fs ← gets filters;
     modify (set_filters (fs ++ [instantiate name arg]))
   else mret tt).

Definition settings_changed (settings' : Settings) (key : string)
  : M unit :=
  st ← gets settings;
  modify (set_enabled_filters (get_enabled_filters st)) ;;
  if decide (key = "enabled-filters") then
    log Debug "Reloading filter settings" ;;
    ef ← gets enabled_filters;
    modify (set_service_filters
              (p_prefix <$> filter (λ p, p_name p ∈ ef) processors)) ;;
    st ← gets settings;
    filter_settings ←
      match json_loads (get_string st "filter-settings") with
      | Some d => mret d
      | None => raise ValueError
      end;
    enabled ← gets (λ s, f_class <$> filters s);
    for_each all_filters (reload_filter enabled filter_settings)
  else if decide (key = "filter-settings") then
    mret tt
  else if decide (key = "emit-dbus-signals") then
    modify (set_emit_dbus_signals (get_boolean settings' key))
  else if decide (key = "expiration") then
    st ← gets settings;
    modify (set_expire (get_int st "expiration"))
  else
    log Warning ("Unknown setting changed: " ++ key).

(** *** PreferenceResolver: [openid] and [preferences] *)

Definition openid : M string :=
  o ← gets _fmn_openid;
  (if str_truthy o then mret tt
   else modify (set_fmn_openid (username ++ ".id.fedoraproject.org"))) ;;
  gets _fmn_openid.

(** [rule['fn'] = fedmsg.utils.load_class(str(rule['code_path']))] *)
Definition repopulate_rule (rule : Value) : Outcome Value :=
  code_path ← py_getitem rule "code_path";
  fn ← load_class (py_str code_path);
  py_setitem rule "fn" fn.

(** [for x in v: body(x)] where the body updates [x] in place: a list
    gets its updated elements; a dict is walked by its keys and a string
    by its characters, which the body cannot update. *)
Definition py_for (v : Value) (body : Value -> Outcome Value)
  : Outcome Value :=
  match v with
  | VList l => VList <$> mapM body l
  | VDict kv => mapM body ((λ p, VStr p.1) <$> kv) ;; Returned v
  | VStr s =>
      mapM body ((λ c, VStr (String c EmptyString))
                   <$> String.list_ascii_of_string s) ;;
      Returned v
  | _ => Raised TypeError
  end.

Definition repopulate_filter (fltr : Value) : Outcome Value :=
  rules ← py_getitem fltr "rules";
  rules' ← py_for rules repopulate_rule;
  py_setitem fltr "rules" rules'.

Definition repopulate_functions (preference : Value) : Outcome Value :=
  fltrs ← py_getitem preference "filters";
  fltrs' ← py_for fltrs repopulate_filter;
  py_setitem preference "filters" fltrs'.

(** Truth value of [self._preferences] ([None] or a list). *)
Definition prefs_truthy (p : option (list Value)) : bool :=
  match p with
  | Some (_ :: _) => true
  | _ => false
  end.

Definition preferences : M (list Value) :=
  p ← gets _preferences;
  if prefs_truthy p then mret (default [] p)
  else
    base ← gets fmn_url;
    oid ← openid;
    let url := (base ++ oid ++ "/desktop/")%string in
    log Info ("Getting preferences from " ++ url) ;;
    response ← lift (requests_get url);
    if negb (resp_ok response) then
      log Warning "Failed with response" ;;
      mret []
    else
      preference ←
        match resp_json response with
        | Some v => mret v
        | None => raise ValueError
        end;
      preference ← lift (repopulate_functions preference);
      modify (set_preferences (Some [preference])) ;;
      mret [preference].

(** *** NotificationQueue: [display_notification] and the timers *)

Definition note_show (n : Note) : M unit :=
  match show_raises n with
  | Some e => raise e
  | None => emit (Show n)
  end.

Definition note_close (n : Note) : M unit :=
  match close_raises n with
  | Some e => raise e
  | None => emit (Close n)
  end.

(** [x or ''] for [x] a string or [None]. *)
Definition or_empty (x : option string) : string := default EmptyString x.

Definition format_text (body : Value) : string * string :=
  let title := or_empty (msg2title body) in
  let subtitle := or_empty (msg2subtitle body) in
  let link := or_empty (msg2link body) in
  let subtitle :=
    if str_truthy link then (subtitle ++ " " ++ link)%string
    else subtitle in
  (title, subtitle).

(** [self._icon_cache.get(k)] where [k] may be [None]. *)
Definition cache_get (cache : gmap string string) (k : option string)
  : option string :=
  k ≫= λ k', cache !! k'.

(** The [if]/[elif] of [get_icons] on the two cache lookups: the icon
    and the hint. *)
Definition pick_icons (icon secondary_icon : option string)
  : option string * option string :=
  if opt_truthy secondary_icon then
    (secondary_icon, if opt_truthy icon then icon else secondary_icon)
  else if opt_truthy icon then
    (icon, icon)
  else
    (None, None).

Definition get_icons (body : Value) : M (option string * option string) :=
  cache ← gets _icon_cache;
  let icon := cache_get cache (msg2icon body) in
  let secondary_icon := cache_get cache (msg2secondary_icon body) in
  mret (pick_icons icon secondary_icon).

(** The first half of [display_notification]: the notification object
    it builds, with the image-path hint when there is one. *)
Definition new_notification (body : Value) : M Note :=
  log Debug (msg2repr body) ;;
  let '(title, subtitle) := format_text body in
  '(icon, secondary_icon) ← get_icons body;
  i ← fresh;
  mret {| note_id := i; summary := title; body_text := subtitle;
          note_icon := icon;
          image_path :=
            if opt_truthy secondary_icon then secondary_icon else None |}.

(** The body of its [try] block: show, insert at the front, evict,
    schedule the expiration.  [reactor.callLater] asserts that the delay is
    not negative. *)
Definition show_and_queue (note : Note) : M unit :=
  note_show note ;;
  ns ← gets notifications;
  modify (set_notifications (note :: ns)) ;;
  ns ← gets notifications;
  mx ← gets max_notifications;
  (if bool_decide (mx ≤ Z.of_nat (length ns))%Z then
     '(oldest, rest) ← lift (py_pop ns);
     modify (set_notifications rest) ;;
     note_close oldest
   else mret tt) ;;
  ex ← gets expire;
  if bool_decide (ex ≠ 0%Z) then
    (if bool_decide (ex < 0)%Z then raise AssertionError else mret tt) ;;
    ts ← gets timers;
    modify (set_timers (ts ++ [(ex, note)]))
  else mret tt.

Definition display_notification (body : Value) : M unit :=
  note ← new_notification body;
  try_except (show_and_queue note)
             (λ _, log Exception "Unable to display notification").

(** The reactor runs the [i]-th scheduled call, [note.close]; a failure
    is logged by the reactor. *)
Definition timer_fire (i : nat) : M unit :=
  ts ← gets timers;
  match ts !! i with
  | None => mret tt
  | Some (_, note) =>
      modify (set_timers (delete i ts)) ;;
      try_except (note_close note)
                 (λ _, log Error "Unhandled error in timed call")
  end.

(** *** IconCache: [get_icon], [cache_icon], [fetch_icons] *)

(** Returns the identity of the download the caller has to wait for, or
    [None] for a deferred that has already fired. *)
Definition get_icon (icon : string) : M (option nat) :=
  cache ← gets _icon_cache;
  if opt_truthy (cache !! icon) then mret None
  else
    let icon_id := uuid5_url icon in
    dir ← gets cache_dir;
    let filename := path_join dir icon_id in
    dk ← gets disk;
    match dk !! filename with
    | None =>
        log Debug ("Downloading icon: " ++ icon) ;;
        i ← fresh;
        ds ← gets downloads;
        modify (set_downloads
                  (ds ++ [ {| d_id := i; d_url := icon;
                              d_file := filename |} ])) ;;
        mret (Some i)
    | Some _ =>
        modify (set_icon_cache (<[icon := filename]> cache)) ;;
        mret None
    end.

Definition cache_icon (icon_url filename : string) : M unit :=
  dk ← gets disk;
  match dk !! filename with
  | None => log Debug ("Failed to download " ++ icon_url)
  | Some content =>
      cache ← gets _icon_cache;
      let checksum := md5_hexdigest content in
      match cache !! checksum with
      | Some existing =>
          modify (set_icon_cache (<[icon_url := existing]> cache)) ;;
          modify (set_disk (delete filename dk))
      | None =>
          modify (set_icon_cache
                    (<[checksum := filename]>
                       (<[icon_url := filename]> cache)))
      end
  end.

Definition fetch_icons (msg : Value) : M (list nat) :=
  body ← lift (py_get msg "body");
  let icon := msg2icon body in
  w1 ← (if opt_truthy icon
        then w ← get_icon (default EmptyString icon); mret (option_list w)
        else mret []);
  let secondary_icon := msg2secondary_icon body in
  w2 ← (if opt_truthy secondary_icon
        then w ← get_icon (default EmptyString secondary_icon);
             mret (option_list w)
        else mret []);
  mret (w1 ++ w2).

Definition notify (msg : Value) : M unit :=
  waits ← fetch_icons msg;
  body ← lift (py_getitem msg "body");
  match waits with
  | [] => display_notification body
  | _ :: _ =>
      ps ← gets deferred;
      modify (set_deferred (ps ++ [ {| awaiting := waits; p_body := body |} ]))
  end.

(** Every [DeferredList] that waits for download [i] is told; those
    left with nothing to wait for fire [display_notification]. *)
Definition fire_deferred (i : nat) : M unit :=
  ps ← gets deferred;
  let ps' := (λ p, {| awaiting := filter (λ j, j ≠ i) (awaiting p);
                      p_body := p_body p |}) <$> ps in
  modify (set_deferred (filter (λ p, awaiting p ≠ []) ps')) ;;
  for_each (filter (λ p, awaiting p = []) ps')
           (λ p, display_notification (p_body p)).

(** The reactor reports the end of download [i]: [Some content] once the
    page is written to its file, [None] on failure.  The callback or the
    errback of [get_icon] runs, then the deferred lists are told. *)
Definition download_done (i : nat) (result : option string) : M unit :=
  ds ← gets downloads;
  match list_find (λ d, d_id d = i) ds with
  | None => mret tt
  | Some (k, d) =>
      modify (set_downloads (delete k ds)) ;;
      match result with
      | Some content =>
          dk ← gets disk;
          modify (set_disk (<[d_file d := content]> dk)) ;;
          cache_icon (d_url d) (d_file d)
      | None => log Error ("Download failed: " ++ d_url d)
      end ;;
      fire_deferred i
  end.

(** *** MessageRouter: [consume] *)

(** The recipients of a message in remote-preference mode: the
    invalidation test, then [fmn.lib.recipients] on the preferences. *)
Definition resolve_recipients (msg : Value) (topic : string)
  : M (list string) :=
  (if str_contains ".fmn." topic then
     inner ← lift (py_getitem msg "msg");
     oid ← lift (py_getitem inner "openid");
     me ← openid;
     match oid with
     | VStr o =>
         if decide (o = me) then
           log Info ("Noticed a pref change for " ++ o) ;;
           modify (set_preferences None)
         else mret tt
     | _ => mret tt
     end
   else mret tt) ;;
  prefs ← preferences;
  mret (recipients prefs msg).

(** The remote-preference branch; [false] is the early [return]. *)
Definition match_server_prefs (msg : Value) (topic : string) : M bool :=
  rs ← resolve_recipients msg topic;
  match rs with
  | [] =>
      log Debug ("Message to " ++ topic ++ " didn't match filters") ;;
      mret false
  | _ :: _ => mret true
  end.

(** The local-filter branch: the two [for ... else] loops. *)
Definition match_local_filters (msg : Value) (topic : string) : M bool :=
  let processor := msg2processor msg in
  fs ← gets filters;
  match list_find (λ f, filter_match f msg processor = true) fs with
  | Some _ =>
      log Debug ("Matched topic " ++ topic) ;;
      mret true
  | None =>
      sfs ← gets service_filters;
      match list_find (λ p, re_match p topic = true) sfs with
      | Some (_, p) =>
          log Debug ("Matched topic " ++ topic ++ " with " ++ p) ;;
          mret true
      | None =>
          log Debug ("Message to " ++ topic ++ " didn't match filters") ;;
          mret false
      end
  end.

Definition consume (m : Message) : M unit :=
  let msg := body m in
  let topic := topic m in
  usp ← gets use_server_prefs;
  matched ← (if (usp : bool) then match_server_prefs msg topic
             else match_local_filters msg topic);
  if (matched : bool) then
    eds ← gets emit_dbus_signals;
    (if (eds : bool) then emit (MessageReceived topic (json_dumps msg))
     else mret tt) ;;
    notify msg
  else mret tt.

(** *** Teardown: [__del__] *)

(** [shutil.rmtree(d, ignore_errors=True)] *)
Definition rmtree (d : string) (dk : gmap string string)
  : gmap string string :=
  filter (λ kv, String.prefix (d ++ "/") kv.1 = false) dk.

Definition __del__ : M unit :=
  en ← gets enabled;
  if negb en then mret tt
  else
    modify (set_enabled false) ;;
    ns ← gets notifications;
    try_except (for_each ns note_close)
               (λ e, if decide (e = GError) then mret tt else raise e) ;;
    emit NotifyUninit ;;
    emit HubClose ;;
    emit ReactorStop ;;
    dir ← gets cache_dir;
    dk ← gets disk;
    modify (set_disk (rmtree dir dk)) ;;
    dk ← gets disk;
    modify (set_disk (delete pidfile dk)).

(** *** Start-up: [__init__]

    [session_bus] is [None] when the session bus cannot be reached and
    otherwise tells whether the bus name already has an owner; [tmpdir]
    is what [tempfile.mkdtemp()] returns and [dk] the disk found. *)
Definition __init__ (st : Settings) (session_bus : option bool)
    (tmpdir : string) (dk : gmap string string) : Outcome unit * Daemon :=
  let self :=
    {| settings := st; enabled := false;
       emit_dbus_signals := get_boolean st "emit-dbus-signals";
       max_notifications := get_int st "max-notifications";
       expire := get_int st "expiration";
       fmn_url := get_string st "fmn-url";
       use_server_prefs := get_boolean st "use-server-prefs";
       _fmn_openid := get_string st "fmn-openid";
       _preferences := Some []; enabled_filters := []; filters := [];
       service_filters := []; notifications := []; _icon_cache := ∅;
       cache_dir := EmptyString; disk := dk; downloads := [];
       deferred := []; timers := []; trace := []; next_id := 0 |} in
  (if negb (get_boolean st "enabled") then
     log Info ("Disabled via 'fedmsg.consumers.notifyconsumer.enabled' "
               ++ "configuration, exiting...")
   else
     match session_bus with
     | None => log Exception "Unable to connect to DBus SessionBus"
     | Some true => log Info "Daemon already running. Exiting..."
     | Some false =>
         modify (set_cache_dir tmpdir) ;;
         settings_changed st "enabled-filters" ;;
         i ← fresh;
         let note := {| note_id := i; summary := "fedmsg";
                        body_text := "activated";
                        note_icon := Some "fedmsg-notify";
                        image_path := None |} in
         note_show note ;;
         ts ← gets timers;
         modify (set_timers (ts ++ [(3%Z, note)])) ;;
         ns ← gets notifications;
         modify (set_notifications (note :: ns)) ;;
         modify (set_enabled true)
     end) self.

End Service.

(** ** Vocabulary of the statements *)

Section Vocabulary.

Context `{Collaborators}.

(** The notification [display_notification] builds for [body] in state
    [s]. *)
Definition built_note (body : Value) (s : Daemon) : Note :=
  let icons := pick_icons (cache_get (_icon_cache s) (msg2icon body))
                          (cache_get (_icon_cache s)
                                     (msg2secondary_icon body)) in
  {| note_id := next_id s;
     summary := (format_text body).1;
     body_text := (format_text body).2;
     note_icon := icons.1;
     image_path := if opt_truthy icons.2 then icons.2 else None |}.

(** The state in which the built notification is shown. *)
Definition logged (body : Value) (s : Daemon) : Daemon :=
  set_next_id (S (next_id s))
    (set_trace (trace s ++ [Log Debug (msg2repr body)]) s).

(** Whether a push in state [s] reaches [max_notifications] and
    evicts. *)
Definition evicts (s : Daemon) : bool :=
  bool_decide
    (max_notifications s ≤ Z.of_nat (S (length (notifications s))))%Z.

(** What the last step of [display_notification] leaves: the expiration
    timer of [note] when [expire] is positive, nothing when it is zero, and
    the record of the [except] clause when it is negative, the reactor
    having refused the delay. *)
Definition schedule (note : Note) (s : Daemon) : Daemon :=
  if bool_decide (expire s ≠ 0%Z) then
    if bool_decide (expire s < 0)%Z
    then set_trace
           (trace s ++ [Log Exception "Unable to display notification"]) s
    else set_timers (timers s ++ [(expire s, note)]) s
  else s.

(** The identity [openid] yields in state [s]. *)
Definition openid_of (s : Daemon) : string :=
  if str_truthy (_fmn_openid s) then _fmn_openid s
  else (username ++ ".id.fedoraproject.org")%string.

(** The address [preferences] fetches. *)
Definition prefs_url (s : Daemon) : string :=
  (fmn_url s ++ openid_of s ++ "/desktop/")%string.

(** The state in which [requests.get] is called. *)
Definition fetching (s : Daemon) : Daemon :=
  set_trace
    (trace s ++ [Log Info ("Getting preferences from " ++ prefs_url s)])
    (set_fmn_openid (openid_of s) s).

(** The state [__del__] reaches once its loop is over or has been cut
    short by a [GLib.GError], with the notifications closed so far. *)
Definition torn_down (closed : list Note) (s : Daemon) : Daemon :=
  set_disk (delete pidfile (rmtree (cache_dir s) (disk s)))
    (set_trace
       (trace s ++ (Close <$> closed)
        ++ [NotifyUninit; HubClose; ReactorStop])
       (set_enabled false s)).

(** The notifications the loop of [__del__] closes: those of the queue, in
    its order, before the first whose close raises. *)
Fixpoint closed_by_teardown (ns : list Note) : list Note :=
  match ns with
  | [] => []
  | n :: ns' =>
      match close_raises n with
      | None => n :: closed_by_teardown ns'
      | Some _ => []
      end
  end.

(** What that first close raises, if any does. *)
Fixpoint teardown_failure (ns : list Note) : option Exn :=
  match ns with
  | [] => None
  | n :: ns' =>
      match close_raises n with
      | None => teardown_failure ns'
      | Some e => Some e
      end
  end.

(** The file [get_icon] downloads [icon] to. *)
Definition icon_file (s : Daemon) (icon : string) : string :=
  path_join (cache_dir s) (uuid5_url icon).

(** The state in which [get_icon] has started to download [icon]. *)
Definition downloading (icon : string) (s : Daemon) : Daemon :=
  set_downloads
    (downloads s ++ [ {| d_id := next_id s; d_url := icon;
                         d_file := icon_file s icon |} ])
    (set_next_id (S (next_id s))
       (set_trace (trace s ++ [Log Debug ("Downloading icon: " ++ icon)])
          s)).

(** What a page that lands in the file of download [d] does to the icon
    cache and to the disk. *)
Definition landed (d : Download) (content : string)
    (store : gmap string string * gmap string string)
  : gmap string string * gmap string string :=
  let '(cache, dk) := store in
  let dk := <[d_file d := content]> dk in
  match cache !! md5_hexdigest content with
  | Some existing => (<[d_url d := existing]> cache, delete (d_file d) dk)
  | None =>
      (<[md5_hexdigest content := d_file d]>
         (<[d_url d := d_file d]> cache), dk)
  end.

(** One turn of the loop of [settings_changed] on the list of active
    filters: [enabled] are the class names active when the loop started,
    [names] the names now enabled. *)
Definition reload_step (enabled names : list string)
    (filter_settings : gmap string string)
    (cur : list CustomFilter) (name : string) : list CustomFilter :=
  let cur :=
    if bool_decide (name ∈ enabled) && bool_decide (name ∉ names)
    then filter (λ f, f_class f ≠ name) cur else cur in
  if bool_decide (name ∉ enabled) && bool_decide (name ∈ names)
  then cur ++ [instantiate name
                 (default EmptyString (filter_settings !! name))]
  else cur.

(** The instance a newly enabled filter class yields. *)
Definition configured (d : gmap string string) (name : string)
  : CustomFilter :=
  instantiate name (default EmptyString (d !! name)).

(** The state a method leaves behind. *)
Definition after {A} (c : M A) (s : Daemon) : Daemon := (c s).2.

(** The outcome of a method. *)
Definition outcome {A} (c : M A) (s : Daemon) : Outcome A := (c s).1.

End Vocabulary.

(** What the [except] clause of [display_notification] logs. *)
Definition unable : Event := Log Exception "Unable to display notification".

(** What the reactor logs when a timed call raises. *)
Definition timed_call_failed : Event :=
  Log Error "Unhandled error in timed call".

(** What [preferences] logs on a response that is not a success. *)
Definition fetch_failed : Event := Log Warning "Failed with response".

Definition is_log (e : Event) : bool :=
  match e with
  | Log _ _ => true
  | _ => false
  end.

(** [s'] differs from [s] by log records at most, as far as notifications
    go: same queue, same pending displays and downloads, same timers, and a
    trace extended by log records only. *)
Definition quiet (s s' : Daemon) : Prop :=
  notifications s' = notifications s ∧
  deferred s' = deferred s ∧
  downloads s' = downloads s ∧
  timers s' = timers s ∧
  exists logs, trace s' = trace s ++ logs ∧ Forall (λ e, is_log e = true) logs.

(** [s'] has the icon cache, the disk, the downloads in flight and the
    cache directory of [s], and has created objects at most. *)
Definition same_store (s s' : Daemon) : Prop :=
  _icon_cache s' = _icon_cache s ∧
  disk s' = disk s ∧
  downloads s' = downloads s ∧
  cache_dir s' = cache_dir s ∧
  (next_id s ≤ next_id s')%nat.

(** [s'] has the queue and the maximum of [s]. *)
Definition same_queue (s s' : Daemon) : Prop :=
  notifications s' = notifications s ∧
  max_notifications s' = max_notifications s.

(** Every run of [c] relates the state it starts in to the state it leaves
    behind. *)
Definition preserves {A} (R : relation Daemon) (c : M A) : Prop :=
  forall s, R s (c s).2.

(** [c] neither reads nor writes [enabled_filters]: run from a state with
    another value in that field, it has the same outcome and leaves the
    same state but for the field. *)
Definition ignores_enabled_filters {A} (c : M A) : Prop :=
  forall v s,
    c (set_enabled_filters v s) = ((c s).1, set_enabled_filters v (c s).2).

(** Both references resolve to [kept], which holds the content and is the
    only file that does; [dropped] is gone. *)
Definition share_one_file (a b content kept dropped : string) (s : Daemon)
  : Prop :=
  _icon_cache s !! a = Some kept ∧
  _icon_cache s !! b = Some kept ∧
  disk s !! kept = Some content ∧
  disk s !! dropped = None ∧
  forall p, disk s !! p = Some content -> p = kept.

(** ** A concrete world

    Stand-ins for the collaborators, on which the statements below are
    exercised: two filter classes, one processor, a preference service
    that is down at one address and serves a page that is not JSON at
    another. *)
Module Demo.

Definition str_field (k : string) (v : Value) : option string :=
  match py_get v k with
  | Returned (VStr x) => Some x
  | _ => None
  end.

Definition fetch (url : string) : Outcome Response :=
  if String.prefix "http://down/" url then
    Returned {| resp_ok := false; resp_json := None |}
  else if String.prefix "http://html/" url then
    Returned {| resp_ok := true; resp_json := None |}
  else
    Returned {| resp_ok := true;
                resp_json := Some (VDict [("filters", VList [])]) |}.

Definition bugzilla : Processor :=
  {| p_name := "bugzilla"; p_prefix := "org.example.bug" |}.

Definition parse_settings (raw : string) : option Json :=
  if decide (raw = "{}") then Some (JObject ∅)
  else if decide (raw = "{urgent: high}")
       then Some (JObject {[ "urgent" := "high" ]})
       else if decide (raw = "[]") then Some JOther
            else None.

Definition world (closing : Note -> option Exn) : Collaborators :=
  {| get_enabled_filters :=
       λ st, String.words (get_string st "enabled-filters");
     all_filters := ["urgent"; "mine"];
     filter_match := λ f msg _,
       bool_decide (str_field "priority" msg = Some (f_settings f));
     processors := [bugzilla];
     msg2processor := λ _, bugzilla;
     re_match := String.prefix;
     json_loads := parse_settings;
     json_dumps := λ _, "{}";
     recipients := λ prefs _, match prefs with [] => [] | _ => ["desktop"] end;
     username := "alice";
     requests_get := fetch;
     load_class := λ path, Returned (VFn path);
     py_str := λ v, match v with VStr x => x | _ => "?" end;
     msg2repr := λ _, "message";
     msg2title := λ _, Some "title";
     msg2subtitle := λ _, Some "subtitle";
     msg2link := λ _, None;
     msg2icon := str_field "icon";
     msg2secondary_icon := str_field "icon2";
     uuid5_url := String.append "uuid5-";
     md5_hexdigest := String.append "md5-";
     show_raises := λ _, None;
     close_raises := closing |}.

(** Nothing fails. *)
Definition calm : Collaborators := world (λ _, None).

(** Closing the notification of identity 1 raises [GLib.GError]. *)
Definition stormy : Collaborators :=
  world (λ n, if decide (note_id n = 1) then Some GError else None).

Definition conf (mx ex : Z) (names url : string) (server : bool)
  : Settings :=
  {| get_boolean := λ k,
       if decide (k = "enabled") then true
       else if decide (k = "use-server-prefs") then server
       else if decide (k = "emit-dbus-signals") then true
       else false;
     get_int := λ k,
       if decide (k = "max-notifications") then mx
       else if decide (k = "expiration") then ex
       else 0%Z;
     get_string := λ k,
       if decide (k = "enabled-filters") then names
       else if decide (k = "filter-settings") then "{urgent: high}"
       else if decide (k = "fmn-url") then url
       else EmptyString |}.

(** The daemon right after [__init__]. *)
Definition started `{Collaborators} (st : Settings) : Daemon :=
  (__init__ st (Some false) "/tmp/tmpq1" ∅).2.

(** Local filters, a maximum of [mx] notifications expiring after [ex]
    seconds. *)
Definition booted (mx ex : Z) : Daemon :=
  started (H := calm) (conf mx ex "urgent" "http://down/" false).

Definition two_icons : Value :=
  VDict [("icon", VStr "http://a/1.png"); ("icon2", VStr "http://a/2.png")].

Definition both_cached : Daemon :=
  set_icon_cache {[ "http://a/1.png" := "/tmp/tmpq1/p1";
                    "http://a/2.png" := "/tmp/tmpq1/p2" ]} (booted 5 0).

Definition high : Value := VDict [("priority", VStr "high")].
Definition low : Value := VDict [("priority", VStr "low")].

(** Remote preferences, served as a page that is not JSON. *)
Definition html_page : Daemon :=
  started (H := calm) (conf 5 0 "urgent" "http://html/" true).

(** Remote preferences, with the service down. *)
Definition service_down : Daemon :=
  started (H := calm) (conf 5 0 "urgent" "http://down/" true).

Definition bug_update : Message :=
  {| topic := "org.example.bug.update"; body := high |}.

Definition low_priority : Message :=
  {| topic := "org.example.wiki.edit"; body := low |}.

(** The class [mine] is active and has just been disabled in favour of
    [urgent]. *)
Definition toggled : Daemon :=
  set_filters [instantiate "mine" EmptyString] (booted 5 0).

End Demo.

(** ** Vocabulary of the further statements *)

(** [s'] has what [__init__] read once from the settings, and the queue,
    as [s] has them. *)
Definition fixed_at_startup (s s' : Daemon) : Prop :=
  max_notifications s' = max_notifications s ∧
  use_server_prefs s' = use_server_prefs s ∧
  fmn_url s' = fmn_url s ∧
  cache_dir s' = cache_dir s ∧
  notifications s' = notifications s ∧
  timers s' = timers s.

(** ** The daemon at run time

    Once [main] has started the reactor, the daemon runs by call-backs: the
    hub hands a message to [consume], a timer or a download of the reactor
    ends, GSettings reports a changed key, or a D-Bus peer calls [Enable] or
    [Disable].  An exception a call-back raises is logged by its caller and
    the daemon goes on in the state reached. *)

(** The GSettings object the daemon holds changes under it: [st] is what
    its getters answer from now on. *)
Definition set_settings (st : Settings) (s : Daemon) : Daemon :=
  {| settings := st; enabled := enabled s;
     emit_dbus_signals := emit_dbus_signals s;
     max_notifications := max_notifications s;
     expire := expire s;
     fmn_url := fmn_url s;
     use_server_prefs := use_server_prefs s;
     _fmn_openid := _fmn_openid s;
     _preferences := _preferences s;
     enabled_filters := enabled_filters s; filters := filters s;
     service_filters := service_filters s;
     notifications := notifications s; _icon_cache := _icon_cache s;
     cache_dir := cache_dir s; disk := disk s; downloads := downloads s;
     deferred := deferred s; timers := timers s; trace := trace s;
     next_id := next_id s |}.

Section Running.

Context `{Collaborators}.

(** [Enable]: a no-op. *)
Definition Enable : M unit := mret tt.

(** [Disable]: [self.__del__()]. *)
Definition Disable : M unit := __del__.

(** [SettingChanges st key]: the settings have become [st], and the
    handler connected to [key] is called with them. *)
Inductive Callback :=
| Consumes (m : Message)
| TimerFires (i : nat)
| DownloadEnds (i : nat) (result : option string)
| SettingChanges (st : Settings) (key : string)
| EnableCalled
| DisableCalled.

Definition callback (c : Callback) : M unit :=
  match c with
  | Consumes m => consume m
  | TimerFires i => timer_fire i
  | DownloadEnds i result => download_done i result
  | SettingChanges st key =>
      modify (set_settings st) ;; settings_changed st key
  | EnableCalled => Enable
  | DisableCalled => Disable
  end.

(** The state after a sequence of call-backs. *)
Definition run (cs : list Callback) (s : Daemon) : Daemon :=
  foldl (λ s c, (callback c s).2) s cs.

End Running.

(** From [s] to [s'] the maximum is the same, the queue has not shrunk and
    has not reached the maximum if it was below it. *)
Definition queue_steady (s s' : Daemon) : Prop :=
  max_notifications s' = max_notifications s ∧
  (length (notifications s) ≤ length (notifications s'))%nat ∧
  ((Z.of_nat (length (notifications s)) < max_notifications s)%Z ->
   (Z.of_nat (length (notifications s')) < max_notifications s')%Z).

(** Every notification that was shown is still queued or has been
    closed. *)
Definition none_left_open (s : Daemon) : Prop :=
  forall n, Show n ∈ trace s -> n ∈ notifications s ∨ Close n ∈ trace s.

Definition keeps_none_open (s s' : Daemon) : Prop :=
  none_left_open s -> none_left_open s'.

(** The attributes [__init__] sets before it looks at the configuration
    and at the bus. *)
Definition blank (st : Settings) (dk : gmap string string) : Daemon :=
  {| settings := st; enabled := false;
     emit_dbus_signals := get_boolean st "emit-dbus-signals";
     max_notifications := get_int st "max-notifications";
     expire := get_int st "expiration";
     fmn_url := get_string st "fmn-url";
     use_server_prefs := get_boolean st "use-server-prefs";
     _fmn_openid := get_string st "fmn-openid";
     _preferences := Some []; enabled_filters := []; filters := [];
     service_filters := []; notifications := []; _icon_cache := ∅;
     cache_dir := EmptyString; disk := dk; downloads := [];
     deferred := []; timers := []; trace := []; next_id := 0 |}.

(** The notification [__init__] shows once the service is up. *)
Definition activation (i : nat) : Note :=
  {| note_id := i; summary := "fedmsg"; body_text := "activated";
     note_icon := Some "fedmsg-notify"; image_path := None |}.

(** The state in which [__init__] has shown, scheduled and queued the
    activation notification. *)
Definition activated (s : Daemon) : Daemon :=
  let note := activation (next_id s) in
  set_enabled true
    (set_notifications (note :: notifications s)
       (set_timers (timers s ++ [(3%Z, note)])
          (set_trace (trace s ++ [Show note])
             (set_next_id (S (next_id s)) s)))).

(** [p] is neither the pidfile nor below the cache directory of [s]. *)
Definition outside (s : Daemon) (p : string) : Prop :=
  String.prefix (cache_dir s ++ "/") p = false ∧ p ≠ pidfile.

(** The downloads in flight write below the cache directory. *)
Definition downloads_inside (s : Daemon) : Prop :=
  Forall (λ d, String.prefix (cache_dir s ++ "/") (d_file d) = true)
         (downloads s).

(** From [s] to [s'] the cache directory is the same and, when the
    downloads in flight write below it, they still do and no file outside
    has changed. *)
Definition keeps_to_cache_dir (s s' : Daemon) : Prop :=
  cache_dir s' = cache_dir s ∧
  (downloads_inside s ->
   downloads_inside s' ∧
   forall p, outside s p -> disk s' !! p = disk s !! p).

(** The [MessageReceived] signals of a trace, in order. *)
Definition signals (t : list Event) : list (string * string) :=
  omap (λ e, match e with
             | MessageReceived topic body => Some (topic, body)
             | _ => None
             end) t.

(** The notifications a trace shows, in order. *)
Definition shown (t : list Event) : list Note :=
  omap (λ e, match e with Show n => Some n | _ => None end) t.

Definition same_signals (s s' : Daemon) : Prop :=
  signals (trace s') = signals (trace s).

(** Nothing was displayed from [s] to [s'], at once or deferred. *)
Definition nothing_displayed (s s' : Daemon) : Prop :=
  notifications s' = notifications s ∧
  deferred s' = deferred s ∧
  timers s' = timers s ∧
  shown (trace s') = shown (trace s).

(** [s'] is configured as [s] is. *)
Definition same_config (s s' : Daemon) : Prop :=
  enabled s' = enabled s ∧
  emit_dbus_signals s' = emit_dbus_signals s ∧
  max_notifications s' = max_notifications s ∧
  expire s' = expire s ∧
  fmn_url s' = fmn_url s ∧
  use_server_prefs s' = use_server_prefs s ∧
  enabled_filters s' = enabled_filters s ∧
  filters s' = filters s ∧
  service_filters s' = service_filters s ∧
  cache_dir s' = cache_dir s.

(** Whether one of the active filters or of the service filters matches
    the message. *)
Definition local_match `{Collaborators} (s : Daemon) (m : Message) : bool :=
  existsb (λ f, filter_match f (body m) (msg2processor (body m))) (filters s)
  || existsb (λ p, re_match p (topic m)) (service_filters s).

(** The state in which the page of download [d] has landed: the download
    is over, the cache and the disk are as [landed] says. *)
Definition stored `{Collaborators} (k : nat) (d : Download)
    (content : string) (s : Daemon) : Daemon :=
  let store := landed d content (_icon_cache s, disk s) in
  set_disk store.2
    (set_icon_cache store.1 (set_downloads (delete k (downloads s)) s)).

(** ** Start of the process: [main]

    What [main] asks of the operating system: [int] on the content of the
    pidfile, [psutil.Process(pid)] with the name of the process, the
    identity of this process and whether writing the pidfile fails. *)
Inductive Lookup :=
| Named (name : string)
| NoSuchProcess
| LookupRaises (e : Exn).

Class Host := {
  (** [int(s)]; [None] is a [ValueError] *)
  py_int : string -> option Z;
  (** [psutil.Process(pid)] and its [name] *)
  psutil_Process : Z -> Lookup;
  (** [str(os.getpid())] *)
  getpid_str : string;
  (** [file(pidfile, 'w')] raises [IOError] *)
  open_raises : bool;
  (** [f.write] raises [IOError] *)
  write_raises : bool
}.

(** How [main] ends: it returns at once because a daemon is running, an
    exception leaves the pidfile test or the pidfile cannot be opened for
    writing, the service was created but the
    reactor is not started ([__init__] raised, or left the service
    disabled), or the reactor runs with [__del__] registered as exit
    hook. *)
Inductive Launch :=
| AlreadyRunning (dk : gmap string string)
| Aborted (e : Exn) (dk : gmap string string)
| Exited (r : Outcome unit) (service : Daemon)
| Serving (service : Daemon).

Section Main.

Context `{Collaborators} `{Host}.

(** [if os.path.exists(pidfile): ...]: the disk it leaves, or [None] for
    the [return]. *)
Definition check_pidfile (dk : gmap string string)
  : Outcome (option (gmap string string)) :=
  match dk !! pidfile with
  | None => Returned (Some dk)
  | Some content =>
      match py_int content with
      | None => Returned (Some dk)
      | Some pid =>
          match psutil_Process pid with
          | Named name =>
              if decide (name ≠ "fedmsg-notify-d")
              then Returned (Some (delete pidfile dk))
              else Returned None
          | NoSuchProcess => Returned (Some (delete pidfile dk))
          | LookupRaises e =>
              if decide (e = ValueError) then Returned (Some dk)
              else Raised e
          end
      end
  end.

(** [with file(pidfile, 'w') as f: ...]: the disk and what is logged. *)
Definition write_pidfile (dk : gmap string string)
  : gmap string string * list Event :=
  if write_raises
  then (<[pidfile := EmptyString]> dk,
        [Log Exception "Unable to write pidfile"])
  else (<[pidfile := getpid_str]> dk, []).

(** [session_bus] and [tmpdir] are what [__init__] will find; the
    records logged before the service exists come first in its trace. *)
Definition main (dk : gmap string string) (st : Settings)
    (session_bus : option bool) (tmpdir : string) : Launch :=
  match check_pidfile dk with
  | Raised e => Aborted e dk
  | Returned None => AlreadyRunning dk
  | Returned (Some dk) =>
      if open_raises then Aborted IOError dk
      else
        let '(dk, logs) := write_pidfile dk in
        let '(r, service) := __init__ st session_bus tmpdir dk in
        let service := set_trace (logs ++ trace service) service in
        match r with
        | Returned _ =>
            if enabled service then Serving service else Exited r service
        | Raised _ => Exited r service
        end
  end.

(** The service [main] created, if any. *)
Definition service_of (l : Launch) : option Daemon :=
  match l with
  | Exited _ service | Serving service => Some service
  | _ => None
  end.

End Main.

(** ** More of the concrete world

    Settings whose filter settings do not decode, a notification that
    cannot be closed for another reason than a [GLib.GError], a preference
    service that answers, an operating system, and a few messages. *)
Module Scenes.

Import Demo.

Definition garbled : Settings :=
  {| get_boolean := get_boolean (conf 5 0 "urgent" "http://down/" false);
     get_int := get_int (conf 5 0 "urgent" "http://down/" false);
     get_string := λ k,
       if decide (k = "filter-settings") then "{urgent"
       else get_string (conf 5 0 "urgent" "http://down/" false) k |}.

(** Closing the notification of identity 0 raises a [RuntimeError]. *)
Definition faulty : Collaborators :=
  world (λ n, if decide (note_id n = 0) then Some RuntimeError else None).

(** Remote preferences, with the service answering. *)
Definition remote : Daemon :=
  started (H := calm) (conf 5 0 "urgent" "http://ok/" true).

Definition no_filters : Value := VDict [("filters", VList [])].

Definition host : Host :=
  {| py_int := λ s,
       if decide (s = "4711") then Some 4711%Z
       else if decide (s = "17") then Some 17%Z
       else None;
     psutil_Process := λ pid,
       if decide (pid = 4711%Z) then Named "fedmsg-notify-d"
       else if decide (pid = 17%Z) then Named "bash"
       else NoSuchProcess;
     getpid_str := "20000";
     open_raises := false;
     write_raises := false |}.

(** A pidfile left by a process whose identifier now belongs to a shell,
    beside a file of the user. *)
Definition stale_disk : gmap string string :=
  {[ pidfile := "17"; "/home/alice/notes" := "keep" ]}.

(** The daemon with a cached icon on disk, the pidfile written and a file
    of the user. *)
Definition with_files : Daemon :=
  set_disk {[ pidfile := "20000"; "/tmp/tmpq1/uuid5-x" := "PNG";
              "/home/alice/notes" := "keep" ]} (booted 5 0).

Definition logo : string := "http://a/logo.png".

(** A message as [notify] wants it, the body to display under the key
    [body]. *)
Definition with_logo : Value :=
  VDict [("priority", VStr "high"); ("body", VDict [("icon", VStr logo)])].

(** The user has changed the preferences on the service. *)
Definition pref_change : Message :=
  {| topic := "org.example.fmn.filter.update";
     body := VDict [("msg",
                     VDict [("openid", VStr "alice.id.fedoraproject.org")])] |}.

(** A message on that topic that names nobody. *)
Definition pref_anonymous : Message :=
  {| topic := "org.example.fmn.filter.update"; body := VDict [] |}.

(** A stretch of the life of the daemon. *)
Definition busy : list Callback :=
  [Consumes bug_update; Consumes low_priority; TimerFires 0;
   Consumes {| topic := "org.example.bug.new"; body := with_logo |};
   DownloadEnds 1 (Some "PNG");
   SettingChanges (conf 2 5 "mine" "http://down/" false) "enabled-filters";
   DisableCalled].

End Scenes.

(** * Verification *)

(** Runs a method symbolically: unfolds the plumbing of [M] and
    simplifies. *)
Ltac mred :=
  repeat (progress (unfold mbind, M_bind, mret, M_ret, gets, modify, emit,
                    log, lift, raise, fresh, try_except; cbn)).


(** ** Lists *)

Lemma last_cons_is_Some {A} (x : A) (l : list A) : is_Some (last (x :: l)).
Proof.
  destruct (last (x :: l)) eqn:E; [eauto|].
  apply last_None in E. discriminate.
Qed.

Lemma last_removelast {A} (l : list A) (x : A) :
  last l = Some x -> removelast l ++ [x] = l.
Proof.
  induction l as [|y l IH]; [discriminate|].
  destruct l as [|z l]; simpl in *.
  - intros [= ->]. reflexivity.
  - intros Hl. f_equal. apply IH, Hl.
Qed.

Lemma length_removelast {A} (l : list A) :
  length (removelast l) = pred (length l).
Proof.
  induction l as [|y l IH]; [reflexivity|].
  destruct l as [|z l]; [reflexivity|].
  change (removelast (y :: z :: l)) with (y :: removelast (z :: l)).
  simpl length in *. rewrite IH. reflexivity.
Qed.

Local Arguments Z.of_nat : simpl never.
Local Arguments String.append : simpl never.
Local Arguments length : simpl never.
Local Arguments last : simpl never.
Local Arguments removelast : simpl never.
Local Arguments built_note : simpl never.

(** ** NotificationQueue *)

Section Queue.

Context `{Collaborators}.

Lemma new_notification_run body s :
  new_notification body s = (Returned (built_note body s), logged body s).
Proof.
  unfold new_notification, built_note, logged, get_icons.
  destruct (format_text body) as [title subtitle]. mred.
  destruct (pick_icons _ _) as [icon hint]. reflexivity.
Qed.

Lemma show_and_queue_show_raises note s e :
  show_raises note = Some e -> show_and_queue note s = (Raised e, s).
Proof.
  intros Hs. unfold show_and_queue, note_show. rewrite Hs. reflexivity.
Qed.

Lemma show_and_queue_no_evict note s :
  show_raises note = None -> evicts s = false ->
  let s1 := set_notifications (note :: notifications s)
              (set_trace (trace s ++ [Show note]) s) in
  show_and_queue note s =
    if bool_decide (expire s < 0)%Z then (Raised AssertionError, s1)
    else (Returned tt, schedule note s1).
Proof.
  intros Hs He. unfold show_and_queue, note_show, evicts, schedule in *.
  rewrite Hs. mred.
  change (length (note :: notifications s))
    with (S (length (notifications s))).
  rewrite He. mred.
  destruct (bool_decide (expire s ≠ 0%Z)) eqn:Hex; mred;
    destruct (bool_decide (expire s < 0)%Z) eqn:Hneg; try reflexivity.
  apply bool_decide_eq_false in Hex. apply bool_decide_eq_true in Hneg. lia.
Qed.

Lemma show_and_queue_evict note s oldest :
  show_raises note = None -> evicts s = true ->
  last (note :: notifications s) = Some oldest ->
  let s1 := set_notifications (removelast (note :: notifications s))
              (set_trace ((trace s ++ [Show note]) ++ [Close oldest]) s) in
  show_and_queue note s =
    match close_raises oldest with
    | None =>
        if bool_decide (expire s < 0)%Z then (Raised AssertionError, s1)
        else (Returned tt, schedule note s1)
    | Some e =>
        (Raised e,
         set_notifications (removelast (note :: notifications s))
           (set_trace (trace s ++ [Show note]) s))
    end.
Proof.
  intros Hs He Hl. unfold show_and_queue, note_show, evicts, schedule in *.
  rewrite Hs. mred.
  change (length (note :: notifications s))
    with (S (length (notifications s))).
  rewrite He. unfold py_pop. rewrite Hl. mred.
  unfold note_close. destruct (close_raises oldest); mred; [reflexivity|].
  destruct (bool_decide (expire s ≠ 0%Z)) eqn:Hex; mred;
    destruct (bool_decide (expire s < 0)%Z) eqn:Hneg; try reflexivity.
  apply bool_decide_eq_false in Hex. apply bool_decide_eq_true in Hneg. lia.
Qed.

Lemma display_notification_run body s :
  display_notification body s =
    try_except (show_and_queue (built_note body s))
               (λ _, log Exception "Unable to display notification")
               (logged body s).
Proof.
  unfold display_notification. unfold mbind at 1, M_bind at 1.
  rewrite new_notification_run. reflexivity.
Qed.

Lemma display_show_raises body s e :
  show_raises (built_note body s) = Some e ->
  display_notification body s =
    (Returned tt,
     set_trace (trace (logged body s) ++ [unable]) (logged body s)).
Proof.
  intros Hs. rewrite display_notification_run. unfold try_except.
  rewrite (show_and_queue_show_raises _ _ e Hs). reflexivity.
Qed.

Lemma display_no_evict body s (note := built_note body s) :
  show_raises note = None -> evicts s = false ->
  display_notification body s =
    (Returned tt,
     schedule note
       (set_notifications (note :: notifications s)
          (set_trace (trace (logged body s) ++ [Show note])
             (logged body s)))).
Proof.
  intros Hs He. rewrite display_notification_run. unfold try_except.
  rewrite show_and_queue_no_evict by done. cbv zeta. unfold schedule.
  cbn [expire logged set_next_id set_trace set_notifications].
  destruct (bool_decide (expire s < 0)%Z) eqn:Hneg; [|reflexivity].
  rewrite bool_decide_eq_true_2; [reflexivity|].
  apply bool_decide_eq_true in Hneg. lia.
Qed.

Lemma display_evict body s oldest (note := built_note body s) :
  show_raises note = None -> evicts s = true ->
  last (note :: notifications s) = Some oldest ->
  display_notification body s =
    match close_raises oldest with
    | None =>
        (Returned tt,
         schedule note
           (set_notifications (removelast (note :: notifications s))
              (set_trace
                 ((trace (logged body s) ++ [Show note]) ++ [Close oldest])
                 (logged body s))))
    | Some _ =>
        (Returned tt,
         set_trace ((trace (logged body s) ++ [Show note]) ++ [unable])
           (set_notifications (removelast (note :: notifications s))
              (logged body s)))
    end.
Proof.
  intros Hs He Hl. rewrite display_notification_run. unfold try_except.
  rewrite (show_and_queue_evict _ _ oldest) by done. cbv zeta.
  destruct (close_raises oldest); [reflexivity|]. unfold schedule.
  cbn [expire logged set_next_id set_trace set_notifications].
  destruct (bool_decide (expire s < 0)%Z) eqn:Hneg; [|reflexivity].
  rewrite bool_decide_eq_true_2; [reflexivity|].
  apply bool_decide_eq_true in Hneg. lia.
Qed.

Lemma schedule_notifications note s :
  notifications (schedule note s) = notifications s.
Proof. unfold schedule. repeat case_bool_decide; reflexivity. Qed.

(** What the reactor's refusal of a negative delay adds to the trace. *)
Lemma schedule_trace note s :
  trace (schedule note s)
  = trace s ++ (if bool_decide (expire s < 0)%Z then [unable] else []).
Proof.
  unfold schedule. repeat case_bool_decide; try lia;
    cbn; by rewrite ?app_nil_r.
Qed.

Lemma schedule_trace_elem e note s :
  e ∈ trace s -> e ∈ trace (schedule note s).
Proof. intros He. rewrite schedule_trace. apply elem_of_app. by left. Qed.

(** It adds a log record at most. *)
Lemma schedule_events e note s :
  (forall lv text, e ≠ Log lv text) ->
  e ∈ trace (schedule note s) <-> e ∈ trace s.
Proof.
  intros He. rewrite schedule_trace, elem_of_app.
  split; [|by left]. intros [?|Hin]; [done|].
  case_bool_decide; [|by apply elem_of_nil in Hin].
  apply list_elem_of_singleton in Hin. by apply He in Hin.
Qed.

Lemma schedule_max note s :
  max_notifications (schedule note s) = max_notifications s.
Proof. unfold schedule. repeat case_bool_decide; reflexivity. Qed.

(** A push always returns: the [try] block swallows what [show] and
    [close] raise. *)
Lemma display_notification_returns body s :
  outcome (display_notification body) s = Returned tt.
Proof.
  unfold outcome. set (note := built_note body s).
  destruct (show_raises note) as [e|] eqn:Hs.
  { rewrite (display_show_raises _ _ e Hs). reflexivity. }
  destruct (evicts s) eqn:He.
  - destruct (last_cons_is_Some note (notifications s)) as [oldest Hl].
    rewrite (display_evict _ _ oldest Hs He Hl).
    destruct (close_raises oldest); reflexivity.
  - rewrite (display_no_evict _ _ Hs He). reflexivity.
Qed.

(** Pushes keep the size of the queue under the maximum. *)
Lemma display_notification_bound body s :
  (Z.of_nat (length (notifications s)) ≤ max_notifications s)%Z ->
  (Z.of_nat (length (notifications (after (display_notification body) s)))
   ≤ max_notifications (after (display_notification body) s))%Z.
Proof.
  intros Hb. unfold after.
  destruct (show_raises (built_note body s)) as [e|] eqn:Hs.
  { rewrite (display_show_raises _ _ e Hs). exact Hb. }
  destruct (evicts s) eqn:He.
  - destruct (last_cons_is_Some (built_note body s) (notifications s))
      as [oldest Hl].
    rewrite (display_evict _ _ oldest Hs He Hl).
    pose proof (length_removelast (built_note body s :: notifications s))
      as Hlen.
    change (length (built_note body s :: notifications s))
      with (S (length (notifications s))) in Hlen. cbn [pred] in Hlen.
    destruct (close_raises oldest); cbn;
      rewrite ?schedule_notifications, ?schedule_max; cbn;
      rewrite Hlen; exact Hb.
  - rewrite (display_no_evict _ _ Hs He). cbn.
    rewrite schedule_notifications, schedule_max. cbn.
    unfold evicts in He. apply bool_decide_eq_false in He.
    change (length (built_note body s :: notifications s))
      with (S (length (notifications s))). lia.
Qed.






(** *** Expiration *)

Lemma timer_fire_run i t d n :
  timers t !! i = Some (d, n) ->
  timer_fire i t =
    (Returned tt,
     set_trace (trace t ++ [match close_raises n with
                            | None => Close n
                            | Some _ => timed_call_failed
                            end])
       (set_timers (delete i (timers t)) t)).
Proof.
  intros Ht. unfold timer_fire. mred. rewrite Ht. mred.
  unfold note_close. destruct (close_raises n); reflexivity.
Qed.



(** *** Icon roles *)

Lemma display_notification_shows body s :
  show_raises (built_note body s) = None ->
  Show (built_note body s) ∈ trace (after (display_notification body) s).
Proof.
  intros Hs. unfold after. destruct (evicts s) eqn:He.
  - destruct (last_cons_is_Some (built_note body s) (notifications s))
      as [oldest Hl].
    rewrite (display_evict _ _ oldest Hs He Hl).
    destruct (close_raises oldest); cbn; rewrite ?schedule_trace; cbn;
      set_solver.
  - rewrite (display_no_evict _ _ Hs He). cbn. rewrite schedule_trace.
    cbn. set_solver.
Qed.

(** Claim C10.  When the primary icon of a message resolves to a cached
    path, the notification built for it has that path as its image-path
    hint; its main icon is the secondary icon when that one resolves too
    (the roles are swapped) and the primary icon otherwise.  That
    notification is the one displayed. *)
Theorem icon_roles_swapped body s primary :
  cache_get (_icon_cache s) (msg2icon body) = Some primary ->
  str_truthy primary = true ->
  let secondary := cache_get (_icon_cache s) (msg2secondary_icon body) in
  let note := built_note body s in
  new_notification body s = (Returned note, logged body s) ∧
  (show_raises note = None ->
     Show note ∈ trace (after (display_notification body) s)) ∧
  image_path note = Some primary ∧
  (opt_truthy secondary = true -> note_icon note = secondary) ∧
  (opt_truthy secondary = false -> note_icon note = Some primary).
Proof.
  intros Hp Ht secondary note.
  split; [apply new_notification_run|].
  split; [apply display_notification_shows|].
  subst note secondary. unfold built_note, pick_icons. rewrite Hp.
  cbn [opt_truthy]. rewrite Ht.
  destruct (opt_truthy (cache_get _ (msg2secondary_icon body))); cbn;
    rewrite Ht; done.
Qed.

End Queue.

(** *** The queue on the concrete world *)

Section QueueExamples.

Import Demo.

#[local] Existing Instance calm.







(** [icon_roles_swapped] on a message whose two icons are cached. *)
Lemma icon_roles_swapped_witness :
  let s := both_cached in
  let secondary :=
    cache_get (_icon_cache s) (msg2secondary_icon two_icons) in
  let note := built_note two_icons s in
  (cache_get (_icon_cache s) (msg2icon two_icons)
     = Some "/tmp/tmpq1/p1" ∧
   str_truthy "/tmp/tmpq1/p1" = true) ∧
  new_notification two_icons s = (Returned note, logged two_icons s) ∧
  (show_raises note = None ->
     Show note ∈ trace (after (display_notification two_icons) s)) ∧
  image_path note = Some "/tmp/tmpq1/p1" ∧
  (opt_truthy secondary = true -> note_icon note = secondary) ∧
  (opt_truthy secondary = false -> note_icon note = Some "/tmp/tmpq1/p1").
Proof.
  assert (Hp : cache_get (_icon_cache both_cached)
                 (msg2icon two_icons)
               = Some "/tmp/tmpq1/p1") by (vm_compute; reflexivity).
  split; [split; [exact Hp|reflexivity]|].
  exact (icon_roles_swapped two_icons both_cached _ Hp eq_refl).
Defined.

End QueueExamples.

(** ** Teardown *)

Lemma set_trace_same s : set_trace (trace s) s = s.
Proof. destruct s; reflexivity. Qed.

Section Teardown.
Context `{Collaborators}.

Lemma close_all_run ns s :
  (forall n, n ∈ ns -> close_raises n = None) ->
  for_each ns note_close s
  = (Returned tt, set_trace (trace s ++ (Close <$> ns)) s).
Proof.
  revert s. induction ns as [|n ns IH]; intros s Hc.
  - cbn. rewrite app_nil_r, set_trace_same. reflexivity.
  - cbn [for_each]. unfold mbind, M_bind, note_close at 1.
    rewrite (Hc n) by set_solver. mred.
    rewrite IH by (intros; apply Hc; set_solver).
    cbn. rewrite <- app_assoc. reflexivity.
Qed.

Lemma close_all_raises pre n post e s :
  (forall m, m ∈ pre -> close_raises m = None) ->
  close_raises n = Some e ->
  for_each (pre ++ n :: post) note_close s
  = (Raised e, set_trace (trace s ++ (Close <$> pre)) s).
Proof.
  revert s. induction pre as [|m pre IH]; intros s Hc He.
  - cbn. unfold mbind, M_bind, note_close. rewrite He. mred.
    rewrite app_nil_r, set_trace_same. reflexivity.
  - cbn [for_each app]. unfold mbind, M_bind, note_close at 1.
    rewrite (Hc m) by set_solver. mred.
    rewrite IH by (try done; intros; apply Hc; set_solver).
    cbn. rewrite <- app_assoc. reflexivity.
Qed.

Lemma del_not_enabled s : enabled s = false -> __del__ s = (Returned tt, s).
Proof. intros He. unfold __del__. mred. rewrite He. reflexivity. Qed.

Lemma del_closes_all s :
  enabled s = true ->
  (forall n, n ∈ notifications s -> close_raises n = None) ->
  __del__ s = (Returned tt, torn_down (notifications s) s).
Proof.
  intros He Hc. unfold __del__. mred. rewrite He. mred.
  rewrite (close_all_run _ _ Hc). cbn. unfold torn_down.
  rewrite <- !app_assoc. reflexivity.
Qed.

Lemma del_cut_short s pre n post e :
  enabled s = true ->
  notifications s = pre ++ n :: post ->
  (forall m, m ∈ pre -> close_raises m = None) ->
  close_raises n = Some e ->
  __del__ s =
    if decide (e = GError) then (Returned tt, torn_down pre s)
    else (Raised e,
          set_trace (trace s ++ (Close <$> pre)) (set_enabled false s)).
Proof.
  intros He Hq Hc Hn. unfold __del__. mred. rewrite He. mred.
  rewrite Hq, (close_all_raises _ _ _ _ _ Hc Hn). cbn.
  destruct (decide (e = GError)); [|reflexivity].
  cbn. unfold torn_down. rewrite <- !app_assoc. reflexivity.
Qed.

(** Either no close raises, or there is a first one that does. *)
Lemma first_raising (ns : list Note) :
  (forall n, n ∈ ns -> close_raises n = None) ∨
  exists pre n post e,
    ns = pre ++ n :: post ∧
    (forall m, m ∈ pre -> close_raises m = None) ∧
    close_raises n = Some e.
Proof.
  induction ns as [|n ns IH]; [left; set_solver|].
  destruct (close_raises n) as [e|] eqn:Hn.
  { right. exists [], n, ns, e. set_solver. }
  destruct IH as [Hall|(pre & m & post & e & -> & Hpre & Hm)].
  - left. intros x [->|Hx]%elem_of_cons; auto.
  - right. exists (n :: pre), m, post, e.
    split; [reflexivity|]. split; [|exact Hm].
    intros x [->|Hx]%elem_of_cons; auto.
Qed.

Lemma closed_by_teardown_all ns :
  (forall n, n ∈ ns -> close_raises n = None) ->
  closed_by_teardown ns = ns ∧ teardown_failure ns = None.
Proof.
  induction ns as [|n ns IH]; intros Hall; [done|].
  cbn. rewrite (Hall n) by left.
  destruct IH as [-> ->]; [|done]. intros m Hm. apply Hall. by right.
Qed.

Lemma closed_by_teardown_cut pre n post e :
  (forall m, m ∈ pre -> close_raises m = None) ->
  close_raises n = Some e ->
  closed_by_teardown (pre ++ n :: post) = pre
  ∧ teardown_failure (pre ++ n :: post) = Some e.
Proof.
  intros Hpre Hn. induction pre as [|m pre IH]; cbn.
  - by rewrite Hn.
  - rewrite (Hpre m) by left.
    destruct IH as [-> ->]; [|done]. intros x Hx. apply Hpre. by right.
Qed.

(** Claim C6, amended.  [__del__] on an enabled daemon, when no close
    raises anything but [GLib.GError]: it returns; the queue is as it was;
    the notifications of the queue before the first whose close raises have
    been closed, in the order of the queue, which is all of them when no
    close raises; nothing has been logged, and the rest of the teardown has
    run: [Notify.uninit], the hub and the reactor are stopped, the cache
    directory and the pidfile are removed. *)
Theorem del_closes_in_order s :
  enabled s = true ->
  (forall e, teardown_failure (notifications s) = Some e -> e = GError) ->
  let closed := closed_by_teardown (notifications s) in
  let s' := after __del__ s in
  outcome __del__ s = Returned tt ∧
  notifications s' = notifications s ∧
  (exists rest, notifications s = closed ++ rest) ∧
  (teardown_failure (notifications s) = None -> closed = notifications s) ∧
  trace s'
  = trace s ++ (Close <$> closed) ++ [NotifyUninit; HubClose; ReactorStop] ∧
  disk s' = delete pidfile (rmtree (cache_dir s) (disk s)) ∧
  enabled s' = false.
Proof.
  intros He Hg closed s'. subst closed s'. unfold after, outcome.
  destruct (first_raising (notifications s))
    as [Hall|(pre & n & post & e & Hq & Hpre & Hn)].
  - destruct (closed_by_teardown_all _ Hall) as [Hc Hf].
    rewrite (del_closes_all _ He Hall), Hc. cbn.
    repeat split; try done. exists []. by rewrite app_nil_r.
  - destruct (closed_by_teardown_cut pre n post e Hpre Hn) as [Hc Hf].
    rewrite Hq in Hg |- *. rewrite Hc, Hf in *.
    rewrite (del_cut_short s pre n post e He Hq Hpre Hn).
    rewrite (Hg e eq_refl), decide_True by reflexivity. cbn.
    repeat split; try done. by exists (n :: post).
Qed.
End Teardown.

Section TeardownExamples.
Import Demo.

(** Claim C6 as stated fails: the queue is not cleared, and a notification
    that follows one whose close raises stays open. *)
Lemma del_skips_after_error :
  let s := after (display_notification (H := stormy) high)
                 (started (H := stormy)
                    (conf 10 0 "urgent" "http://down/" false)) in
  let s' := after (__del__ (H := stormy)) s in
  enabled s = true ∧
  length (notifications s) = 2 ∧
  notifications s' ≠ [] ∧
  (exists n, n ∈ notifications s ∧
             close_raises (Collaborators := stormy) n = None ∧
             Close n ∉ trace s').
Proof.
  vm_compute. split; [reflexivity|]. split; [reflexivity|].
  split; [discriminate|].
  eexists. split; [apply list_elem_of_further, list_elem_of_here|].
  split; [reflexivity|].
  intros Hin. repeat (apply elem_of_cons in Hin as [Hin|Hin]; [discriminate|]).
  by apply elem_of_nil in Hin.
Qed.

(** [del_closes_in_order] on a queue of three whose second notification
    raises [GLib.GError] when closed: the first is closed, the second and
    the third are not, and the teardown is carried through. *)
Lemma del_closes_in_order_witness :
  let s := after (display_notification (H := stormy) low)
             (after (display_notification (H := stormy) high)
                (started (H := stormy)
                   (conf 10 0 "urgent" "http://down/" false))) in
  let closed := closed_by_teardown (H := stormy) (notifications s) in
  let s' := after (__del__ (H := stormy)) s in
  (enabled s = true ∧
   forall e, teardown_failure (H := stormy) (notifications s) = Some e ->
             e = GError) ∧
  (length (notifications s) = 3 ∧
   teardown_failure (H := stormy) (notifications s) = Some GError ∧
   note_id <$> closed = [2]) ∧
  outcome (__del__ (H := stormy)) s = Returned tt ∧
  notifications s' = notifications s ∧
  (exists rest, notifications s = closed ++ rest) ∧
  (teardown_failure (H := stormy) (notifications s) = None ->
   closed = notifications s) ∧
  trace s'
  = trace s ++ (Close <$> closed) ++ [NotifyUninit; HubClose; ReactorStop] ∧
  disk s' = delete pidfile (rmtree (cache_dir s) (disk s)) ∧
  enabled s' = false.
Proof.
  set (s := after (display_notification (H := stormy) low)
              (after (display_notification (H := stormy) high)
                 (started (H := stormy)
                    (conf 10 0 "urgent" "http://down/" false)))).
  assert (Hf : teardown_failure (H := stormy) (notifications s)
               = Some GError) by (vm_compute; reflexivity).
  assert (Hg : forall e,
             teardown_failure (H := stormy) (notifications s) = Some e ->
             e = GError).
  { intros e He. rewrite Hf in He. by injection He as <-. }
  split; [by split|]. split; [by repeat split|].
  exact (del_closes_in_order (H := stormy) s eq_refl Hg).
Defined.
End TeardownExamples.


(** ** PreferenceResolver *)

Section Preferences.
Context `{Collaborators}.

Lemma openid_run s :
  openid s = (Returned (openid_of s), set_fmn_openid (openid_of s) s).
Proof.
  unfold openid, openid_of. mred.
  destruct (str_truthy (_fmn_openid s)); mred; [|reflexivity].
  destruct s; reflexivity.
Qed.

Lemma preferences_cached s :
  prefs_truthy (_preferences s) = true ->
  preferences s = (Returned (default [] (_preferences s)), s).
Proof. intros Hp. unfold preferences. mred. rewrite Hp. reflexivity. Qed.

Lemma preferences_fetch s :
  prefs_truthy (_preferences s) = false ->
  preferences s =
    match requests_get (prefs_url s) with
    | Raised e => (Raised e, fetching s)
    | Returned response =>
        if resp_ok response then
          match resp_json response with
          | None => (Raised ValueError, fetching s)
          | Some v =>
              match repopulate_functions v with
              | Raised e => (Raised e, fetching s)
              | Returned preference =>
                  (Returned [preference],
                   set_preferences (Some [preference]) (fetching s))
              end
          end
        else
          (Returned [],
           set_trace (trace (fetching s) ++ [fetch_failed]) (fetching s))
    end.
Proof.
  intros Hp. unfold preferences. mred. rewrite Hp, openid_run.
  unfold fetching. fold (prefs_url s).
  destruct (requests_get (prefs_url s)) as [response|e]; [|reflexivity].
  destruct (resp_ok response); cbn; [|reflexivity].
  destruct (resp_json response) as [v|]; cbn; [|reflexivity].
  destruct (repopulate_functions v); reflexivity.
Qed.

(** Claim C7, amended.  When [preferences] has to fetch and the response
    is not a success, it logs a warning and returns the empty list without
    raising; nothing is cached. *)
Theorem preferences_fetch_failure s response :
  prefs_truthy (_preferences s) = false ->
  requests_get (prefs_url s) = Returned response ->
  resp_ok response = false ->
  let s' := after preferences s in
  outcome preferences s = Returned [] ∧
  fetch_failed ∈ trace s' ∧
  _preferences s' = _preferences s.
Proof.
  intros Hp Hget Hok s'. subst s'. unfold after, outcome.
  rewrite (preferences_fetch _ Hp), Hget, Hok. cbn.
  split; [reflexivity|]. split; [|reflexivity].
  apply elem_of_app. right. apply list_elem_of_here.
Qed.
End Preferences.

Section PreferencesExamples.
Import Demo.
#[local] Existing Instance calm.

(** Claim C7 as stated fails: a success response that is not JSON makes
    [preferences], and [consume] with it, raise [ValueError]. *)
Lemma preferences_malformed_raises :
  prefs_truthy (_preferences html_page) = false ∧
  requests_get (prefs_url html_page)
    = Returned {| resp_ok := true; resp_json := None |} ∧
  outcome preferences html_page = Raised ValueError ∧
  outcome (consume bug_update) html_page = Raised ValueError.
Proof. vm_compute. repeat split; reflexivity. Qed.

(** [preferences_fetch_failure] with the service down. *)
Lemma preferences_fetch_failure_witness :
  let s := service_down in
  let s' := after preferences s in
  (prefs_truthy (_preferences s) = false ∧
   requests_get (prefs_url s)
     = Returned {| resp_ok := false; resp_json := None |} ∧
   resp_ok {| resp_ok := false; resp_json := None |} = false) ∧
  outcome preferences s = Returned [] ∧
  fetch_failed ∈ trace s' ∧
  _preferences s' = _preferences s.
Proof.
  assert (Hget : requests_get (prefs_url service_down)
                 = Returned {| resp_ok := false; resp_json := None |})
    by (vm_compute; reflexivity).
  split; [split; [reflexivity|split; [exact Hget|reflexivity]]|].
  exact (preferences_fetch_failure service_down _ eq_refl Hget eq_refl).
Defined.
End PreferencesExamples.

(** ** Frame properties of methods *)

Global Instance quiet_preorder : PreOrder quiet.
Proof.
  split.
  - intros s. repeat split; try reflexivity. exists [].
    split; [by rewrite app_nil_r|constructor].
  - intros s1 s2 s3 (Hn1 & Hd1 & Hl1 & Ht1 & l1 & Htr1 & Hf1)
                    (Hn2 & Hd2 & Hl2 & Ht2 & l2 & Htr2 & Hf2).
    repeat split; try congruence. exists (l1 ++ l2).
    split; [by rewrite Htr2, Htr1, app_assoc|by apply Forall_app].
Qed.

Section Preserves.
Context (R : relation Daemon) `{!PreOrder R}.

Lemma preserves_ret {A} (a : A) : preserves R (mret a).
Proof. intros s. reflexivity. Qed.

Lemma preserves_raise {A} e : preserves R (raise (A := A) e).
Proof. intros s. reflexivity. Qed.

Lemma preserves_lift {A} (o : Outcome A) : preserves R (lift o).
Proof. intros s. reflexivity. Qed.

Lemma preserves_gets {A} (f : Daemon -> A) : preserves R (gets f).
Proof. intros s. reflexivity. Qed.

Lemma preserves_modify f : (forall s, R s (f s)) -> preserves R (modify f).
Proof. intros Hf s. apply Hf. Qed.

Lemma preserves_bind {A B} (c : M A) (k : A -> M B) :
  preserves R c -> (forall a, preserves R (k a)) -> preserves R (c ≫= k).
Proof.
  intros Hc Hk s. unfold mbind, M_bind. specialize (Hc s).
  destruct (c s) as [[a|e] s1]; cbn in *; [|exact Hc].
  etrans; [exact Hc|apply Hk].
Qed.

Lemma preserves_try_except {A} (c : M A) (h : Exn -> M A) :
  preserves R c -> (forall e, preserves R (h e)) ->
  preserves R (try_except c h).
Proof.
  intros Hc Hh s. unfold try_except. specialize (Hc s).
  destruct (c s) as [[a|e] s1]; cbn in *; [exact Hc|].
  etrans; [exact Hc|apply Hh].
Qed.

Lemma preserves_for_each {A} (l : list A) (body : A -> M unit) :
  (forall x, preserves R (body x)) -> preserves R (for_each l body).
Proof.
  intros Hb. induction l as [|x l IH]; cbn [for_each].
  - apply preserves_ret.
  - apply preserves_bind; [apply Hb|intros _; exact IH].
Qed.
End Preserves.

(** Breaks a method down to its primitive steps. *)
Create HintDb frame.

Ltac preserve_steps :=
  repeat first
    [ solve [auto with frame nocore]
    | lazymatch goal with |- PreOrder _ => apply _ end
    | apply preserves_bind; [| |intros ?]
    | apply preserves_ret
    | apply preserves_raise
    | apply preserves_lift
    | apply preserves_gets
    | apply preserves_try_except; [| |intros ?]
    | apply preserves_for_each; [|intros ?]
    | assumption
    | case_match ].

Lemma quiet_log lv text : preserves quiet (log lv text).
Proof.
  intros s. repeat split; try reflexivity. cbn. eexists.
  split; [reflexivity|]. by repeat constructor.
Qed.

Lemma quiet_set_fmn_openid v : preserves quiet (modify (set_fmn_openid v)).
Proof.
  apply preserves_modify. intros s. repeat split; try reflexivity.
  exists []. cbn. split; [by rewrite app_nil_r|constructor]. Qed.

Lemma quiet_set_preferences v : preserves quiet (modify (set_preferences v)).
Proof.
  apply preserves_modify. intros s. repeat split; try reflexivity.
  exists []. cbn. split; [by rewrite app_nil_r|constructor]. Qed.

#[global] Hint Resolve quiet_log quiet_set_fmn_openid quiet_set_preferences
  : frame.


Global Instance same_store_preorder : PreOrder same_store.
Proof.
  split.
  - intros s. by repeat split.
  - intros s1 s2 s3 (? & ? & ? & ? & ?) (? & ? & ? & ? & ?).
    repeat split; try congruence. lia.
Qed.


Section Ignores.
Lemma ignores_ret {A} (a : A) : ignores_enabled_filters (mret a).
Proof. intros v s. reflexivity. Qed.

Lemma ignores_raise {A} e : ignores_enabled_filters (raise (A := A) e).
Proof. intros v s. reflexivity. Qed.

Lemma ignores_lift {A} (o : Outcome A) : ignores_enabled_filters (lift o).
Proof. intros v s. reflexivity. Qed.

Lemma ignores_gets {A} (f : Daemon -> A) :
  (forall v s, f (set_enabled_filters v s) = f s) ->
  ignores_enabled_filters (gets f).
Proof. intros Hf v s. unfold gets. by rewrite Hf. Qed.

Lemma ignores_modify f :
  (forall v s, f (set_enabled_filters v s) = set_enabled_filters v (f s)) ->
  ignores_enabled_filters (modify f).
Proof. intros Hf v s. unfold modify. by rewrite Hf. Qed.

Lemma ignores_bind {A B} (c : M A) (k : A -> M B) :
  ignores_enabled_filters c ->
  (forall a, ignores_enabled_filters (k a)) ->
  ignores_enabled_filters (c ≫= k).
Proof.
  intros Hc Hk v s. unfold mbind, M_bind. rewrite Hc.
  destruct (c s) as [[a|e] s1]; cbn; [apply Hk|reflexivity].
Qed.

Lemma ignores_try_except {A} (c : M A) (h : Exn -> M A) :
  ignores_enabled_filters c ->
  (forall e, ignores_enabled_filters (h e)) ->
  ignores_enabled_filters (try_except c h).
Proof.
  intros Hc Hh v s. unfold try_except. rewrite Hc.
  destruct (c s) as [[a|e] s1]; cbn; [reflexivity|apply Hh].
Qed.

Lemma ignores_for_each {A} (l : list A) (body : A -> M unit) :
  (forall x, ignores_enabled_filters (body x)) ->
  ignores_enabled_filters (for_each l body).
Proof.
  intros Hb. induction l as [|x l IH]; cbn [for_each].
  - apply ignores_ret.
  - apply ignores_bind; [apply Hb|intros _; exact IH].
Qed.
End Ignores.

Create HintDb ignores.

Ltac ignore_steps :=
  repeat first
    [ solve [auto with ignores nocore]
    | apply ignores_bind; [|intros ?]
    | apply ignores_ret
    | apply ignores_raise
    | apply ignores_lift
    | apply ignores_gets; reflexivity
    | apply ignores_modify; reflexivity
    | apply ignores_try_except; [|intros ?]
    | apply ignores_for_each; intros ?
    | assumption
    | case_match ].


(** ** MessageRouter *)

Section Router.
Context `{Collaborators}.

Lemma quiet_openid : preserves quiet openid.
Proof. unfold openid. preserve_steps. Qed.

Lemma quiet_preferences : preserves quiet preferences.
Proof. unfold preferences. preserve_steps. Qed.

Lemma quiet_resolve_recipients msg topic :
  preserves quiet (resolve_recipients msg topic).
Proof. unfold resolve_recipients. preserve_steps. Qed.

Lemma match_local_filters_none msg topic s :
  (forall f, f ∈ filters s ->
             filter_match f msg (msg2processor msg) = false) ->
  (forall p, p ∈ service_filters s -> re_match p topic = false) ->
  match_local_filters msg topic s =
    (Returned false,
     set_trace
       (trace s ++ [Log Debug ("Message to " ++ topic
                               ++ " didn't match filters")]) s).
Proof.
  intros Hf Hp. unfold match_local_filters. mred.
  assert (list_find (λ f, filter_match f msg (msg2processor msg) = true)
            (filters s) = None) as ->.
  { apply list_find_None, Forall_forall. intros f Hin.
    rewrite (Hf f Hin). discriminate. }
  mred.
  assert (list_find (λ p, re_match p topic = true) (service_filters s)
          = None) as ->.
  { apply list_find_None, Forall_forall. intros p Hin.
    rewrite (Hp p Hin). discriminate. }
  reflexivity.
Qed.

(** Claim C1.  When no custom filter and no service filter matches a
    message in local-filter mode, or when the recipients resolved for it
    are empty in remote-preference mode, [consume] returns; the queue, the
    pending displays, the downloads and the timers are untouched, and the
    trace has grown by log records only: no notification was shown and
    [MessageReceived] was not emitted. *)
Theorem consume_no_match m s :
  (use_server_prefs s = false ∧
   (forall f, f ∈ filters s ->
              filter_match f (body m) (msg2processor (body m)) = false) ∧
   (forall p, p ∈ service_filters s -> re_match p (topic m) = false))
  ∨ (use_server_prefs s = true ∧
     outcome (resolve_recipients (body m) (topic m)) s = Returned []) ->
  let s' := after (consume m) s in
  outcome (consume m) s = Returned tt ∧
  notifications s' = notifications s ∧
  deferred s' = deferred s ∧
  downloads s' = downloads s ∧
  timers s' = timers s ∧
  (exists logs, trace s' = trace s ++ logs ∧
                Forall (λ e, is_log e = true) logs) ∧
  (forall t b, MessageReceived t b ∈ trace s' ->
               MessageReceived t b ∈ trace s) ∧
  (forall n, Show n ∈ trace s' -> Show n ∈ trace s).
Proof.
  intros Hno s'.
  assert (Hrun : outcome (consume m) s = Returned tt ∧ quiet s s').
  { subst s'. unfold outcome, after, consume. mred.
    destruct Hno as [(Hmode & Hf & Hp)|(Hmode & Hrec)]; rewrite Hmode.
    - rewrite (match_local_filters_none _ _ _ Hf Hp). cbn.
      split; [reflexivity|]. apply (quiet_log _ _ s).
    - unfold match_server_prefs. mred.
      pose proof (quiet_resolve_recipients (body m) (topic m) s) as Hq.
      unfold outcome in Hrec.
      destruct (resolve_recipients (body m) (topic m) s) as [o s1].
      cbn in Hrec, Hq. subst o. cbn. split; [reflexivity|].
      etrans; [exact Hq|]. apply (quiet_log _ _ s1). }
  destruct Hrun as [Hout (Hn & Hd & Hl & Ht & logs & Htr & Hlogs)].
  repeat (split; [assumption|]). split; [by exists logs|].
  rewrite Htr. split.
  - intros t b [Hin|Hin]%elem_of_app; [exact Hin|].
    rewrite Forall_forall in Hlogs. by apply Hlogs in Hin.
  - intros n [Hin|Hin]%elem_of_app; [exact Hin|].
    rewrite Forall_forall in Hlogs. by apply Hlogs in Hin.
Qed.
End Router.

(** *** The router on the concrete world *)

Section RouterExamples.
Import Demo.
#[local] Existing Instance calm.

(** [consume_no_match] on a message of low priority, the filter wanting
    high. *)
Lemma consume_no_match_witness :
  let s := booted 5 0 in
  let m := low_priority in
  let s' := after (consume m) s in
  (use_server_prefs s = false ∧
   (forall f, f ∈ filters s ->
              filter_match f (body m) (msg2processor (body m)) = false) ∧
   (forall p, p ∈ service_filters s -> re_match p (topic m) = false)) ∧
  outcome (consume m) s = Returned tt ∧
  notifications s' = notifications s ∧
  deferred s' = deferred s ∧
  downloads s' = downloads s ∧
  timers s' = timers s ∧
  (exists logs, trace s' = trace s ++ logs ∧
                Forall (λ e, is_log e = true) logs) ∧
  (forall t b, MessageReceived t b ∈ trace s' ->
               MessageReceived t b ∈ trace s) ∧
  (forall n, Show n ∈ trace s' -> Show n ∈ trace s).
Proof.
  assert (Hno : use_server_prefs (booted 5 0) = false ∧
    (forall f, f ∈ filters (booted 5 0) ->
               filter_match f (body low_priority)
                 (msg2processor (body low_priority)) = false) ∧
    (forall p, p ∈ service_filters (booted 5 0) ->
               re_match p (topic low_priority) = false)).
  { split; [reflexivity|]. split.
    - intros f Hf. change (filters (booted 5 0))
        with [instantiate "urgent" "high"] in Hf.
      apply list_elem_of_singleton in Hf as ->. reflexivity.
    - intros p Hp.
      change (service_filters (booted 5 0)) with (@nil string) in Hp.
      by apply elem_of_nil in Hp. }
  split; [exact Hno|].
  exact (consume_no_match low_priority (booted 5 0) (or_introl Hno)).
Defined.

(** With the preference service down, a message that would match is
    dropped all the same. *)
Lemma consume_service_down :
  let s' := after (consume bug_update) service_down in
  outcome (consume bug_update) service_down = Returned tt ∧
  notifications s' = notifications service_down ∧
  fetch_failed ∈ trace s'.
Proof. vm_compute. repeat split. repeat constructor. Qed.
End RouterExamples.

(** ** FilterRegistry *)

Lemma set_filters_same s : set_filters (filters s) s = s.
Proof. destruct s; reflexivity. Qed.

Lemma py_remove_middle {A} `{EqDecision A} (pre : list A) x l :
  x ∉ pre -> py_remove x (pre ++ x :: l) = Returned (pre ++ l).
Proof.
  induction pre as [|y pre IH]; intros Hx; cbn.
  - by rewrite decide_True.
  - apply not_elem_of_cons in Hx as [Hxy Hx].
    rewrite decide_False by done. by rewrite IH.
Qed.

Lemma filter_ext_in {A} (P Q : A -> Prop) `{!∀ x, Decision (P x)}
    `{!∀ x, Decision (Q x)} (l : list A) :
  (forall x, x ∈ l -> P x <-> Q x) -> filter P l = filter Q l.
Proof.
  induction l as [|x l IH]; intros Hext; [reflexivity|].
  rewrite !filter_cons.
  rewrite IH by (intros; apply Hext; by right).
  pose proof (Hext x (list_elem_of_here _ _)) as Hx.
  destruct (decide (P x)), (decide (Q x)); tauto || reflexivity.
Qed.

Section Registry.
Context `{Collaborators}.

Lemma remove_loop name pre l s :
  filters s = pre ++ l ->
  Forall (λ f, f_class f ≠ name) pre ->
  for_each (filter (λ f, f_class f = name) l)
    (λ loaded_filter,
       cur ← gets filters;
       r ← lift (py_remove loaded_filter cur);
       modify (set_filters r)) s
  = (Returned tt,
     set_filters (pre ++ filter (λ f, f_class f ≠ name) l) s).
Proof.
  revert pre s. induction l as [|x l IH]; intros pre s Hs Hpre.
  - cbn. rewrite app_nil_r in *. rewrite <- Hs, set_filters_same.
    reflexivity.
  - destruct (decide (f_class x = name)) as [Hx|Hx].
    + rewrite filter_cons_True by done.
      rewrite filter_cons_False by (intros Hn; by apply Hn).
      cbn [for_each]. mred. rewrite Hs, py_remove_middle.
      2:{ intros Hin. rewrite Forall_forall in Hpre.
          by apply (Hpre x Hin). }
      cbn. rewrite (IH pre) by done. reflexivity.
    + rewrite filter_cons_False by done. rewrite filter_cons_True by done.
      rewrite (IH (pre ++ [x])).
      * by rewrite <- app_assoc.
      * by rewrite <- app_assoc.
      * apply Forall_app. split; [done|by constructor].
Qed.

Lemma remove_loaded_run name s :
  remove_loaded name s
  = (Returned tt,
     set_filters (filter (λ f, f_class f ≠ name) (filters s)) s).
Proof.
  unfold remove_loaded. mred.
  apply (remove_loop name [] (filters s) s); [reflexivity|constructor].
Qed.

Lemma reload_filter_run enabled d name s :
  exists logs,
    reload_filter enabled (JObject d) name s
    = (Returned tt,
       set_trace (trace s ++ logs)
         (set_filters
            (reload_step enabled (enabled_filters s) d (filters s) name)
            s))
    ∧ Forall (λ e, is_log e = true) logs.
Proof.
  unfold reload_filter, reload_step. mred.
  destruct (bool_decide (name ∈ enabled)
            && bool_decide (name ∉ enabled_filters s)) eqn:Hrm;
    destruct (bool_decide (name ∉ enabled)
              && bool_decide (name ∈ enabled_filters s)) eqn:Hadd;
    mred; rewrite ?remove_loaded_run; cbn.
  - eexists [_; _]. split; [by rewrite <- app_assoc|by repeat constructor].
  - eexists [_]. split; [reflexivity|by repeat constructor].
  - eexists [_]. split; [reflexivity|by repeat constructor].
  - exists []. rewrite app_nil_r. split; [|constructor].
    destruct s; reflexivity.
Qed.

Lemma reload_loop enabled d names l s :
  enabled_filters s = names ->
  exists logs,
    for_each l (reload_filter enabled (JObject d)) s
    = (Returned tt,
       set_trace (trace s ++ logs)
         (set_filters (foldl (reload_step enabled names d) (filters s) l) s))
    ∧ Forall (λ e, is_log e = true) logs.
Proof.
  revert s. induction l as [|name l IH]; intros s Hs.
  - exists []. cbn. rewrite app_nil_r. split; [|constructor].
    destruct s; reflexivity.
  - cbn [for_each foldl]. unfold mbind, M_bind.
    destruct (reload_filter_run enabled d name s) as (l1 & -> & Hl1).
    destruct (IH (set_trace (trace s ++ l1)
                    (set_filters
                       (reload_step enabled (enabled_filters s) d
                          (filters s) name) s)))
      as (l2 & -> & Hl2); [exact Hs|].
    exists (l1 ++ l2). cbn. rewrite Hs, <- app_assoc.
    split; [reflexivity|by apply Forall_app].
Qed.

Lemma filter_all {A} (P : A -> Prop) `{!∀ x, Decision (P x)} (l : list A) :
  (forall x, x ∈ l -> P x) -> filter P l = l.
Proof.
  induction l as [|x l IH]; intros Hall; [reflexivity|].
  rewrite filter_cons_True by (apply Hall; by left).
  f_equal. apply IH. intros; apply Hall; by right.
Qed.

Lemma reload_fold names d old l :
  foldl (reload_step (f_class <$> old) names d) old l
  = filter (λ f, ¬ (f_class f ∈ l ∧ f_class f ∉ names)) old
    ++ (configured d
          <$> filter (λ n, (n ∉ f_class <$> old) ∧ n ∈ names) l).
Proof.
  induction l as [|x l IH] using rev_ind.
  - cbn. rewrite app_nil_r. symmetry. apply filter_all.
    intros f _ [Hin _]. by apply elem_of_nil in Hin.
  - rewrite foldl_snoc, IH, filter_app, fmap_app. unfold reload_step.
    set (enabled := f_class <$> old).
    assert (Hold : forall f, f ∈ old -> f_class f ∈ enabled).
    { intros f Hf. by apply list_elem_of_fmap_2. }
    destruct (decide (x ∈ enabled)) as [Hen|Hen];
      destruct (decide (x ∈ names)) as [Hnm|Hnm];
      repeat first [ rewrite (bool_decide_eq_true_2 _ Hen)
                   | rewrite (bool_decide_eq_true_2 _ Hnm)
                   | (rewrite (bool_decide_eq_false_2 (x ∈ enabled)) by done)
                   | (rewrite (bool_decide_eq_false_2 (x ∈ names)) by done)
                   | (rewrite (bool_decide_eq_true_2 (x ∉ enabled)) by done)
                   | (rewrite (bool_decide_eq_true_2 (x ∉ names)) by done)
                   | (rewrite (bool_decide_eq_false_2 (x ∉ enabled)) by tauto)
                   | (rewrite (bool_decide_eq_false_2 (x ∉ names)) by tauto) ];
      cbn [andb].
    + (* still enabled: nothing to do *)
      rewrite filter_cons_False by (cbv beta; intuition).
      rewrite filter_nil, app_nil_r. f_equal.
      apply filter_ext_in. intros f Hf.
      rewrite elem_of_app, list_elem_of_singleton.
      intuition (subst; auto).
    + (* just disabled: its instances go *)
      rewrite filter_cons_False by (cbv beta; intuition).
      rewrite filter_nil, app_nil_r, filter_app, list_filter_filter.
      f_equal.
      * apply filter_ext_in. intros f Hf.
        rewrite elem_of_app, list_elem_of_singleton.
      intuition (subst; auto).
      * apply filter_all. intros f (n & -> & Hn)%list_elem_of_fmap.
        apply list_elem_of_filter in Hn as [[Hn _] _].
        cbn. intros ->. done.
    + (* just enabled: one instance is appended *)
      rewrite filter_cons_True by (cbv beta; intuition).
      rewrite filter_nil, <- app_assoc. f_equal.
      apply filter_ext_in. intros f Hf. specialize (Hold f Hf).
      rewrite elem_of_app, list_elem_of_singleton.
      intuition (subst; auto).
    + (* neither enabled nor loaded *)
      rewrite filter_cons_False by (cbv beta; intuition).
      rewrite filter_nil, app_nil_r. f_equal.
      apply filter_ext_in. intros f Hf. specialize (Hold f Hf).
      rewrite elem_of_app, list_elem_of_singleton.
      intuition (subst; auto).
Qed.



End Registry.

Section Inert.
Context `{Collaborators}.

Lemma ignores_note_show n : ignores_enabled_filters (note_show n).
Proof. unfold note_show. ignore_steps. Qed.

Lemma ignores_note_close n : ignores_enabled_filters (note_close n).
Proof. unfold note_close. ignore_steps. Qed.

Hint Resolve ignores_note_show ignores_note_close : ignores.

Lemma ignores_display_notification body :
  ignores_enabled_filters (display_notification body).
Proof. unfold display_notification. ignore_steps. Qed.

Hint Resolve ignores_display_notification : ignores.

Lemma ignores_get_icon icon : ignores_enabled_filters (get_icon icon).
Proof. unfold get_icon. ignore_steps. Qed.

Hint Resolve ignores_get_icon : ignores.

Lemma ignores_notify msg : ignores_enabled_filters (notify msg).
Proof. unfold notify, fetch_icons. ignore_steps. Qed.

Hint Resolve ignores_notify : ignores.

Lemma ignores_openid : ignores_enabled_filters openid.
Proof. unfold openid. ignore_steps. Qed.

Hint Resolve ignores_openid : ignores.

Lemma ignores_preferences : ignores_enabled_filters preferences.
Proof. unfold preferences. ignore_steps. Qed.

Hint Resolve ignores_preferences : ignores.

Lemma ignores_consume m : ignores_enabled_filters (consume m).
Proof.
  unfold consume, match_server_prefs, resolve_recipients,
    match_local_filters.
  ignore_steps.
Qed.

Lemma settings_changed_filter_settings st s :
  settings_changed st "filter-settings" s
  = (Returned tt, set_enabled_filters (get_enabled_filters (settings s)) s).
Proof.
  unfold settings_changed. mred.
  rewrite decide_False by discriminate.
  rewrite decide_True by reflexivity. reflexivity.
Qed.

(** Claim C9.  A change of [filter-settings] returns having reassigned
    [enabled_filters] and nothing else: the custom filters and the service
    filters are the same, and [consume] then has, on every message, the
    outcome and the effects it would have had before the change. *)
Theorem filter_settings_change_is_inert st s :
  let names := get_enabled_filters (settings s) in
  let s' := after (settings_changed st "filter-settings") s in
  outcome (settings_changed st "filter-settings") s = Returned tt ∧
  s' = set_enabled_filters names s ∧
  filters s' = filters s ∧
  service_filters s' = service_filters s ∧
  (forall m,
      outcome (consume m) s' = outcome (consume m) s ∧
      after (consume m) s' = set_enabled_filters names (after (consume m) s)).
Proof.
  intros names s'. subst s'. unfold after, outcome.
  rewrite settings_changed_filter_settings. cbn.
  repeat (split; [reflexivity|]). intros m.
  rewrite (ignores_consume m). split; reflexivity.
Qed.
End Inert.

(** *** The registry on the concrete world *)

Section RegistryExamples.
Import Demo Scenes.
#[local] Existing Instance calm.



(** On that state the class [mine] goes and [urgent] comes, built from
    its persisted settings. *)
Lemma toggled_filters :
  filters (after (settings_changed (settings toggled) "enabled-filters")
             toggled)
  = [instantiate "urgent" "high"].
Proof. vm_compute. reflexivity. Qed.
End RegistryExamples.


(** ** Start-up *)

Global Instance same_queue_preorder : PreOrder same_queue.
Proof.
  split.
  - intros s. by split.
  - intros s1 s2 s3 [? ?] [? ?]. split; congruence.
Qed.

Section Startup.
Context `{Collaborators}.

Lemma same_queue_log lv text : preserves same_queue (log lv text).
Proof. intros s. by split. Qed.

Lemma same_queue_set_filters v : preserves same_queue (modify (set_filters v)).
Proof. intros s. by split. Qed.

Lemma same_queue_set_enabled_filters v :
  preserves same_queue (modify (set_enabled_filters v)).
Proof. intros s. by split. Qed.

Lemma same_queue_set_service_filters v :
  preserves same_queue (modify (set_service_filters v)).
Proof. intros s. by split. Qed.

Lemma same_queue_set_emit_dbus_signals v :
  preserves same_queue (modify (set_emit_dbus_signals v)).
Proof. intros s. by split. Qed.

Lemma same_queue_set_expire v : preserves same_queue (modify (set_expire v)).
Proof. intros s. by split. Qed.

#[local] Hint Resolve same_queue_log same_queue_set_filters
  same_queue_set_enabled_filters same_queue_set_service_filters
  same_queue_set_emit_dbus_signals same_queue_set_expire : frame.

(** No settings change touches the queue or its maximum. *)
Lemma same_queue_settings_changed st key :
  preserves same_queue (settings_changed st key).
Proof.
  unfold settings_changed, reload_filter, remove_loaded. preserve_steps.
Qed.

(** [__init__] leaves one notification at most in the queue, and the
    maximum read from the settings. *)
Lemma init_queue st session_bus tmpdir dk :
  let s := (__init__ st session_bus tmpdir dk).2 in
  (length (notifications s) ≤ 1)%nat ∧
  max_notifications s = get_int st "max-notifications".
Proof.
  cbv zeta. remember (__init__ st session_bus tmpdir dk) as r eqn:Hr.
  unfold __init__ in Hr. cbv zeta in Hr.
  destruct (negb (get_boolean st "enabled"));
    [subst r; split; [apply Nat.le_0_l|done]|].
  destruct session_bus as [[|]|];
    [subst r; split; [apply Nat.le_0_l|done]|
    |subst r; split; [apply Nat.le_0_l|done]].
  unfold mbind at 1, M_bind at 1 in Hr. cbn [modify] in Hr.
  unfold mbind at 1, M_bind at 1 in Hr.
  match type of Hr with
  | context [settings_changed st ?k ?s0] =>
      destruct (same_queue_settings_changed st k s0) as [Hq Hm];
      destruct (settings_changed st k s0) as [[[]|e] s1]
  end; cbn in Hq, Hm;
    [|subst r; split; [cbn; rewrite Hq; apply Nat.le_0_l|exact Hm]].
  revert Hr. mred. unfold note_show.
  destruct (show_raises _); mred; intros ->; cbn;
    (split; [rewrite Hq; first [apply Nat.le_0_l|reflexivity]|exact Hm]).
Qed.

(** From start-up on, whatever is pushed, the queue of a daemon
    configured with a maximum of one or more never exceeds it. *)
Lemma started_queue_bounded st session_bus tmpdir dk bodies :
  (1 ≤ get_int st "max-notifications")%Z ->
  let s := foldl (λ s body, after (display_notification body) s)
             (__init__ st session_bus tmpdir dk).2 bodies in
  (Z.of_nat (length (notifications s)) ≤ max_notifications s)%Z.
Proof.
  intros Hmax.
  destruct (init_queue st session_bus tmpdir dk) as [Hlen Hm].
  cbv zeta in *.
  assert (Hb : (Z.of_nat (length (notifications
                                    (__init__ st session_bus tmpdir dk).2))
                ≤ max_notifications (__init__ st session_bus tmpdir dk).2)%Z)
    by (rewrite Hm; lia).
  clear Hlen Hm. revert Hb.
  generalize (__init__ st session_bus tmpdir dk).2.
  induction bodies as [|body bodies IH]; intros s Hb; [exact Hb|].
  cbn [foldl]. apply IH. by apply display_notification_bound.
Qed.
End Startup.

(** ** IconCache *)

Lemma string_app_inj (p x y : string) :
  (p ++ x)%string = (p ++ y)%string -> x = y.
Proof.
  induction p as [|c p IH]; cbn; [done|]. intros [= Heq]. by apply IH.
Qed.

Section IconCache.
Context `{Collaborators}.

Lemma get_icon_downloads icon s :
  _icon_cache s !! icon = None ->
  disk s !! icon_file s icon = None ->
  get_icon icon s = (Returned (Some (next_id s)), downloading icon s).
Proof.
  intros Hc Hd. unfold get_icon. mred. rewrite Hc. cbn.
  fold (icon_file s icon). rewrite Hd. reflexivity.
Qed.

Lemma same_store_fresh : preserves same_store fresh.
Proof. intros s. unfold fresh. mred. repeat split; cbn; lia. Qed.

Lemma same_store_emit e : preserves same_store (emit e).
Proof. intros s. by repeat split. Qed.

Lemma same_store_log lv text : preserves same_store (log lv text).
Proof. apply same_store_emit. Qed.

Lemma same_store_set_notifications v :
  preserves same_store (modify (set_notifications v)).
Proof. intros s. by repeat split. Qed.

Lemma same_store_set_timers v :
  preserves same_store (modify (set_timers v)).
Proof. intros s. by repeat split. Qed.

#[local] Hint Resolve same_store_fresh same_store_emit same_store_log
  same_store_set_notifications same_store_set_timers : frame.

Lemma same_store_display_notification body :
  preserves same_store (display_notification body).
Proof.
  unfold display_notification, new_notification, show_and_queue,
    note_show, note_close, get_icons.
  preserve_steps.
Qed.

#[local] Hint Resolve same_store_display_notification : frame.

Lemma same_store_set_deferred v :
  preserves same_store (modify (set_deferred v)).
Proof. intros s. by repeat split. Qed.

#[local] Hint Resolve same_store_set_deferred : frame.

Lemma same_store_fire_deferred i : preserves same_store (fire_deferred i).
Proof. unfold fire_deferred. preserve_steps. Qed.

Lemma find_download (pre : list Download) d post :
  (forall d', d' ∈ pre -> d_id d' ≠ d_id d) ->
  list_find (λ x, d_id x = d_id d) (pre ++ d :: post)
  = Some (length pre, d).
Proof.
  intros Hpre. apply list_find_Some. split; [|split; [reflexivity|]].
  - by apply list_lookup_middle.
  - intros j y Hj Hlt. rewrite lookup_app_l in Hj by done.
    apply Hpre. by eapply list_elem_of_lookup_2.
Qed.

Lemma download_done_run i content s k d :
  list_find (λ x, d_id x = i) (downloads s) = Some (k, d) ->
  let s' := after (download_done i (Some content)) s in
  (_icon_cache s', disk s') = landed d content (_icon_cache s, disk s) ∧
  downloads s' = delete k (downloads s) ∧
  cache_dir s' = cache_dir s ∧
  (next_id s ≤ next_id s')%nat.
Proof.
  intros Hfind s'. subst s'. unfold after, download_done. mred.
  rewrite Hfind. mred. unfold cache_icon. mred.
  rewrite lookup_insert_eq.
  mred. unfold landed.
  destruct (_icon_cache s !! md5_hexdigest content) as [existing|]; mred.
  all: match goal with
       | |- context [fire_deferred ?j ?s0] =>
           destruct (same_store_fire_deferred j s0)
             as (Hc & Hd & Hl & Hcd & Hn)
       end.
  all: cbn in *; rewrite Hc, Hd, Hl, Hcd; repeat split; done.
Qed.

Lemma icon_file_inj s a b :
  uuid5_url a ≠ uuid5_url b -> icon_file s a ≠ icon_file s b.
Proof.
  intros Hne Heq. apply Hne. unfold icon_file, path_join in Heq.
  by do 2 apply string_app_inj in Heq.
Qed.

(** Two pages of the same content land one after the other: the second
    is dropped in favour of the first. *)
Lemma two_landings cache dk dx dy content :
  d_url dx ≠ d_url dy ->
  d_file dx ≠ d_file dy ->
  cache !! md5_hexdigest content = None ->
  (forall p, dk !! p ≠ Some content) ->
  let st := landed dy content (landed dx content (cache, dk)) in
  st.1 !! d_url dx = Some (d_file dx) ∧
  st.1 !! d_url dy = Some (d_file dx) ∧
  st.2 !! d_file dx = Some content ∧
  st.2 !! d_file dy = None ∧
  forall p, st.2 !! p = Some content -> p = d_file dx.
Proof.
  intros Hurl Hfile Hh Hfresh. unfold landed. rewrite Hh.
  rewrite lookup_insert_eq. cbn. repeat split.
  - rewrite lookup_insert_ne by done. rewrite lookup_insert.
    case_decide; [done|]. by rewrite lookup_insert_eq.
  - by rewrite lookup_insert_eq.
  - rewrite lookup_delete_ne, lookup_insert_ne by done.
    by rewrite lookup_insert_eq.
  - by rewrite lookup_delete_eq.
  - intros p. destruct (decide (p = d_file dy)) as [->|Hy].
    { by rewrite lookup_delete_eq. }
    rewrite lookup_delete_ne, lookup_insert_ne by done.
    destruct (decide (p = d_file dx)) as [->|Hx]; [done|].
    rewrite lookup_insert_ne by done. intros Hp. by apply Hfresh in Hp.
Qed.

Lemma share_one_file_of_store a b content kept dropped s st :
  (_icon_cache s, disk s) = st ->
  st.1 !! a = Some kept -> st.1 !! b = Some kept ->
  st.2 !! kept = Some content -> st.2 !! dropped = None ->
  (forall p, st.2 !! p = Some content -> p = kept) ->
  share_one_file a b content kept dropped s.
Proof. intros <-. cbn. by repeat split. Qed.

(** Each reference asked for once.  Take two distinct icon references,
    neither cached yet, with distinct cache file names, whose downloads
    deliver the same content, that content being new to the cache and to
    the disk.  Both [get_icon] calls start a download; once both pages
    have landed, in either order, or the second was asked for after the
    first had landed, the cache maps both references to the file of the
    page that landed first, that file is the only one holding the content,
    and the file of the other page has been deleted.  This is the state
    right after the two landings: a download of one of the references that
    was already in flight undoes it, see [identical_icons_lose_file]. *)
Theorem identical_icons_share_one_file a b content s :
  a ≠ b ->
  uuid5_url a ≠ uuid5_url b ->
  _icon_cache s !! a = None ->
  _icon_cache s !! b = None ->
  _icon_cache s !! md5_hexdigest content = None ->
  disk s !! icon_file s a = None ->
  disk s !! icon_file s b = None ->
  (forall p, disk s !! p ≠ Some content) ->
  (forall d, d ∈ downloads s -> d_id d < next_id s) ->
  b ≠ md5_hexdigest content ->
  let fa := icon_file s a in
  let fb := icon_file s b in
  let ia := next_id s in
  let ib := S (next_id s) in
  let s1 := after (get_icon a) s in
  let s2 := after (get_icon b) s1 in
  let page := Some content in
  outcome (get_icon a) s = Returned (Some ia) ∧
  outcome (get_icon b) s1 = Returned (Some ib) ∧
  share_one_file a b content fa fb
    (after (download_done ib page) (after (download_done ia page) s2)) ∧
  share_one_file a b content fb fa
    (after (download_done ia page) (after (download_done ib page) s2)) ∧
  (let t1 := after (download_done ia page) s1 in
   let t2 := after (get_icon b) t1 in
   outcome (get_icon b) t1 = Returned (Some (next_id t1)) ∧
   share_one_file a b content fa fb
     (after (download_done (next_id t1) page) t2)).
Proof.
  intros Hab Huuid Hca Hcb Hch Hda Hdb Hfresh Hids Hbh
         fa fb ia ib s1 s2 page.
  subst page.
  assert (Hfile : fa ≠ fb) by by apply icon_file_inj.
  set (da := {| d_id := ia; d_url := a; d_file := fa |}).
  set (db := {| d_id := ib; d_url := b; d_file := fb |}).
  assert (Hs1 : get_icon a s = (Returned (Some ia), downloading a s))
    by by apply get_icon_downloads.
  assert (Hs2 : get_icon b (downloading a s)
                = (Returned (Some ib), downloading b (downloading a s)))
    by by apply get_icon_downloads.
  subst s2 s1. unfold outcome, after. rewrite Hs1. cbn [fst snd].
  rewrite Hs2. cbn [fst snd].
  split; [reflexivity|]. split; [reflexivity|].
  set (s2 := downloading b (downloading a s)).
  assert (Hd2 : downloads s2 = downloads s ++ [da; db]).
  { subst s2. cbn. by rewrite <- app_assoc. }
  assert (Hne : forall d', d' ∈ downloads s -> d_id d' ≠ ia ∧ d_id d' ≠ ib).
  { intros d' Hd'. apply Hids in Hd'. subst ia ib. lia. }
  split; [|split].
  - (* the page of [a] lands first *)
    destruct (download_done_run ia content s2 (length (downloads s)) da)
      as (Hst3 & Hdl3 & _).
    { rewrite Hd2. apply (find_download _ da). intros; by apply Hne. }
    fold (after (download_done ia (Some content)) s2) in Hst3, Hdl3.
    set (s3 := after (download_done ia (Some content)) s2) in *.
    rewrite Hd2, delete_middle in Hdl3.
    destruct (download_done_run ib content s3 (length (downloads s)) db)
      as (Hst4 & _).
    { rewrite Hdl3. apply (find_download _ db). intros; by apply Hne. }
    fold (after (download_done ib (Some content)) s3) in Hst4.
    rewrite Hst3 in Hst4.
    destruct (two_landings (_icon_cache s) (disk s) da db content)
      as (? & ? & ? & ? & ?); try done.
    by eapply share_one_file_of_store.
  - (* the page of [b] lands first *)
    destruct (download_done_run ib content s2
                (length (downloads s ++ [da])) db) as (Hst3 & Hdl3 & _).
    { rewrite Hd2. rewrite (app_assoc _ [da] [db]).
      apply (find_download _ db).
      intros d' [Hd'| ->%list_elem_of_singleton]%elem_of_app.
      - by apply Hne.
      - cbn. subst ia ib. lia. }
    fold (after (download_done ib (Some content)) s2) in Hst3, Hdl3.
    set (s3 := after (download_done ib (Some content)) s2) in *.
    rewrite Hd2, (app_assoc _ [da] [db]), delete_middle, app_nil_r
      in Hdl3.
    destruct (download_done_run ia content s3 (length (downloads s)) da)
      as (Hst4 & _).
    { rewrite Hdl3. apply (find_download _ da). intros; by apply Hne. }
    fold (after (download_done ia (Some content)) s3) in Hst4.
    rewrite Hst3 in Hst4.
    destruct (two_landings (_icon_cache s) (disk s) db da content)
      as (? & ? & ? & ? & ?); try done.
    by eapply share_one_file_of_store.
  - (* the page of [a] lands before [b] is asked for *)
    destruct (download_done_run ia content (downloading a s)
                (length (downloads s)) da) as (Hst & Hdl & Hdir & Hid).
    { cbn. apply (find_download _ da). intros; by apply Hne. }
    cbn in Hst, Hdl, Hdir, Hid. unfold after in Hst, Hdl, Hdir, Hid.
    set (t1 := (download_done ia (Some content) (downloading a s)).2) in *.
    assert (Hfb : icon_file t1 b = fb).
    { unfold icon_file. by rewrite Hdir. }
    assert (Hstore : (_icon_cache t1, disk t1)
                     = landed da content (_icon_cache s, disk s))
      by exact Hst.
    unfold landed in Hst. rewrite Hch in Hst. cbn in Hst.
    injection Hst as Hc1 Hd1.
    rewrite delete_middle, app_nil_r in Hdl.
    assert (Hget : get_icon b t1
                   = (Returned (Some (next_id t1)), downloading b t1)).
    { apply get_icon_downloads.
      - rewrite Hc1. rewrite !lookup_insert_ne by done. exact Hcb.
      - rewrite Hfb, Hd1. by rewrite lookup_insert_ne. }
    rewrite Hget. cbn [fst snd]. split; [reflexivity|].
    set (db' := {| d_id := next_id t1; d_url := b; d_file := fb |}).
    destruct (download_done_run (next_id t1) content (downloading b t1)
                (length (downloads s)) db') as (Hst' & _).
    { cbn. rewrite Hdl, Hfb. apply (find_download _ db').
      intros d' Hd'. apply Hids in Hd'. cbn in *. lia. }
    change (_icon_cache (downloading b t1), disk (downloading b t1))
      with (_icon_cache t1, disk t1) in Hst'.
    rewrite Hstore in Hst'.
    destruct (two_landings (_icon_cache s) (disk s) da db' content)
      as (? & ? & ? & ? & ?); try done.
    by eapply share_one_file_of_store.
Qed.

(** Claim C4.  The claim fails when one of the two references is asked for
    a second time before its first page has landed.  Take two distinct
    references [a] and [b], neither cached yet, with distinct cache file
    names, whose downloads deliver the same content, new to the cache and
    to the disk; [a] is asked for twice, then [b].  When the first page of
    [a] and the page of [b] have landed, both references resolve to the
    file of [a], the only one that holds the content.  When the second page
    of [a] lands, [cache_icon] finds its checksum in the cache and unlinks
    the file it has just been written to, which is the file the cache
    names: both references still resolve to it, and no file holds the
    content any more. *)
Theorem identical_icons_lose_file a b content s :
  a ≠ b ->
  uuid5_url a ≠ uuid5_url b ->
  _icon_cache s !! a = None ->
  _icon_cache s !! b = None ->
  _icon_cache s !! md5_hexdigest content = None ->
  disk s !! icon_file s a = None ->
  disk s !! icon_file s b = None ->
  (forall p, disk s !! p ≠ Some content) ->
  (forall d, d ∈ downloads s -> d_id d < next_id s) ->
  let fa := icon_file s a in
  let fb := icon_file s b in
  let i := next_id s in
  let page := Some content in
  let s1 := after (get_icon a) s in
  let s2 := after (get_icon a) s1 in
  let s3 := after (get_icon b) s2 in
  let t1 := after (download_done i page) s3 in
  let t2 := after (download_done (S (S i)) page) t1 in
  let t3 := after (download_done (S i) page) t2 in
  outcome (get_icon a) s = Returned (Some i) ∧
  outcome (get_icon a) s1 = Returned (Some (S i)) ∧
  outcome (get_icon b) s2 = Returned (Some (S (S i))) ∧
  share_one_file a b content fa fb t2 ∧
  _icon_cache t3 !! a = Some fa ∧
  _icon_cache t3 !! b = Some fa ∧
  disk t3 !! fa = None ∧
  disk t3 !! fb = None ∧
  forall p, disk t3 !! p ≠ Some content.
Proof.
  intros Hab Huuid Hca Hcb Hm Hda Hdb Hfresh Hids fa fb i page
         s1 s2 s3 t1 t2 t3.
  assert (Hfile : fa ≠ fb) by by apply icon_file_inj.
  pose (d1 := {| d_id := i; d_url := a; d_file := fa |}).
  pose (d2 := {| d_id := S i; d_url := a; d_file := fa |}).
  pose (d3 := {| d_id := S (S i); d_url := b; d_file := fb |}).
  (* the three requests *)
  assert (E1 : get_icon a s = (Returned (Some i), downloading a s))
    by by apply get_icon_downloads.
  assert (Es1 : s1 = downloading a s) by (unfold s1, after; by rewrite E1).
  assert (E2 : get_icon a s1 = (Returned (Some (S i)), downloading a s1))
    by (rewrite Es1; by apply get_icon_downloads).
  assert (Es2 : s2 = downloading a s1) by (unfold s2, after; by rewrite E2).
  assert (E3 : get_icon b s2
               = (Returned (Some (S (S i))), downloading b s2))
    by (rewrite Es2, Es1; by apply get_icon_downloads).
  assert (Es3 : s3 = downloading b s2) by (unfold s3, after; by rewrite E3).
  unfold outcome. rewrite E1, E2, E3. cbn [fst].
  split; [reflexivity|]. split; [reflexivity|]. split; [reflexivity|].
  assert (Hstore3 : (_icon_cache s3, disk s3) = (_icon_cache s, disk s))
    by (by rewrite Es3, Es2, Es1).
  assert (Hd3 : downloads s3 = downloads s ++ [d1; d2; d3]).
  { rewrite Es3, Es2, Es1.
    cbn [downloads downloading set_downloads set_next_id set_trace].
    by rewrite <- app_assoc, <- app_assoc. }
  clearbody s3. clear E1 E2 E3 Es1 Es2 Es3. clearbody s1 s2.
  assert (Hne : forall d', d' ∈ downloads s ->
                           d_id d' ≠ i ∧ d_id d' ≠ S i ∧ d_id d' ≠ S (S i)).
  { intros d' Hd'. apply Hids in Hd'. unfold i. lia. }
  (* the first page of [a] lands *)
  assert (H1 : (_icon_cache t1, disk t1)
               = landed d1 content (_icon_cache s, disk s)
               ∧ downloads t1 = downloads s ++ [d2; d3]).
  { destruct (download_done_run i content s3 (length (downloads s)) d1)
      as (Hst & Hdl & _).
    { rewrite Hd3. apply (find_download _ d1). intros; by apply Hne. }
    rewrite Hstore3 in Hst. rewrite Hd3, delete_middle in Hdl. by split. }
  destruct H1 as [Hst1 Hdl1]. clearbody t1.
  (* the page of [b] lands *)
  assert (H2 : (_icon_cache t2, disk t2)
               = landed d3 content
                   (landed d1 content (_icon_cache s, disk s))
               ∧ downloads t2 = downloads s ++ [d2]).
  { destruct (download_done_run (S (S i)) content t1
                (length (downloads s ++ [d2])) d3) as (Hst & Hdl & _).
    { rewrite Hdl1. rewrite (app_assoc _ [d2] [d3]).
      apply (find_download _ d3).
      intros d' [Hd'| ->%list_elem_of_singleton]%elem_of_app.
      - by apply Hne.
      - cbn. lia. }
    rewrite Hst1 in Hst.
    rewrite Hdl1, (app_assoc _ [d2] [d3]), delete_middle, app_nil_r in Hdl.
    by split. }
  destruct H2 as [Hst2 Hdl2]. clearbody t2.
  destruct (two_landings (_icon_cache s) (disk s) d1 d3 content)
    as (H2a & H2b & H2fa & H2fb & H2only); try done.
  cbv zeta in H2a, H2b, H2fa, H2fb, H2only.
  split; [by eapply share_one_file_of_store|].
  (* the second page of [a] lands *)
  assert (Hst3 : (_icon_cache t3, disk t3)
                 = landed d2 content
                     (landed d3 content
                        (landed d1 content (_icon_cache s, disk s)))).
  { destruct (download_done_run (S i) content t2 (length (downloads s)) d2)
      as (Hst & _).
    { rewrite Hdl2. apply (find_download _ d2). intros; by apply Hne. }
    by rewrite Hst2 in Hst. }
  clearbody t3.
  set (st2 := landed d3 content (landed d1 content (_icon_cache s, disk s)))
    in *.
  assert (Hsum : st2.1 !! md5_hexdigest content = Some fa).
  { destruct (decide (b = md5_hexdigest content)) as [<-|Hne']; [exact H2b|].
    subst st2. unfold landed at 2. rewrite Hm. unfold landed.
    rewrite lookup_insert_eq. cbn [fst d_url d_file d1 d3].
    rewrite lookup_insert_ne by done. apply lookup_insert_eq. }
  destruct st2 as [cache2 dk2]. cbn [fst snd] in *.
  unfold landed in Hst3. rewrite Hsum in Hst3.
  cbn [d_url d_file d2] in Hst3. injection Hst3 as Hc3 Hdk3.
  rewrite Hc3, Hdk3. repeat split.
  - apply lookup_insert_eq.
  - by rewrite lookup_insert_ne.
  - apply lookup_delete_eq.
  - rewrite lookup_delete_ne, lookup_insert_ne by done. exact H2fb.
  - intros p Hp. destruct (decide (p = fa)) as [->|Hpa].
    + by rewrite lookup_delete_eq in Hp.
    + rewrite lookup_delete_ne, lookup_insert_ne in Hp by done.
      by apply H2only in Hp.
Qed.
End IconCache.

(** *** The icon cache on the concrete world *)

Section IconExamples.
Import Demo.
#[local] Existing Instance calm.

(** [identical_icons_share_one_file] on two logos. *)
Lemma identical_icons_share_one_file_witness :
  let s := booted 5 0 in
  let a := "http://a/logo.png" in
  let b := "http://b/logo.png" in
  let content := "PNG" in
  let fa := icon_file s a in
  let fb := icon_file s b in
  let ia := next_id s in
  let ib := S (next_id s) in
  let s1 := after (get_icon a) s in
  let s2 := after (get_icon b) s1 in
  let page := Some content in
  (a ≠ b ∧ uuid5_url a ≠ uuid5_url b ∧
   _icon_cache s !! a = None ∧ _icon_cache s !! b = None ∧
   _icon_cache s !! md5_hexdigest content = None ∧
   disk s !! icon_file s a = None ∧ disk s !! icon_file s b = None ∧
   (forall p, disk s !! p ≠ Some content) ∧
   (forall d, d ∈ downloads s -> d_id d < next_id s) ∧
   b ≠ md5_hexdigest content) ∧
  outcome (get_icon a) s = Returned (Some ia) ∧
  outcome (get_icon b) s1 = Returned (Some ib) ∧
  share_one_file a b content fa fb
    (after (download_done ib page) (after (download_done ia page) s2)) ∧
  share_one_file a b content fb fa
    (after (download_done ia page) (after (download_done ib page) s2)) ∧
  (let t1 := after (download_done ia page) s1 in
   let t2 := after (get_icon b) t1 in
   outcome (get_icon b) t1 = Returned (Some (next_id t1)) ∧
   share_one_file a b content fa fb
     (after (download_done (next_id t1) page) t2)).
Proof.
  assert (Hdisk : forall p, disk (booted 5 0) !! p ≠ Some "PNG").
  { intros p. change (disk (booted 5 0)) with (∅ : gmap string string).
    by rewrite lookup_empty. }
  assert (Hdl : forall d, d ∈ downloads (booted 5 0) ->
                          d_id d < next_id (booted 5 0)).
  { intros d Hd. change (downloads (booted 5 0)) with (@nil Download) in Hd.
    by apply elem_of_nil in Hd. }
  assert (Hab : "http://a/logo.png" ≠ "http://b/logo.png") by discriminate.
  assert (Huu : uuid5_url "http://a/logo.png" ≠ uuid5_url "http://b/logo.png")
    by discriminate.
  assert (Hbh : "http://b/logo.png" ≠ md5_hexdigest "PNG") by discriminate.
  split; [repeat split; try done|].
  exact (identical_icons_share_one_file "http://a/logo.png"
           "http://b/logo.png" "PNG" (booted 5 0)
           Hab Huu eq_refl eq_refl eq_refl eq_refl eq_refl Hdisk Hdl Hbh).
Defined.

(** What the cache and the disk hold at the end of that run. *)
Lemma identical_icons_store :
  let s2 := after (get_icon "http://b/logo.png")
              (after (get_icon "http://a/logo.png") (booted 5 0)) in
  let s4 := after (download_done 2 (Some "PNG"))
              (after (download_done 1 (Some "PNG")) s2) in
  _icon_cache s4 !! "http://a/logo.png"
    = Some "/tmp/tmpq1/uuid5-http://a/logo.png" ∧
  _icon_cache s4 !! "http://b/logo.png"
    = Some "/tmp/tmpq1/uuid5-http://a/logo.png" ∧
  disk s4 !! "/tmp/tmpq1/uuid5-http://a/logo.png" = Some "PNG" ∧
  disk s4 !! "/tmp/tmpq1/uuid5-http://b/logo.png" = None.
Proof. vm_compute. repeat split. Qed.

(** [identical_icons_lose_file] on two logos, the first asked for twice. *)
Lemma identical_icons_lose_file_witness :
  let s := booted 5 0 in
  let a := "http://a/logo.png" in
  let b := "http://b/logo.png" in
  let content := "PNG" in
  let fa := icon_file s a in
  let fb := icon_file s b in
  let i := next_id s in
  let page := Some content in
  let s1 := after (get_icon a) s in
  let s2 := after (get_icon a) s1 in
  let s3 := after (get_icon b) s2 in
  let t1 := after (download_done i page) s3 in
  let t2 := after (download_done (S (S i)) page) t1 in
  let t3 := after (download_done (S i) page) t2 in
  (a ≠ b ∧ uuid5_url a ≠ uuid5_url b ∧
   _icon_cache s !! a = None ∧ _icon_cache s !! b = None ∧
   _icon_cache s !! md5_hexdigest content = None ∧
   disk s !! icon_file s a = None ∧ disk s !! icon_file s b = None ∧
   (forall p, disk s !! p ≠ Some content) ∧
   (forall d, d ∈ downloads s -> d_id d < next_id s)) ∧
  outcome (get_icon a) s = Returned (Some i) ∧
  outcome (get_icon a) s1 = Returned (Some (S i)) ∧
  outcome (get_icon b) s2 = Returned (Some (S (S i))) ∧
  share_one_file a b content fa fb t2 ∧
  _icon_cache t3 !! a = Some fa ∧
  _icon_cache t3 !! b = Some fa ∧
  disk t3 !! fa = None ∧
  disk t3 !! fb = None ∧
  forall p, disk t3 !! p ≠ Some content.
Proof.
  assert (Hdisk : forall p, disk (booted 5 0) !! p ≠ Some "PNG").
  { intros p. change (disk (booted 5 0)) with (∅ : gmap string string).
    by rewrite lookup_empty. }
  assert (Hdl : forall d, d ∈ downloads (booted 5 0) ->
                          d_id d < next_id (booted 5 0)).
  { intros d Hd. change (downloads (booted 5 0)) with (@nil Download) in Hd.
    by apply elem_of_nil in Hd. }
  assert (Hab : "http://a/logo.png" ≠ "http://b/logo.png") by discriminate.
  assert (Huu : uuid5_url "http://a/logo.png" ≠ uuid5_url "http://b/logo.png")
    by discriminate.
  split; [repeat split; try done|].
  exact (identical_icons_lose_file "http://a/logo.png"
           "http://b/logo.png" "PNG" (booted 5 0)
           Hab Huu eq_refl eq_refl eq_refl eq_refl eq_refl Hdisk Hdl).
Defined.

(** What is left at the end of that run: both references name a file
    that is gone, and the disk is empty. *)
Lemma identical_icons_lost_store :
  let s3 := after (get_icon "http://b/logo.png")
              (after (get_icon "http://a/logo.png")
                 (after (get_icon "http://a/logo.png") (booted 5 0))) in
  let t3 := after (download_done 2 (Some "PNG"))
              (after (download_done 3 (Some "PNG"))
                 (after (download_done 1 (Some "PNG")) s3)) in
  _icon_cache t3 !! "http://a/logo.png"
    = Some "/tmp/tmpq1/uuid5-http://a/logo.png" ∧
  _icon_cache t3 !! "http://b/logo.png"
    = Some "/tmp/tmpq1/uuid5-http://a/logo.png" ∧
  disk t3 = ∅.
Proof. vm_compute. repeat split. Qed.
End IconExamples.

(** * Further properties *)

(** Breaks a method down like [preserve_steps], closing the primitive
    steps with [leaf]. *)
Ltac preserve_by leaf :=
  repeat first
    [ solve [auto with frame nocore]
    | lazymatch goal with |- PreOrder _ => apply _ end
    | apply preserves_bind; [| |intros ?]
    | apply preserves_ret
    | apply preserves_raise
    | apply preserves_lift
    | apply preserves_gets
    | apply preserves_try_except; [| |intros ?]
    | apply preserves_for_each; [|intros ?]
    | assumption
    | solve [leaf]
    | case_match ].

(** ** FilterRegistry, further *)

Global Instance fixed_at_startup_preorder : PreOrder fixed_at_startup.
Proof.
  split.
  - intros s. by repeat split.
  - intros s1 s2 s3 (? & ? & ? & ? & ? & ?) (? & ? & ? & ? & ? & ?).
    repeat split; congruence.
Qed.

Lemma filter_none {A} (P : A -> Prop) `{forall x, Decision (P x)} (l : list A) :
  (forall x, x ∈ l -> ¬ P x) -> filter P l = [].
Proof.
  induction l as [|x l IH]; intros Hl; [reflexivity|].
  rewrite filter_cons_False by (apply Hl; left).
  apply IH. intros y Hy. apply Hl. by right.
Qed.

Section RegistryFurther.

Context `{Collaborators}.

(** Property X4.  No settings change, whatever its key, reaches what
    [__init__] read once: the maximum of the queue, the routing mode, the
    address of the preference service and the cache directory stay as they
    are, and so do the queue and the timers. *)
Theorem settings_changed_keeps_startup_values st key s :
  fixed_at_startup s (after (settings_changed st key) s).
Proof.
  assert (Hp : preserves fixed_at_startup (settings_changed st key)).
  { unfold settings_changed, reload_filter, remove_loaded, log, emit.
    preserve_by ltac:(intros ?; by repeat split). }
  apply Hp.
Qed.

(** What a change of [enabled-filters] leaves behind when the filter
    settings decode. *)
Lemma settings_changed_reloads st s d :
  json_loads (get_string (settings s) "filter-settings") = Some (JObject d) ->
  exists logs,
    settings_changed st "enabled-filters" s
    = (Returned tt,
       set_trace (trace s ++ logs)
         (set_filters
            (filter (λ f, ¬ (f_class f ∈ all_filters
                             ∧ f_class f ∉ get_enabled_filters (settings s)))
               (filters s)
             ++ (configured d
                   <$> filter (λ n, (n ∉ f_class <$> filters s)
                                    ∧ n ∈ get_enabled_filters (settings s))
                         all_filters))
            (set_service_filters
               (p_prefix
                  <$> filter (λ p, p_name p ∈ get_enabled_filters (settings s))
                        processors)
               (set_enabled_filters (get_enabled_filters (settings s)) s))))
    ∧ Forall (λ e, is_log e = true) logs.
Proof.
  intros Hjson. unfold settings_changed. mred.
  rewrite decide_True by reflexivity. mred. rewrite Hjson. mred.
  match goal with
  | |- context [for_each all_filters ?b ?s0] =>
      destruct (reload_loop (f_class <$> filters s) d
                  (get_enabled_filters (settings s)) all_filters s0 eq_refl)
        as (logs & Hloop & Hlogs)
  end.
  cbn in Hloop. rewrite Hloop. cbn. rewrite reload_fold.
  eexists (_ :: logs). rewrite <- app_assoc. split; [reflexivity|].
  by constructor.
Qed.

(** Among the classes of [filters.py], the active ones after the change
    are the enabled ones. *)
Lemma reloaded_classes (names : list string) d (old : list CustomFilter) n :
  n ∈ all_filters ->
  n ∈ f_class
      <$> (filter (λ f, ¬ (f_class f ∈ all_filters ∧ f_class f ∉ names)) old
           ++ (configured d
                 <$> filter (λ n, (n ∉ f_class <$> old) ∧ n ∈ names)
                       all_filters))
  <-> n ∈ names.
Proof.
  intros Hall. rewrite fmap_app, elem_of_app, <- list_fmap_compose.
  rewrite !list_elem_of_fmap. split.
  - intros [(f & -> & Hf)|(n' & -> & Hn')].
    + apply list_elem_of_filter in Hf as [Hkeep _].
      destruct (decide (f_class f ∈ names)); [done|]. exfalso. by apply Hkeep.
    + apply list_elem_of_filter in Hn' as [[_ Hn'] _]. exact Hn'.
  - intros Hn. destruct (decide (n ∈ f_class <$> old)) as [Hold|Hold].
    + left. apply list_elem_of_fmap in Hold as (f & -> & Hf).
      exists f. split; [done|]. apply list_elem_of_filter. split; [|done].
      intros [_ Hout]. by apply Hout.
    + right. exists n. split; [done|]. by apply list_elem_of_filter.
Qed.

(** Property X1.  After a change of [enabled-filters], with filter
    settings that decode to an object, a filter class of [filters.py] has
    an active instance if and only if its name is enabled. *)
Theorem active_iff_enabled st s d n :
  json_loads (get_string (settings s) "filter-settings") = Some (JObject d) ->
  n ∈ all_filters ->
  n ∈ f_class <$> filters (after (settings_changed st "enabled-filters") s)
  <-> n ∈ get_enabled_filters (settings s).
Proof.
  intros Hjson Hn. unfold after.
  destruct (settings_changed_reloads st s d Hjson) as [logs [-> _]]. cbn.
  by apply reloaded_classes.
Qed.

(** Property X2.  With filter settings that decode to an object, the
    reconciliation is idempotent: run again on unchanged settings, it
    returns and leaves the enabled names, the service filters and the
    active filters as the first run left them. *)
Theorem enabled_filters_change_idempotent st s d :
  json_loads (get_string (settings s) "filter-settings") = Some (JObject d) ->
  let s1 := after (settings_changed st "enabled-filters") s in
  let s2 := after (settings_changed st "enabled-filters") s1 in
  outcome (settings_changed st "enabled-filters") s1 = Returned tt ∧
  enabled_filters s2 = enabled_filters s1 ∧
  service_filters s2 = service_filters s1 ∧
  filters s2 = filters s1.
Proof.
  intros Hjson s1 s2. subst s2 s1. unfold after, outcome.
  destruct (settings_changed_reloads st s d Hjson) as [logs [-> _]].
  cbn [snd].
  match goal with
  | |- context [settings_changed st _ ?s1] =>
      destruct (settings_changed_reloads st s1 d Hjson) as [logs' [-> _]];
      set (s1' := s1)
  end.
  cbn. repeat (split; [reflexivity|]).
  set (names := get_enabled_filters (settings s)).
  set (old := filters s).
  set (act := filter _ old ++ (configured d <$> filter _ all_filters)).
  assert (Hnew : filter (λ n, (n ∉ f_class <$> act) ∧ n ∈ names) all_filters
                 = []).
  { apply filter_none. intros n Hn [Hout Hin].
    apply Hout. by apply reloaded_classes. }
  rewrite Hnew. cbn. rewrite app_nil_r. apply filter_all.
  intros f Hf [Hall Hout]. apply Hout.
  apply (reloaded_classes names d old); [done|].
  by apply list_elem_of_fmap_2.
Qed.

(** What it leaves behind when they do not. *)
Lemma settings_changed_undecodable st s :
  json_loads (get_string (settings s) "filter-settings") = None ->
  settings_changed st "enabled-filters" s
  = (Raised ValueError,
     set_service_filters
       (p_prefix
          <$> filter (λ p, p_name p ∈ get_enabled_filters (settings s))
                processors)
       (set_trace (trace s ++ [Log Debug "Reloading filter settings"])
          (set_enabled_filters (get_enabled_filters (settings s)) s))).
Proof.
  intros Hjson. unfold settings_changed. mred.
  rewrite decide_True by reflexivity. mred. by rewrite Hjson.
Qed.

(** One turn of the loop when the settings decode to something that is
    no object and no filter is active: a class that is enabled cannot be
    configured. *)
Lemma reload_filter_other name s :
  reload_filter [] JOther name s
  = if bool_decide (name ∈ enabled_filters s)
    then (Raised AttributeError,
          set_trace (trace s ++ [Log Debug ("Initializing filter: " ++ name)])
            s)
    else (Returned tt, s).
Proof.
  unfold reload_filter. mred.
  rewrite (bool_decide_eq_false_2 (name ∈ [])) by apply not_elem_of_nil.
  rewrite (bool_decide_eq_true_2 (name ∉ [])) by apply not_elem_of_nil.
  cbn [andb]. mred. by destruct (bool_decide (name ∈ enabled_filters s)).
Qed.

Lemma reload_loop_other l s :
  (for_each l (reload_filter [] JOther) s).1 = Returned tt
  <-> forall n, n ∈ l -> n ∉ enabled_filters s.
Proof.
  induction l as [|name l IH]; cbn [for_each].
  - split; [|done]. intros _ n Hn. by apply elem_of_nil in Hn.
  - unfold mbind, M_bind. rewrite reload_filter_other.
    case_bool_decide as Hname; cbn [fst].
    + split; [done|]. intros Hall. destruct (Hall name); [left|done].
    + rewrite IH. split.
      * intros Hall n [->|Hn]%elem_of_cons; auto.
      * intros Hall n Hn. apply Hall. by right.
Qed.

(** With no filter active, a change of [enabled-filters] returns exactly
    when the filter settings decode, and to an object unless no class of
    [filters.py] is enabled. *)
Lemma settings_changed_returns_iff st s :
  filters s = [] ->
  (settings_changed st "enabled-filters" s).1 = Returned tt
  <-> exists j,
        json_loads (get_string (settings s) "filter-settings") = Some j ∧
        (j = JOther ->
         forall n, n ∈ all_filters -> n ∉ get_enabled_filters (settings s)).
Proof.
  intros Hnone.
  destruct (json_loads (get_string (settings s) "filter-settings"))
    as [[d|]|] eqn:Hjson.
  - destruct (settings_changed_reloads st s d Hjson) as [logs [-> _]].
    split; [|done]. intros _. by exists (JObject d).
  - unfold settings_changed. mred. rewrite decide_True by reflexivity.
    mred. rewrite Hjson. mred. rewrite Hnone. cbn [fmap list_fmap].
    match goal with
    | |- context [for_each all_filters _ ?s0] =>
        rewrite (reload_loop_other all_filters s0)
    end.
    cbn [enabled_filters set_service_filters set_trace set_enabled_filters].
    split.
    + intros Hall. exists JOther. by split.
    + intros (j & [= <-] & Hall). by apply Hall.
  - rewrite (settings_changed_undecodable st s Hjson).
    split; [done|]. by intros (j & ? & _).
Qed.

(** Property X3.  When the filter settings do not decode, a change of
    [enabled-filters] raises [ValueError] half way: the enabled names and
    the service filters are the new ones already, the active filters are the
    old ones still. *)
Theorem enabled_filters_change_undecodable st s :
  json_loads (get_string (settings s) "filter-settings") = None ->
  let names := get_enabled_filters (settings s) in
  let s' := after (settings_changed st "enabled-filters") s in
  outcome (settings_changed st "enabled-filters") s = Raised ValueError ∧
  enabled_filters s' = names ∧
  service_filters s'
    = (p_prefix <$> filter (λ p, p_name p ∈ names) processors) ∧
  filters s' = filters s.
Proof.
  intros Hjson names s'. subst s'. unfold after, outcome.
  by rewrite (settings_changed_undecodable st s Hjson).
Qed.

End RegistryFurther.

(** ** NotificationQueue, further: what holds all along a run *)

Global Instance queue_steady_preorder : PreOrder queue_steady.
Proof.
  split.
  - intros s. by repeat split.
  - intros s1 s2 s3 (Hm1 & Hl1 & Hb1) (Hm2 & Hl2 & Hb2).
    split; [congruence|]. split; [by etrans|]. auto.
Qed.

Global Instance keeps_none_open_preorder : PreOrder keeps_none_open.
Proof.
  split.
  - intros s Hs. exact Hs.
  - intros s1 s2 s3 H12 H23 Hs. apply H23, H12, Hs.
Qed.

Lemma none_left_open_emit e s :
  (forall n, e ≠ Show n) ->
  none_left_open s -> none_left_open (set_trace (trace s ++ [e]) s).
Proof.
  intros He Hs n. cbn. rewrite !elem_of_app, !list_elem_of_singleton.
  intros [Hn|Hn]; [|by destruct (He n)].
  destruct (Hs n Hn) as [?|?]; auto.
Qed.

Section Runs.

Context `{Collaborators}.

Lemma queue_steady_display_notification body :
  preserves queue_steady (display_notification body).
Proof.
  intros s. unfold queue_steady.
  destruct (show_raises (built_note body s)) as [e|] eqn:Hshow.
  { rewrite (display_show_raises body s e Hshow). cbn. by repeat split. }
  destruct (evicts s) eqn:Hev.
  - destruct (last_cons_is_Some (built_note body s) (notifications s))
      as [oldest Hlast].
    rewrite (display_evict body s oldest Hshow Hev Hlast).
    assert (Hlen : length (removelast (built_note body s :: notifications s))
                   = length (notifications s)).
    { rewrite length_removelast. reflexivity. }
    destruct (close_raises oldest); cbn;
      rewrite ?schedule_notifications, ?schedule_max; cbn;
      rewrite Hlen; by repeat split.
  - rewrite (display_no_evict body s Hshow Hev). cbn.
    rewrite schedule_notifications, schedule_max. cbn.
    split; [reflexivity|].
    change (length (built_note body s :: notifications s))
      with (S (length (notifications s))).
    split; [lia|]. intros _.
    unfold evicts in Hev. apply bool_decide_eq_false in Hev. lia.
Qed.

#[local] Hint Resolve queue_steady_display_notification : frame.

Lemma queue_steady_callback c : preserves queue_steady (callback c).
Proof.
  destruct c; cbn [callback];
    unfold Enable, Disable, __del__, consume, match_server_prefs,
      match_local_filters, resolve_recipients, preferences, openid, notify,
      fetch_icons, get_icon, timer_fire, download_done, cache_icon,
      fire_deferred, settings_changed, reload_filter, remove_loaded,
      note_close, fresh, log, emit;
    preserve_by ltac:(intros ?; by repeat split).
Qed.

Lemma queue_steady_run cs s : queue_steady s (run cs s).
Proof.
  revert s. induction cs as [|c cs IH]; intros s; [reflexivity|].
  cbn [run foldl]. etrans; [apply (queue_steady_callback c)|apply IH].
Qed.

(** Property X5.  Started with a maximum of two or more, the daemon keeps
    its queue strictly below the maximum whatever call-backs follow: it
    holds [max-notifications - 1] notifications at most. *)
Theorem queue_stays_below_max st session_bus tmpdir dk cs :
  (2 ≤ get_int st "max-notifications")%Z ->
  let s := run cs (__init__ st session_bus tmpdir dk).2 in
  (Z.of_nat (length (notifications s)) < max_notifications s)%Z.
Proof.
  intros Hmax s. subst s.
  destruct (init_queue st session_bus tmpdir dk) as [Hlen Hm].
  apply (queue_steady_run cs). rewrite Hm. lia.
Qed.

(** Property X6.  No call-back shortens the queue: a notification leaves it
    by eviction only, one for each notification pushed, so that neither an
    expiration nor [Disable] empties it. *)
Theorem queue_never_shrinks cs s :
  (length (notifications s) ≤ length (notifications (run cs s)))%nat.
Proof.
  revert s. induction cs as [|c cs IH]; intros s; [reflexivity|].
  cbn [run foldl].
  destruct (queue_steady_callback c s) as (_ & Hstep & _).
  etrans; [exact Hstep|]. apply IH.
Qed.

End Runs.

(** ** Start-up, further *)

Section StartupRun.

Context `{Collaborators}.

(** [__init__] when the configuration enables the daemon and the bus name
    is free. *)
Lemma init_run st tmpdir dk :
  get_boolean st "enabled" = true ->
  __init__ st (Some false) tmpdir dk =
    match settings_changed st "enabled-filters"
            (set_cache_dir tmpdir (blank st dk)) with
    | (Raised e, s1) => (Raised e, s1)
    | (Returned _, s1) =>
        match show_raises (activation (next_id s1)) with
        | Some e => (Raised e, set_next_id (S (next_id s1)) s1)
        | None => (Returned tt, activated s1)
        end
    end.
Proof.
  intros Hen. unfold __init__. cbv zeta. rewrite Hen. cbn [negb].
  fold (blank st dk).
  unfold mbind at 1, M_bind at 1. cbn [modify].
  unfold mbind at 1, M_bind at 1.
  destruct (settings_changed st "enabled-filters"
              (set_cache_dir tmpdir (blank st dk))) as [[[]|e] s1];
    [|reflexivity].
  mred. unfold note_show. fold (activation (next_id s1)).
  destruct (show_raises (activation (next_id s1))); mred; reflexivity.
Qed.

(** [__init__] when the configuration disables the daemon, the session
    bus cannot be reached or the bus name has an owner. *)
Lemma init_declined st session_bus tmpdir dk :
  get_boolean st "enabled" = false ∨ session_bus ≠ Some false ->
  exists text lv,
    __init__ st session_bus tmpdir dk
    = (Returned tt, set_trace [Log lv text] (blank st dk)).
Proof.
  intros Hd. unfold __init__. cbv zeta. fold (blank st dk).
  destruct (get_boolean st "enabled"); cbn [negb].
  - destruct Hd as [?|Hd]; [done|].
    destruct session_bus as [[|]|]; [| done |]; by eexists _, _.
  - by eexists _, _.
Qed.

End StartupRun.

(** ** The notifications on screen *)

Lemma none_left_open_step s s' :
  (forall n, Show n ∈ trace s' ->
             Show n ∈ trace s ∨ n ∈ notifications s' ∨ Close n ∈ trace s') ->
  (forall n, n ∈ notifications s ->
             n ∈ notifications s' ∨ Close n ∈ trace s') ->
  (forall n, Close n ∈ trace s -> Close n ∈ trace s') ->
  none_left_open s -> none_left_open s'.
Proof.
  intros Hshow Hq Hclose Hs n Hn.
  destruct (Hshow n Hn) as [Hn'|[?|?]]; auto.
  destruct (Hs n Hn') as [?|?]; auto.
Qed.

Section OnScreen.

Context `{Collaborators}.

Hypothesis close_returns : forall n, close_raises n = None.

Lemma keeps_none_open_display_notification body :
  preserves keeps_none_open (display_notification body).
Proof.
  intros s. unfold keeps_none_open. apply none_left_open_step.
  all: destruct (show_raises (built_note body s)) as [e|] eqn:Hshow;
    [rewrite (display_show_raises body s e Hshow); unfold unable; cbn;
     intros n; rewrite ?elem_of_app, ?list_elem_of_singleton;
     intuition congruence|].
  all: destruct (evicts s) eqn:Hev;
    [destruct (last_cons_is_Some (built_note body s) (notifications s))
       as [oldest Hlast];
     rewrite (display_evict body s oldest Hshow Hev Hlast),
       (close_returns oldest);
     pose proof (last_removelast _ _ Hlast) as Hq
    |rewrite (display_no_evict body s Hshow Hev)];
    cbn [snd]; rewrite ?schedule_notifications; intros n;
    rewrite ?schedule_events by (intros ? ?; discriminate); cbn;
    rewrite ?elem_of_app, ?list_elem_of_singleton.
  - intros [[[?|?]|Hn]|?]; [by left|done| |done].
    injection Hn as ->. right.
    assert (Hin : built_note body s
                  ∈ removelast (built_note body s :: notifications s)
                    ++ [oldest]) by (rewrite Hq; left).
    apply elem_of_app in Hin as [?|Hin]; [by left|].
    apply list_elem_of_singleton in Hin. right. right. by rewrite Hin.
  - intros [[?|?]|Hn]; [by left|done|].
    injection Hn as ->. right. left. left.
  - intros Hn.
    assert (Hin : n ∈ removelast (built_note body s :: notifications s)
                      ++ [oldest]) by (rewrite Hq; by right).
    apply elem_of_app in Hin as [?|Hin]; [by left|].
    apply list_elem_of_singleton in Hin. right. right. by rewrite Hin.
  - intros Hn. left. by right.
  - intros ?. left. left. by left.
  - intros ?. left. by left.
Qed.

Lemma keeps_none_open_settings_changed st key :
  preserves keeps_none_open (settings_changed st key).
Proof.
  unfold settings_changed, reload_filter, remove_loaded, log, emit.
  preserve_by ltac:(intros ?; unfold keeps_none_open, modify;
                    cbn [snd];
                    first [exact (λ Hs, Hs)
                          |apply none_left_open_emit; intros ? [=]]).
Qed.

#[local] Hint Resolve keeps_none_open_display_notification
  keeps_none_open_settings_changed : frame.

Lemma keeps_none_open_callback c : preserves keeps_none_open (callback c).
Proof.
  destruct c; cbn [callback];
    unfold Enable, Disable, __del__, consume, match_server_prefs,
      match_local_filters, resolve_recipients, preferences, openid, notify,
      fetch_icons, get_icon, timer_fire, download_done, cache_icon,
      fire_deferred, settings_changed, reload_filter, remove_loaded,
      note_close, fresh, log, emit;
    preserve_by ltac:(intros ?; unfold keeps_none_open, modify;
                      cbn [snd];
                      first [exact (λ Hs, Hs)
                            |apply none_left_open_emit; intros ? [=]]).
Qed.

Lemma none_left_open_init st session_bus tmpdir dk :
  none_left_open (__init__ st session_bus tmpdir dk).2.
Proof.
  assert (Hblank : forall t, none_left_open (set_cache_dir t (blank st dk)))
    by (intros t n Hn; by apply elem_of_nil in Hn).
  destruct (decide (get_boolean st "enabled" = true
                    ∧ session_bus = Some false)) as [[Hen ->]|Hd].
  - rewrite (init_run st tmpdir dk Hen).
    pose proof (keeps_none_open_settings_changed st "enabled-filters"
                  (set_cache_dir tmpdir (blank st dk)) (Hblank tmpdir)) as Hs1.
    destruct (settings_changed st "enabled-filters"
                (set_cache_dir tmpdir (blank st dk))) as [[[]|e] s1];
      [|exact Hs1].
    cbn [snd] in Hs1.
    destruct (show_raises (activation (next_id s1))); [exact Hs1|].
    revert Hs1. apply none_left_open_step; cbn; intros n;
      rewrite ?elem_of_app, ?list_elem_of_singleton.
    + intros [?|Hn]; [by left|]. injection Hn as ->. right. left. left.
    + intros ?. left. by right.
    + intros ?. by left.
  - destruct (init_declined st session_bus tmpdir dk) as (text & lv & ->).
    { destruct (get_boolean st "enabled"); [right|by left].
      intros ->. by apply Hd. }
    intros n Hn. cbn in Hn. apply list_elem_of_singleton in Hn. done.
Qed.

(** Property X7.  As long as closing a notification does not fail, every
    notification the daemon has shown since start-up is still in the queue
    or has been closed, whatever call-backs have run: the notifications on
    screen are among the queued ones. *)
Theorem shown_are_queued_or_closed st session_bus tmpdir dk cs :
  none_left_open (run cs (__init__ st session_bus tmpdir dk).2).
Proof.
  generalize (none_left_open_init st session_bus tmpdir dk).
  generalize (__init__ st session_bus tmpdir dk).2.
  induction cs as [|c cs IH]; intros s Hs; [exact Hs|].
  cbn [run foldl]. apply IH. by apply (keeps_none_open_callback c).
Qed.

End OnScreen.

(** ** Teardown, further *)

Section TeardownFurther.

Context `{Collaborators}.

Lemma del_disables s : enabled (after __del__ s) = false.
Proof.
  unfold after. destruct (enabled s) eqn:Hen.
  - destruct (first_raising (notifications s))
      as [Hall|(pre & n & post & e & Hns & Hpre & Hn)].
    + by rewrite (del_closes_all s Hen Hall).
    + rewrite (del_cut_short s pre n post e Hen Hns Hpre Hn).
      by destruct (decide (e = GError)).
  - by rewrite (del_not_enabled s Hen).
Qed.

(** Property X8.  Teardown runs once: [Disable] leaves the daemon disabled,
    and from then on another [Disable], the exit hook and [Enable] all
    return without changing anything. *)
Theorem disable_is_final s :
  let s' := after Disable s in
  enabled s' = false ∧
  Disable s' = (Returned tt, s') ∧
  __del__ s' = (Returned tt, s') ∧
  Enable s' = (Returned tt, s').
Proof.
  intros s'. subst s'. unfold Disable.
  pose proof (del_disables s) as Hoff.
  split; [exact Hoff|].
  by rewrite (del_not_enabled _ Hoff).
Qed.

Lemma rmtree_lookup d (dk : gmap string string) p :
  rmtree d dk !! p
  = if String.prefix (d ++ "/") p then None else dk !! p.
Proof.
  unfold rmtree. destruct (String.prefix (d ++ "/") p) eqn:Hp.
  - apply map_lookup_filter_None. right. intros x _. cbn. congruence.
  - destruct (dk !! p) as [x|] eqn:Hx.
    + by apply map_lookup_filter_Some.
    + apply map_lookup_filter_None. by left.
Qed.

(** Property X9.  When no notification fails to close for another reason
    than a [GLib.GError], teardown returns and has removed the pidfile and
    every file below the cache directory; every other file is as it was. *)
Theorem teardown_removes_own_files s :
  enabled s = true ->
  (forall n e, n ∈ notifications s -> close_raises n = Some e -> e = GError) ->
  let s' := after __del__ s in
  outcome __del__ s = Returned tt ∧
  forall p,
    disk s' !! p
    = if decide (p = pidfile) then None
      else if String.prefix (cache_dir s ++ "/") p then None
           else disk s !! p.
Proof.
  intros Hen Hclose s'. subst s'. unfold after, outcome.
  assert (Hrun : exists closed,
             __del__ s = (Returned tt, torn_down closed s)).
  { destruct (first_raising (notifications s))
      as [Hall|(pre & n & post & e & Hns & Hpre & Hn)].
    - eexists. by apply del_closes_all.
    - rewrite (del_cut_short s pre n post e Hen Hns Hpre Hn).
      rewrite decide_True; [by eexists|].
      apply (Hclose n e); [|done]. rewrite Hns.
      apply elem_of_app. right. left. }
  destruct Hrun as [closed ->]. split; [reflexivity|].
  intros p. cbn. destruct (decide (p = pidfile)) as [->|Hp].
  - apply lookup_delete_eq.
  - rewrite lookup_delete_ne by done. apply rmtree_lookup.
Qed.

End TeardownFurther.

(** ** The files of the daemon *)

Global Instance keeps_to_cache_dir_preorder : PreOrder keeps_to_cache_dir.
Proof.
  split.
  - intros s. split; [reflexivity|]. by intros Hin.
  - intros s1 s2 s3 [Hd1 H1] [Hd2 H2]. split; [congruence|].
    intros Hin. destruct (H1 Hin) as [Hin2 Hp1].
    destruct (H2 Hin2) as [Hin3 Hp2]. split; [exact Hin3|].
    intros p Hp. rewrite Hp2; [by apply Hp1|].
    unfold outside in *. by rewrite Hd1.
Qed.

Lemma prefix_path_join d name :
  String.prefix (d ++ "/") (path_join d name) = true.
Proof.
  assert (Hcons : forall a s t, (String a s ++ t)%string = String a (s ++ t))
    by reflexivity.
  assert (Hnil : forall t, (EmptyString ++ t)%string = t) by reflexivity.
  unfold path_join. induction d as [|a d IH];
    rewrite ?Hcons, ?Hnil; cbn [String.prefix].
  all: match goal with
       | |- context [Ascii.ascii_dec ?x ?y] => destruct (Ascii.ascii_dec x y)
       end; first [done|exact IH|by destruct name].
Qed.

Section Files.

Context `{Collaborators}.

Lemma keeps_to_cache_dir_get_icon icon :
  preserves keeps_to_cache_dir (get_icon icon).
Proof.
  intros s. unfold get_icon. mred.
  destruct (opt_truthy (_icon_cache s !! icon)); mred; [reflexivity|].
  destruct (disk s !! path_join (cache_dir s) (uuid5_url icon)); mred.
  - split; [reflexivity|]. by intros Hin.
  - split; [reflexivity|]. intros Hin. split; [|done].
    unfold downloads_inside. cbn. apply Forall_app. split; [exact Hin|].
    apply Forall_singleton. cbn. apply prefix_path_join.
Qed.

Lemma download_done_unknown i result s :
  list_find (λ x, d_id x = i) (downloads s) = None ->
  download_done i result s = (Returned tt, s).
Proof. intros Hfind. unfold download_done. mred. by rewrite Hfind. Qed.

Lemma download_failed_run i s k d :
  list_find (λ x, d_id x = i) (downloads s) = Some (k, d) ->
  download_done i None s
  = fire_deferred i
      (set_trace (trace s ++ [Log Error ("Download failed: " ++ d_url d)])
         (set_downloads (delete k (downloads s)) s)).
Proof. intros Hfind. unfold download_done. mred. by rewrite Hfind. Qed.

Lemma keeps_to_cache_dir_download_done i result :
  preserves keeps_to_cache_dir (download_done i result).
Proof.
  intros s.
  destruct (list_find (λ x, d_id x = i) (downloads s)) as [[k d]|] eqn:Hfind;
    [|by rewrite download_done_unknown].
  assert (Hd : d ∈ downloads s).
  { apply list_find_Some in Hfind as (Hk & _). by eapply list_elem_of_lookup_2. }
  assert (Hdel : downloads_inside s ->
                 Forall (λ d0, String.prefix (cache_dir s ++ "/") (d_file d0)
                               = true) (delete k (downloads s))).
  { intros Hin. by apply Forall_delete. }
  destruct result as [content|].
  - destruct (download_done_run i content s k d Hfind)
      as (Hst & Hdl & Hdir & _).
    fold (after (download_done i (Some content)) s).
    set (s' := after (download_done i (Some content)) s) in *.
    split; [exact Hdir|]. intros Hin. split.
    + unfold downloads_inside. rewrite Hdir, Hdl. by apply Hdel.
    + intros p [Hp _].
      assert (Hne : d_file d ≠ p).
      { intros <-. unfold downloads_inside in Hin.
        rewrite Forall_forall in Hin. specialize (Hin d Hd). congruence. }
      change (disk s') with (_icon_cache s', disk s').2. rewrite Hst.
      unfold landed.
      destruct (_icon_cache s !! md5_hexdigest content); cbn;
        rewrite ?lookup_delete_ne by done; by rewrite lookup_insert_ne.
  - rewrite (download_failed_run i s k d Hfind).
    match goal with
    | |- context [fire_deferred i ?s0] =>
        destruct (same_store_fire_deferred i s0) as (_ & Hdk & Hdl & Hdir & _)
    end.
    cbn in Hdk, Hdl, Hdir.
    split; [exact Hdir|]. intros Hin. split.
    + unfold downloads_inside. rewrite Hdir, Hdl. by apply Hdel.
    + intros p _. by rewrite Hdk.
Qed.

Lemma keeps_to_cache_dir_del : preserves keeps_to_cache_dir __del__.
Proof.
  intros s.
  assert (Htorn : forall closed, keeps_to_cache_dir s (torn_down closed s)).
  { intros closed. split; [reflexivity|]. intros Hin. split; [exact Hin|].
    intros p [Hp Hpid]. cbn. rewrite lookup_delete_ne by done.
    unfold rmtree.
    destruct (disk s !! p) as [x|] eqn:Hx.
    - by apply map_lookup_filter_Some.
    - apply map_lookup_filter_None. by left. }
  destruct (enabled s) eqn:Hen; [|by rewrite (del_not_enabled s Hen)].
  destruct (first_raising (notifications s))
    as [Hall|(pre & n & post & e & Hns & Hpre & Hn)].
  - rewrite (del_closes_all s Hen Hall). apply Htorn.
  - rewrite (del_cut_short s pre n post e Hen Hns Hpre Hn).
    destruct (decide (e = GError)); [apply Htorn|].
    split; [reflexivity|]. by intros Hin.
Qed.

Lemma keeps_to_cache_dir_of_same_store {A} (c : M A) :
  preserves same_store c -> preserves keeps_to_cache_dir c.
Proof.
  intros Hc s. destruct (Hc s) as (_ & Hdk & Hdl & Hdir & _).
  split; [exact Hdir|]. intros Hin. split.
  - unfold downloads_inside. by rewrite Hdir, Hdl.
  - intros p _. by rewrite Hdk.
Qed.

Lemma keeps_to_cache_dir_display_notification body :
  preserves keeps_to_cache_dir (display_notification body).
Proof.
  apply keeps_to_cache_dir_of_same_store, same_store_display_notification.
Qed.

#[local] Hint Resolve keeps_to_cache_dir_get_icon
  keeps_to_cache_dir_display_notification : frame.

Lemma keeps_to_cache_dir_callback c :
  preserves keeps_to_cache_dir (callback c).
Proof.
  destruct c; cbn [callback];
    [|
     |apply keeps_to_cache_dir_download_done
     |
     |
     |apply keeps_to_cache_dir_del];
    unfold Enable, consume, match_server_prefs,
      match_local_filters, resolve_recipients, preferences, openid, notify,
      fetch_icons, timer_fire, settings_changed, reload_filter,
      remove_loaded, note_close, fresh, log, emit;
    preserve_by ltac:(intros ?; split; [reflexivity|]; intros Hin; by split).
Qed.

Lemma keeps_to_cache_dir_run cs s : keeps_to_cache_dir s (run cs s).
Proof.
  revert s. induction cs as [|c cs IH]; intros s; [reflexivity|].
  cbn [run foldl]. etrans; [apply (keeps_to_cache_dir_callback c)|apply IH].
Qed.

Lemma init_store st tmpdir dk :
  get_boolean st "enabled" = true ->
  let s := (__init__ st (Some false) tmpdir dk).2 in
  cache_dir s = tmpdir ∧ disk s = dk ∧ downloads s = [].
Proof.
  intros Hen. cbv zeta. rewrite (init_run st tmpdir dk Hen).
  assert (Hp : preserves (λ s s', cache_dir s' = cache_dir s
                                  ∧ disk s' = disk s
                                  ∧ downloads s' = downloads s)
                 (settings_changed st "enabled-filters")).
  { assert (PreOrder (λ s s' : Daemon, cache_dir s' = cache_dir s
                                       ∧ disk s' = disk s
                                       ∧ downloads s' = downloads s)).
    { split; [by intros ?|].
      intros s1 s2 s3 (? & ? & ?) (? & ? & ?). repeat split; congruence. }
    unfold settings_changed, reload_filter, remove_loaded, log, emit.
    preserve_by ltac:(intros ?; by repeat split). }
  specialize (Hp (set_cache_dir tmpdir (blank st dk))).
  destruct (settings_changed st "enabled-filters"
              (set_cache_dir tmpdir (blank st dk))) as [[[]|e] s1];
    cbn in Hp; [|exact Hp].
  destruct (show_raises (activation (next_id s1))); exact Hp.
Qed.

(** Property X10.  A started daemon writes below its cache directory only:
    whatever call-backs run, a file that is neither the pidfile nor below
    the cache directory is as start-up found it. *)
Theorem files_outside_cache_dir_untouched st tmpdir dk cs p :
  get_boolean st "enabled" = true ->
  String.prefix (tmpdir ++ "/") p = false ->
  p ≠ pidfile ->
  disk (run cs (__init__ st (Some false) tmpdir dk).2) !! p = dk !! p.
Proof.
  intros Hen Hp Hpid.
  destruct (init_store st tmpdir dk Hen) as (Hdir & Hdk & Hdl).
  cbv zeta in Hdir, Hdk, Hdl.
  destruct (keeps_to_cache_dir_run cs (__init__ st (Some false) tmpdir dk).2)
    as [_ Hkeep].
  destruct Hkeep as [_ Hout].
  { unfold downloads_inside. rewrite Hdl. constructor. }
  rewrite Hout; [by rewrite Hdk|]. split; [by rewrite Hdir|done].
Qed.

End Files.

(** ** Start-up, further: when the service comes up *)

Section StartupFurther.

Context `{Collaborators}.

(** Property X11.  [__init__] leaves the service enabled exactly when the
    configuration enables it, the bus name is free, the filter settings
    decode (to an object, unless no class of [filters.py] is enabled) and
    the activation notification can be shown; in every other case nothing
    is queued and nothing has been shown. *)
Theorem service_comes_up_iff st session_bus tmpdir dk :
  let s := (__init__ st session_bus tmpdir dk).2 in
  (enabled s = true
   <-> get_boolean st "enabled" = true
       ∧ session_bus = Some false
       ∧ (exists j,
             json_loads (get_string st "filter-settings") = Some j ∧
             (j = JOther ->
              forall n, n ∈ all_filters -> n ∉ get_enabled_filters st))
       ∧ show_raises (activation 0) = None) ∧
  (enabled s = false ->
   notifications s = [] ∧ forall n, Show n ∉ trace s).
Proof.
  cbv zeta.
  destruct (decide (get_boolean st "enabled" = true
                    ∧ session_bus = Some false)) as [[Hen ->]|Hd].
  - rewrite (init_run st tmpdir dk Hen).
    set (s0 := set_cache_dir tmpdir (blank st dk)).
    pose proof (settings_changed_returns_iff st s0 eq_refl) as Hret.
    assert (Hframe : preserves
              (λ s s', notifications s' = notifications s
                       ∧ next_id s' = next_id s
                       ∧ enabled s' = enabled s
                       ∧ ((forall n, Show n ∉ trace s) ->
                          forall n, Show n ∉ trace s'))
              (settings_changed st "enabled-filters")).
    { assert (PreOrder (λ s s' : Daemon,
                          notifications s' = notifications s
                          ∧ next_id s' = next_id s
                          ∧ enabled s' = enabled s
                          ∧ ((forall n, Show n ∉ trace s) ->
                             forall n, Show n ∉ trace s'))).
      { split; [by intros ?|].
        intros s1 s2 s3 (? & ? & ? & ?) (? & ? & ? & ?).
        repeat split; try congruence. auto. }
      unfold settings_changed, reload_filter, remove_loaded, log, emit.
      preserve_by ltac:(intros ?; repeat split; try done; cbn;
                        first
                          [ by (intros Hno; exact Hno)
                          | intros Hno n [?|Hn]%elem_of_app;
                            [by eapply Hno
                            |by apply list_elem_of_singleton in Hn] ]). }
    destruct (Hframe s0) as (Hq & Hid & Hoff & Hshown).
    destruct (settings_changed st "enabled-filters" s0) as [[[]|e] s1];
      cbn [fst snd] in *.
    + rewrite Hid. cbn [next_id s0 set_cache_dir blank].
      destruct (show_raises (activation 0)) as [e|] eqn:Hshow; cbn.
      * split; [split; [by rewrite Hoff|intros (_ & _ & _ & ?); done]|].
        intros _. split; [exact Hq|]. apply Hshown.
        intros n Hn. by apply elem_of_nil in Hn.
      * split; [|done]. split; [|done]. intros _.
        split; [exact Hen|]. split; [reflexivity|].
        split; [by apply Hret|reflexivity].
    + split.
      * rewrite Hoff. split; [done|].
        intros (_ & _ & Hload & _). by apply Hret in Hload.
      * intros _. split; [exact Hq|]. apply Hshown.
        intros n Hn. by apply elem_of_nil in Hn.
  - destruct (init_declined st session_bus tmpdir dk) as (text & lv & ->).
    { destruct (get_boolean st "enabled"); [right|by left].
      intros ->. by apply Hd. }
    cbn. split.
    + split; [done|]. intros (? & ? & _). by destruct Hd.
    + intros _. split; [reflexivity|]. intros n Hn.
      apply list_elem_of_singleton in Hn. done.
Qed.

(** Property X12.  When the service comes up, the filter settings being
    an object, one instance of every enabled filter class is active, in the
    order of [filters.py] and configured from the filter settings; the
    activation notification is shown, alone in the queue, with a timer of
    three seconds; the cache directory is the fresh temporary directory and
    the disk is untouched. *)
Theorem service_up st tmpdir dk d :
  get_boolean st "enabled" = true ->
  json_loads (get_string st "filter-settings") = Some (JObject d) ->
  show_raises (activation 0) = None ->
  let names := get_enabled_filters st in
  let s := (__init__ st (Some false) tmpdir dk).2 in
  (__init__ st (Some false) tmpdir dk).1 = Returned tt ∧
  enabled s = true ∧
  filters s = (configured d <$> filter (λ n, n ∈ names) all_filters) ∧
  service_filters s
    = (p_prefix <$> filter (λ p, p_name p ∈ names) processors) ∧
  notifications s = [activation 0] ∧
  timers s = [(3%Z, activation 0)] ∧
  Show (activation 0) ∈ trace s ∧
  cache_dir s = tmpdir ∧
  disk s = dk.
Proof.
  intros Hen Hjson Hshow names. cbv zeta.
  rewrite (init_run st tmpdir dk Hen).
  destruct (settings_changed_reloads st
              (set_cache_dir tmpdir (blank st dk)) d Hjson)
    as [logs [Hrun Hlogs]].
  rewrite Hrun. cbn [next_id set_trace set_filters set_service_filters
                       set_enabled_filters set_cache_dir blank].
  rewrite Hshow. cbn. repeat split.
  - f_equal. apply filter_ext_in. intros n _. split; [by intros [_ ?]|].
    intros Hn. split; [|done]. intros Hin. by apply elem_of_nil in Hin.
  - apply elem_of_app. right. left.
Qed.

End StartupFurther.

(** ** Start of the process *)

Section MainProperties.

Context `{Collaborators} `{Host}.

(** Property X13.  [main] returns without starting anything exactly when the
    pidfile holds the identifier of a live process named [fedmsg-notify-d];
    the disk is then left as found. *)
Theorem main_defers_iff dk st session_bus tmpdir :
  (main dk st session_bus tmpdir = AlreadyRunning dk
   <-> exists content pid,
         dk !! pidfile = Some content ∧
         py_int content = Some pid ∧
         psutil_Process pid = Named "fedmsg-notify-d") ∧
  (forall dk', main dk st session_bus tmpdir = AlreadyRunning dk' -> dk' = dk).
Proof.
  assert (Hcases : forall dk',
             main dk st session_bus tmpdir = AlreadyRunning dk' ->
             dk' = dk ∧
             exists content pid,
               dk !! pidfile = Some content ∧
               py_int content = Some pid ∧
               psutil_Process pid = Named "fedmsg-notify-d").
  { intros dk' Hmain. unfold main, check_pidfile in Hmain.
    destruct (dk !! pidfile) as [content|] eqn:Hdk;
      [|exfalso; revert Hmain; clear; repeat case_match; done].
    destruct (py_int content) as [pid|] eqn:Hpid;
      [|exfalso; revert Hmain; clear; repeat case_match; done].
    destruct (psutil_Process pid) as [name| |e] eqn:Hp;
      [|exfalso; revert Hmain; clear; repeat case_match; done
       |exfalso; revert Hmain; clear; repeat case_match; done].
    destruct (decide (name ≠ "fedmsg-notify-d")) as [|Hname];
      [exfalso; revert Hmain; clear; repeat case_match; done|].
    apply dec_stable in Hname. subst name.
    injection Hmain as <-. split; [reflexivity|]. by exists content, pid. }
  split; [split|].
  - intros Hmain. by destruct (Hcases _ Hmain).
  - intros (content & pid & Hdk & Hpid & Hp).
    unfold main, check_pidfile. rewrite Hdk, Hpid, Hp.
    by rewrite decide_False by (intros Hne; by apply Hne).
  - intros dk' Hmain. by destruct (Hcases _ Hmain).
Qed.

Lemma init_disk st session_bus tmpdir dk :
  disk (__init__ st session_bus tmpdir dk).2 = dk.
Proof.
  destruct (decide (get_boolean st "enabled" = true
                    ∧ session_bus = Some false)) as [[Hen ->]|Hd].
  - by destruct (init_store st tmpdir dk Hen) as (_ & ? & _).
  - destruct (init_declined st session_bus tmpdir dk) as (text & lv & ->);
      [|reflexivity].
    destruct (get_boolean st "enabled"); [right|by left].
    intros ->. by apply Hd.
Qed.

(** Property X14.  Whenever [main] creates the service and the write
    succeeds, the pidfile holds the identifier of this process and no other
    file has changed; this is so whether the service then comes up or not. *)
Theorem main_writes_pidfile dk st session_bus tmpdir service :
  write_raises = false ->
  service_of (main dk st session_bus tmpdir) = Some service ->
  disk service !! pidfile = Some getpid_str ∧
  forall p, p ≠ pidfile -> disk service !! p = dk !! p.
Proof.
  intros Hw. unfold main.
  destruct (check_pidfile dk) as [[dk1|]|e] eqn:Hcheck; [|done|done].
  assert (Hdk1 : forall p, p ≠ pidfile -> dk1 !! p = dk !! p).
  { intros p Hp. revert Hcheck. unfold check_pidfile.
    repeat case_match; intros [= <-]; by rewrite ?lookup_delete_ne. }
  destruct open_raises; [done|].
  unfold write_pidfile. rewrite Hw.
  pose proof (init_disk st session_bus tmpdir (<[pidfile:=getpid_str]> dk1))
    as Hdisk.
  destruct (__init__ st session_bus tmpdir _) as [r s]. cbn [snd] in Hdisk.
  assert (Hs : disk (set_trace ([] ++ trace s) s)
               = <[pidfile:=getpid_str]> dk1) by exact Hdisk.
  intros Hsome.
  assert (service = set_trace ([] ++ trace s) s) as ->.
  { revert Hsome. destruct r; [destruct (enabled _)|]; cbn; congruence. }
  rewrite Hs. split; [apply lookup_insert_eq|].
  intros p Hp. rewrite lookup_insert_ne by done. by apply Hdk1.
Qed.

End MainProperties.

(** ** MessageRouter, further *)

Global Instance same_signals_preorder : PreOrder same_signals.
Proof.
  split; [by intros ?|]. intros s1 s2 s3 H12 H23.
  unfold same_signals in *. congruence.
Qed.

Global Instance nothing_displayed_preorder : PreOrder nothing_displayed.
Proof.
  split; [by intros ?|].
  intros s1 s2 s3 (? & ? & ? & ?) (? & ? & ? & ?). repeat split; congruence.
Qed.

Global Instance same_config_preorder : PreOrder same_config.
Proof.
  split; [by intros ?|].
  intros s1 s2 s3 (? & ? & ? & ? & ? & ? & ? & ? & ? & ?)
         (? & ? & ? & ? & ? & ? & ? & ? & ? & ?).
  repeat split; congruence.
Qed.

Lemma signals_snoc t e :
  signals (t ++ [e])
  = signals t ++ match e with
                 | MessageReceived topic body => [(topic, body)]
                 | _ => []
                 end.
Proof. unfold signals. rewrite omap_app. by destruct e. Qed.

Lemma shown_snoc t e :
  shown (t ++ [e]) = shown t ++ match e with Show n => [n] | _ => [] end.
Proof. unfold shown. rewrite omap_app. by destruct e. Qed.

Lemma list_find_existsb {A} (f : A -> bool) (l : list A) :
  existsb f l = bool_decide (is_Some (list_find (λ x, f x = true) l)).
Proof.
  induction l as [|x l IH]; [reflexivity|].
  cbn [existsb list_find]. destruct (f x) eqn:Hx; cbn [orb].
  - rewrite decide_True by done. by rewrite bool_decide_true by eauto.
  - rewrite decide_False by done. rewrite IH.
    apply bool_decide_ext. by rewrite fmap_is_Some.
Qed.

Section RouterFurther.

Context `{Collaborators}.

(** [match_local_filters] decides [local_match] and logs. *)
Lemma match_local_filters_run m s :
  exists text,
    match_local_filters (body m) (topic m) s
    = (Returned (local_match s m),
       set_trace (trace s ++ [Log Debug text]) s).
Proof.
  unfold match_local_filters, local_match. mred.
  rewrite !list_find_existsb.
  destruct (list_find _ (filters s)) as [?|]; mred; [by eexists|].
  destruct (list_find _ (service_filters s)) as [[? ?]|]; mred;
    by eexists.
Qed.

Lemma same_signals_notify msg : preserves same_signals (notify msg).
Proof.
  unfold notify, fetch_icons, get_icon, display_notification,
    new_notification, get_icons, show_and_queue, note_show, note_close,
    fresh, log, emit.
  preserve_by ltac:(intros ?; unfold same_signals, modify; cbn;
                    rewrite ?signals_snoc, ?app_nil_r; reflexivity).
Qed.

(** Property X15.  With local filters, [consume] sends [MessageReceived]
    once, with the topic and the encoded message, when the message matches
    and signals are switched on, and not at all otherwise; a failure to
    notify does not change that. *)
Theorem consume_signals_once m s :
  use_server_prefs s = false ->
  signals (trace (after (consume m) s))
  = signals (trace s)
    ++ (if local_match s m && emit_dbus_signals s
        then [(topic m, json_dumps (body m))] else []).
Proof.
  intros Hmode. unfold after, consume. mred. rewrite Hmode.
  destruct (match_local_filters_run m s) as [text ->]. cbn.
  destruct (local_match s m); cbn;
    [|by rewrite signals_snoc, !app_nil_r].
  destruct (emit_dbus_signals s); mred;
    match goal with
    | |- context [notify (body m) ?s0] =>
        rewrite (same_signals_notify (body m) s0)
    end; cbn; rewrite !signals_snoc, ?app_nil_r; reflexivity.
Qed.

Lemma get_icon_returns icon s : exists w, (get_icon icon s).1 = Returned w.
Proof.
  unfold get_icon. mred. repeat case_match; mred; by eexists.
Qed.

Lemma nothing_displayed_get_icon icon :
  preserves nothing_displayed (get_icon icon).
Proof.
  unfold get_icon, fresh, log, emit.
  preserve_by ltac:(intros ?; unfold nothing_displayed, modify; cbn;
                    rewrite ?shown_snoc, ?app_nil_r; by repeat split).
Qed.

#[local] Hint Resolve nothing_displayed_get_icon : frame.

Lemma fetch_icons_returns kv s :
  exists ws, (fetch_icons (VDict kv) s).1 = Returned ws.
Proof.
  unfold fetch_icons. mred.
  set (b := default VNone (assoc_get "body" kv)).
  destruct (opt_truthy (msg2icon b)); mred.
  - destruct (get_icon_returns (default EmptyString (msg2icon b)) s)
      as [w Hw].
    destruct (get_icon _ s) as [o s1]. cbn in Hw. subst o. mred.
    destruct (opt_truthy (msg2secondary_icon b)); mred; [|by eexists].
    destruct (get_icon_returns
                (default EmptyString (msg2secondary_icon b)) s1) as [w' Hw'].
    destruct (get_icon _ s1) as [o s2]. cbn in Hw'. subst o. mred.
    by eexists.
  - destruct (opt_truthy (msg2secondary_icon b)); mred; [|by eexists].
    destruct (get_icon_returns
                (default EmptyString (msg2secondary_icon b)) s) as [w' Hw'].
    destruct (get_icon _ s) as [o s2]. cbn in Hw'. subst o. mred.
    by eexists.
Qed.

Lemma nothing_displayed_fetch_icons msg :
  preserves nothing_displayed (fetch_icons msg).
Proof. unfold fetch_icons. preserve_by fail. Qed.

(** Property X16.  [notify] reads the body to display from the key [body] of
    the message it is given, which is already the body of what the hub
    delivered: when a matching message has no such key, [consume] raises
    [KeyError], after the signal, and displays nothing, neither at once nor
    later. *)
Theorem consume_without_nested_body m s kv :
  use_server_prefs s = false ->
  local_match s m = true ->
  body m = VDict kv ->
  assoc_get "body" kv = None ->
  let s' := after (consume m) s in
  outcome (consume m) s = Raised KeyError ∧
  notifications s' = notifications s ∧
  deferred s' = deferred s ∧
  timers s' = timers s ∧
  shown (trace s') = shown (trace s).
Proof.
  intros Hmode Hmatch Hbody Hkey s'. subst s'.
  unfold outcome, after, consume. mred. rewrite Hmode.
  destruct (match_local_filters_run m s) as [text ->]. rewrite Hmatch.
  set (s1 := set_trace (trace s ++ [Log Debug text]) s).
  assert (H1 : nothing_displayed s s1).
  { subst s1. unfold nothing_displayed. cbn.
    by rewrite shown_snoc, app_nil_r. }
  assert (Hnotify : forall s2,
             nothing_displayed s s2 ->
             (notify (body m) s2).1 = Raised KeyError
             ∧ nothing_displayed s (notify (body m) s2).2).
  { intros s2 H2. unfold notify. mred. rewrite Hbody.
    destruct (fetch_icons_returns kv s2) as [ws Hws].
    pose proof (nothing_displayed_fetch_icons (VDict kv) s2) as Hf.
    destruct (fetch_icons (VDict kv) s2) as [o s3]. cbn in Hws, Hf. subst o.
    mred. rewrite Hkey. cbn. split; [reflexivity|]. by etrans. }
  cbn. destruct (emit_dbus_signals s); mred.
  - match goal with
    | |- context [notify (body m) ?s0] =>
        destruct (Hnotify s0) as [Ho Hd]
    end.
    { etrans; [exact H1|]. unfold nothing_displayed. cbn.
      by rewrite shown_snoc, app_nil_r. }
    destruct (notify (body m) _) as [o s4]. cbn in Ho, Hd. subst o.
    cbn. split; [reflexivity|]. exact Hd.
  - destruct (Hnotify s1 H1) as [Ho Hd].
    destruct (notify (body m) s1) as [o s4]. cbn in Ho, Hd. subst o.
    cbn. split; [reflexivity|]. exact Hd.
Qed.

Lemma same_config_display_notification body :
  preserves same_config (display_notification body).
Proof.
  unfold display_notification, new_notification, get_icons, show_and_queue,
    note_show, note_close, fresh, log, emit.
  preserve_by ltac:(intros ?; by repeat split).
Qed.

#[local] Hint Resolve same_config_display_notification : frame.

(** Property X17.  Only a settings change or [Disable] reconfigures the
    daemon: a message, a timer, the end of a download or [Enable] leaves the
    active filters, the service filters, the enabled names, the expiration,
    the maximum, the signal switch, the routing mode and the cache directory
    as they are. *)
Theorem configuration_is_stable s :
  (forall m, same_config s (after (consume m) s)) ∧
  (forall i, same_config s (after (timer_fire i) s)) ∧
  (forall i result, same_config s (after (download_done i result) s)) ∧
  same_config s (after Enable s).
Proof.
  repeat split_and; [intros m|intros i|intros i result|];
    match goal with |- same_config s (after ?c s) =>
      revert s; change (preserves same_config c)
    end;
    unfold Enable, consume, match_server_prefs, match_local_filters,
      resolve_recipients, preferences, openid, notify, fetch_icons, get_icon,
      timer_fire, download_done, cache_icon, fire_deferred, note_close,
      fresh, log, emit;
    preserve_by ltac:(intros ?; by repeat split).
Qed.

End RouterFurther.

(** ** PreferenceResolver, further *)

Section PreferencesFurther.

Context `{Collaborators}.

Lemma openid_of_truthy s : str_truthy (openid_of s) = true.
Proof.
  unfold openid_of. destruct (str_truthy (_fmn_openid s)) eqn:Ho; [done|].
  by destruct username.
Qed.

Lemma prefs_url_fetching s : prefs_url (fetching s) = prefs_url s.
Proof.
  unfold prefs_url. cbn [fetching fmn_url set_trace set_fmn_openid].
  f_equal. f_equal. unfold openid_of at 1. cbn.
  by rewrite openid_of_truthy.
Qed.

(** Property X18.  A fetch that succeeds is remembered: the preference
    document the service sent, with its rules resolved, is what
    [preferences] returns, and the next call returns it again with no
    request and no change of state. *)
Theorem preferences_memoized s response v preference :
  prefs_truthy (_preferences s) = false ->
  requests_get (prefs_url s) = Returned response ->
  resp_ok response = true ->
  resp_json response = Some v ->
  repopulate_functions v = Returned preference ->
  let s' := after preferences s in
  outcome preferences s = Returned [preference] ∧
  preferences s' = (Returned [preference], s').
Proof.
  intros Hp Hget Hok Hjson Hrep s'. subst s'. unfold outcome, after.
  rewrite (preferences_fetch s Hp), Hget, Hok, Hjson, Hrep. cbn [fst snd].
  split; [reflexivity|]. by rewrite preferences_cached.
Qed.

(** Property X19.  A fetch the service refuses is not remembered: the next
    call asks again, at the same address, and fails the same way. *)
Theorem refused_fetch_is_retried s response :
  prefs_truthy (_preferences s) = false ->
  requests_get (prefs_url s) = Returned response ->
  resp_ok response = false ->
  let s' := after preferences s in
  outcome preferences s' = Returned [] ∧
  trace (after preferences s')
  = trace s' ++ [Log Info ("Getting preferences from " ++ prefs_url s);
                 fetch_failed].
Proof.
  intros Hp Hget Hok s'. subst s'. unfold outcome, after.
  rewrite (preferences_fetch s Hp), Hget, Hok. cbn [fst snd].
  set (s1 := set_trace (trace (fetching s) ++ [fetch_failed]) (fetching s)).
  assert (Hurl : prefs_url s1 = prefs_url s) by apply prefs_url_fetching.
  assert (Hp1 : prefs_truthy (_preferences s1) = false) by exact Hp.
  rewrite (preferences_fetch s1 Hp1), Hurl, Hget, Hok. cbn [fst snd].
  split; [reflexivity|]. cbn. rewrite Hurl. by rewrite <- !app_assoc.
Qed.

(** Property X20.  In remote-preference mode a message on an [.fmn.] topic
    that names the identity of the user drops the remembered preferences,
    and the same call fetches them anew: the recipients are computed from
    the document just received, which is remembered in turn. *)
Theorem preference_change_refetches msg topic s inner response v preference :
  str_contains ".fmn." topic = true ->
  py_getitem msg "msg" = Returned inner ->
  py_getitem inner "openid" = Returned (VStr (openid_of s)) ->
  requests_get (prefs_url s) = Returned response ->
  resp_ok response = true ->
  resp_json response = Some v ->
  repopulate_functions v = Returned preference ->
  let s' := after (resolve_recipients msg topic) s in
  outcome (resolve_recipients msg topic) s
    = Returned (recipients [preference] msg) ∧
  _preferences s' = Some [preference] ∧
  Log Info ("Getting preferences from " ++ prefs_url s) ∈ trace s'.
Proof.
  intros Htopic Hmsg Hoid Hget Hok Hjson Hrep s'. subst s'.
  unfold outcome, after, resolve_recipients. rewrite Htopic. mred.
  rewrite Hmsg. mred. rewrite Hoid. mred.
  rewrite openid_run. mred. rewrite decide_True by reflexivity. mred.
  match goal with
  | |- context [preferences ?s0] => set (s1 := s0)
  end.
  assert (Hurl : prefs_url s1 = prefs_url s).
  { unfold prefs_url. subst s1. cbn. f_equal. f_equal.
    unfold openid_of at 1. cbn. by rewrite openid_of_truthy. }
  assert (Hp1 : prefs_truthy (_preferences s1) = false) by reflexivity.
  rewrite (preferences_fetch s1 Hp1), Hurl, Hget, Hok, Hjson, Hrep. cbn.
  repeat split. rewrite Hurl. apply elem_of_app. right. left.
Qed.

End PreferencesFurther.

(** ** IconCache, further *)

Section IconCacheFurther.

Context `{Collaborators}.

Lemma icon_file_truthy s icon : str_truthy (icon_file s icon) = true.
Proof. unfold icon_file, path_join. by destruct (cache_dir s). Qed.

Lemma get_icon_hit icon s :
  opt_truthy (_icon_cache s !! icon) = true ->
  get_icon icon s = (Returned None, s).
Proof. intros Hhit. unfold get_icon. mred. by rewrite Hhit. Qed.

(** Property X21.  Request, landing, hit: once the page of a requested icon
    has landed, the cache resolves the reference to a file that holds the
    page, and asking for the icon again starts no download and changes
    nothing. *)
Theorem landed_icon_is_a_hit a content s :
  _icon_cache s !! a = None ->
  disk s !! icon_file s a = None ->
  (forall k f, _icon_cache s !! k = Some f ->
               str_truthy f = true ∧ disk s !! f = Some content
               ∨ k ≠ md5_hexdigest content) ->
  (forall d, d ∈ downloads s -> d_id d < next_id s) ->
  let s1 := after (get_icon a) s in
  let s2 := after (download_done (next_id s) (Some content)) s1 in
  outcome (get_icon a) s = Returned (Some (next_id s)) ∧
  (exists f, _icon_cache s2 !! a = Some f ∧ disk s2 !! f = Some content) ∧
  get_icon a s2 = (Returned None, s2).
Proof.
  intros Hca Hda Hsum Hids s1 s2. subst s2 s1. unfold outcome, after.
  rewrite (get_icon_downloads a s Hca Hda). cbn [fst snd].
  split; [reflexivity|].
  set (da := {| d_id := next_id s; d_url := a; d_file := icon_file s a |}).
  destruct (download_done_run (next_id s) content (downloading a s)
              (length (downloads s)) da) as (Hst & _).
  { cbn. apply (find_download _ da). intros d' Hd'. apply Hids in Hd'.
    cbn. lia. }
  unfold after in Hst.
  set (s2 := (download_done (next_id s) (Some content) (downloading a s)).2)
    in *.
  change (_icon_cache (downloading a s), disk (downloading a s))
    with (_icon_cache s, disk s) in Hst.
  unfold landed in Hst.
  assert (Hres : exists f, _icon_cache s2 !! a = Some f
                           ∧ disk s2 !! f = Some content
                           ∧ str_truthy f = true).
  { destruct (_icon_cache s !! md5_hexdigest content) as [existing|] eqn:Hm;
      injection Hst as Hc Hd; rewrite Hc, Hd; cbn.
    - destruct (Hsum _ _ Hm) as [[Ht Hf]|?]; [|done].
      exists existing. rewrite lookup_insert_eq. split; [done|]. split; [|done].
      destruct (decide (icon_file s a = existing)) as [<-|Hne];
        [congruence|].
      rewrite lookup_delete_ne, lookup_insert_ne by done. exact Hf.
    - exists (icon_file s a). rewrite lookup_insert_eq.
      split; [|split; [reflexivity|apply icon_file_truthy]].
      destruct (decide (md5_hexdigest content = a)) as [->|Hne].
      + apply lookup_insert_eq.
      + rewrite lookup_insert_ne by done. apply lookup_insert_eq. }
  destruct Hres as (f & Hf & Hdisk & Ht).
  split; [by exists f|]. apply get_icon_hit. by rewrite Hf.
Qed.

(** Property X22.  A download that fails does not lose the notification that
    waits for it: the failure is logged, the cache and the disk stay as they
    are, and the notification is displayed at once. *)
Theorem failed_download_still_displays i s k d body :
  list_find (λ x, d_id x = i) (downloads s) = Some (k, d) ->
  deferred s = [ {| awaiting := [i]; p_body := body |} ] ->
  let s1 := set_deferred []
              (set_trace
                 (trace s ++ [Log Error ("Download failed: " ++ d_url d)])
                 (set_downloads (delete k (downloads s)) s)) in
  let s' := after (download_done i None) s in
  outcome (download_done i None) s = Returned tt ∧
  s' = after (display_notification body) s1 ∧
  (show_raises (built_note body s1) = None ->
   Show (built_note body s1) ∈ trace s') ∧
  _icon_cache s' = _icon_cache s ∧
  disk s' = disk s ∧
  deferred s' = [].
Proof.
  intros Hfind Hdef s1 s'. subst s'. unfold outcome, after.
  rewrite (download_failed_run i s k d Hfind).
  unfold fire_deferred. mred. rewrite Hdef. cbn.
  destruct (decide (i ≠ i)) as [?|_]; [done|].
  rewrite (decide_True (P := [] = [])) by reflexivity.
  rewrite (decide_False (P := [] ≠ [])) by (intros Hne; by apply Hne).
  cbn [for_each]. unfold mbind, M_bind, mret, M_ret.
  cbn [p_body]. fold s1.
  pose proof (display_notification_returns body s1) as Hret.
  pose proof (display_notification_shows body s1) as Hshow.
  pose proof (same_store_display_notification body s1)
    as (Hc & Hdk & _).
  assert (Hd : deferred (display_notification body s1).2 = []).
  { assert (Hp : preserves (λ s s', deferred s' = deferred s)
                   (display_notification body)).
    { assert (PreOrder (λ s s' : Daemon, deferred s' = deferred s)).
      { split; [by intros ?|]. intros ? ? ? ? ?. congruence. }
      unfold display_notification, new_notification, get_icons,
        show_and_queue, note_show, note_close, fresh, log, emit.
      preserve_by ltac:(intros ?; reflexivity). }
    apply (Hp s1). }
  unfold outcome, after in Hret, Hshow.
  destruct (display_notification body s1) as [o s2].
  cbn in Hret, Hshow, Hc, Hdk, Hd |- *. subst o.
  repeat split; assumption.
Qed.

(** Property X23.  An icon requested a second time before its first download
    has landed is downloaded twice into the same file; when both pages have
    landed the cache still resolves the reference to that file, which has
    been removed: later requests are hits on a file that is not there. *)
Theorem icon_requested_twice_loses_file a content s :
  _icon_cache s !! a = None ->
  disk s !! icon_file s a = None ->
  _icon_cache s !! md5_hexdigest content = None ->
  (forall d, d ∈ downloads s -> d_id d < next_id s) ->
  let f := icon_file s a in
  let s1 := after (get_icon a) s in
  let s2 := after (get_icon a) s1 in
  let s3 := after (download_done (next_id s) (Some content)) s2 in
  let s4 := after (download_done (S (next_id s)) (Some content)) s3 in
  outcome (get_icon a) s = Returned (Some (next_id s)) ∧
  outcome (get_icon a) s1 = Returned (Some (S (next_id s))) ∧
  _icon_cache s4 !! a = Some f ∧
  disk s4 !! f = None ∧
  get_icon a s4 = (Returned None, s4).
Proof.
  intros Hca Hda Hm Hids f s1 s2 s3 s4. subst s4 s3 s2 s1.
  unfold outcome, after.
  rewrite (get_icon_downloads a s Hca Hda). cbn [fst snd].
  rewrite (get_icon_downloads a (downloading a s) Hca Hda). cbn [fst snd].
  split; [reflexivity|]. split; [reflexivity|].
  set (d1 := {| d_id := next_id s; d_url := a; d_file := f |}).
  set (d2 := {| d_id := S (next_id s); d_url := a; d_file := f |}).
  set (s2 := downloading a (downloading a s)).
  assert (Hd2 : downloads s2 = downloads s ++ [d1; d2]).
  { subst s2. cbn. by rewrite <- app_assoc. }
  destruct (download_done_run (next_id s) content s2 (length (downloads s)) d1)
    as (Hst3 & Hdl3 & _).
  { rewrite Hd2. apply (find_download _ d1). intros d' Hd'.
    apply Hids in Hd'. cbn. lia. }
  unfold after in Hst3, Hdl3.
  set (s3 := (download_done (next_id s) (Some content) s2).2) in *.
  rewrite Hd2, delete_middle in Hdl3.
  destruct (download_done_run (S (next_id s)) content s3
              (length (downloads s)) d2) as (Hst4 & _).
  { rewrite Hdl3. apply (find_download _ d2). intros d' Hd'.
    apply Hids in Hd'. cbn. lia. }
  unfold after in Hst4.
  set (s4 := (download_done (S (next_id s)) (Some content) s3).2) in *.
  rewrite Hst3 in Hst4.
  change (_icon_cache s2, disk s2) with (_icon_cache s, disk s) in Hst4.
  unfold landed at 2 in Hst4. rewrite Hm in Hst4.
  unfold landed in Hst4. cbn [d_file d_url d1 d2] in Hst4.
  rewrite lookup_insert_eq in Hst4. injection Hst4 as Hc Hd.
  assert (Hhit : _icon_cache s4 !! a = Some f)
    by (rewrite Hc; apply lookup_insert_eq).
  split; [exact Hhit|]. split; [rewrite Hd; apply lookup_delete_eq|].
  apply get_icon_hit. rewrite Hhit. apply icon_file_truthy.
Qed.

End IconCacheFurther.

(** ** From the message to the notification *)

Local Arguments shown : simpl never.
Local Arguments signals : simpl never.

Section Display.

Context `{Collaborators}.

Lemma download_landed_run i content s k d :
  list_find (λ x, d_id x = i) (downloads s) = Some (k, d) ->
  download_done i (Some content) s
  = fire_deferred i (stored k d content s).
Proof.
  intros Hfind. unfold download_done. mred. rewrite Hfind. mred.
  unfold cache_icon. mred. rewrite lookup_insert_eq. mred.
  unfold stored, landed.
  destruct (_icon_cache s !! md5_hexdigest content); reflexivity.
Qed.

(** [notify] on a message whose body names one icon, unknown so far. *)
Lemma notify_defers kv b a s :
  assoc_get "body" kv = Some b ->
  msg2icon b = Some a ->
  str_truthy a = true ->
  msg2secondary_icon b = None ->
  _icon_cache s !! a = None ->
  disk s !! icon_file s a = None ->
  notify (VDict kv) s
  = (Returned tt,
     set_deferred
       (deferred s ++ [ {| awaiting := [next_id s]; p_body := b |} ])
       (downloading a s)).
Proof.
  intros Hb Ha Ht Hsec Hc Hd. unfold notify, fetch_icons. mred.
  rewrite Hb. cbn [from_option id]. rewrite Ha, Hsec.
  cbn [opt_truthy from_option id]. rewrite Ht.
  rewrite (get_icon_downloads a s Hc Hd). reflexivity.
Qed.

(** Property X24.  A notification whose icon is not cached waits for it:
    [notify] starts the download and shows nothing; when the page has landed
    the notification is shown, with the downloaded file as its icon and as
    its image hint, and nothing is left pending. *)
Theorem notification_waits_for_icon kv b a content s :
  assoc_get "body" kv = Some b ->
  msg2icon b = Some a ->
  str_truthy a = true ->
  msg2secondary_icon b = None ->
  _icon_cache s !! a = None ->
  disk s !! icon_file s a = None ->
  _icon_cache s !! md5_hexdigest content = None ->
  deferred s = [] ->
  (forall d, d ∈ downloads s -> d_id d < next_id s) ->
  (forall n, show_raises n = None) ->
  let s1 := after (notify (VDict kv)) s in
  let s2 := after (download_done (next_id s) (Some content)) s1 in
  outcome (notify (VDict kv)) s = Returned tt ∧
  notifications s1 = notifications s ∧
  shown (trace s1) = shown (trace s) ∧
  deferred s2 = [] ∧
  exists note,
    shown (trace s2) = shown (trace s) ++ [note] ∧
    summary note = (format_text b).1 ∧
    note_icon note = Some (icon_file s a) ∧
    image_path note = Some (icon_file s a).
Proof.
  intros Hb Ha Ht Hsec Hc Hd Hm Hdef Hids Hshow s1 s2. subst s2 s1.
  unfold outcome, after.
  rewrite (notify_defers kv b a s Hb Ha Ht Hsec Hc Hd). cbn [fst snd].
  split; [reflexivity|]. split; [reflexivity|].
  split; [cbn; by rewrite shown_snoc, app_nil_r|].
  set (da := {| d_id := next_id s; d_url := a; d_file := icon_file s a |}).
  set (s1 := set_deferred _ (downloading a s)).
  rewrite (download_landed_run (next_id s) content s1
             (length (downloads s)) da).
  2:{ subst s1. cbn. apply (find_download _ da). intros d' Hd'.
      apply Hids in Hd'. cbn. lia. }
  unfold fire_deferred. mred. rewrite Hdef. cbn [app fmap list_fmap].
  cbn [awaiting p_body filter list_filter].
  destruct (decide (next_id s ≠ next_id s)) as [?|_]; [done|].
  rewrite (decide_True (P := [] = [])) by reflexivity.
  rewrite (decide_False (P := [] ≠ [])) by (intros Hne; by apply Hne).
  cbn [for_each]. unfold mbind, M_bind, mret, M_ret. cbn [p_body].
  match goal with
  | |- context [display_notification b ?s0] => set (s2 := s0)
  end.
  assert (Hcache : _icon_cache s2 !! a = Some (icon_file s a)).
  { subst s2 s1. unfold stored, landed. cbn. rewrite Hm. cbn.
    destruct (decide (md5_hexdigest content = a)) as [->|Hne].
    - apply lookup_insert_eq.
    - rewrite lookup_insert_ne by done. apply lookup_insert_eq. }
  assert (Hnote : note_icon (built_note b s2) = Some (icon_file s a)
                  ∧ image_path (built_note b s2) = Some (icon_file s a)).
  { unfold built_note. cbn [note_icon image_path].
    rewrite Ha, Hsec. cbn [cache_get mbind option_bind]. rewrite Hcache.
    unfold pick_icons. cbn [opt_truthy]. rewrite icon_file_truthy.
    cbn. by rewrite icon_file_truthy. }
  assert (Hq : deferred (display_notification b s2).2 = []
               ∧ shown (trace (display_notification b s2).2)
                 = shown (trace s) ++ [built_note b s2]).
  { assert (Htr : shown (trace (logged b s2)) = shown (trace s)).
    { subst s2 s1. unfold logged, stored, downloading.
      cbn [trace set_trace set_disk set_icon_cache set_downloads
             set_deferred set_next_id].
      by rewrite !shown_snoc, !app_nil_r. }
    assert (Hsd : forall n t, deferred (schedule n t) = deferred t).
    { intros n t. unfold schedule. by repeat case_match. }
    assert (Hst : forall n t,
               shown (trace (schedule n t)) = shown (trace t)).
    { intros n t. rewrite schedule_trace. unfold shown. rewrite omap_app.
      case_bool_decide; cbn; by rewrite app_nil_r. }
    destruct (evicts s2) eqn:Hev.
    - destruct (last_cons_is_Some (built_note b s2) (notifications s2))
        as [oldest Hlast].
      rewrite (display_evict b s2 oldest (Hshow _) Hev Hlast).
      destruct (close_raises oldest); cbn [snd];
        rewrite ?Hst, ?Hsd;
        cbn [trace deferred set_trace set_notifications];
        rewrite !shown_snoc, Htr, ?app_nil_r; by split.
    - rewrite (display_no_evict b s2 (Hshow _) Hev). cbn [snd].
      rewrite Hst, Hsd.
      cbn [trace deferred set_trace set_notifications].
      rewrite !shown_snoc, Htr, ?app_nil_r. by split. }
  destruct Hq as [Hq1 Hq2], Hnote as [Hn1 Hn2].
  destruct (display_notification b s2) as [[[]|e] s3]; cbn in Hq1, Hq2 |- *;
    (split; [exact Hq1|]); exists (built_note b s2); by repeat split.
Qed.

(** Property X25.  Eviction does not cancel the expiration timer of the
    evicted notification: the notification is closed when it is evicted and
    is closed again when its timer fires. *)
Theorem evicted_note_is_closed_again body s ns oldest i delay :
  notifications s = ns ++ [oldest] ->
  evicts s = true ->
  timers s !! i = Some (delay, oldest) ->
  show_raises (built_note body s) = None ->
  close_raises oldest = None ->
  let s1 := after (display_notification body) s in
  let s2 := after (timer_fire i) s1 in
  notifications s1 = built_note body s :: ns ∧
  Close oldest ∈ trace s1 ∧
  timers s1 !! i = Some (delay, oldest) ∧
  trace s2 = trace s1 ++ [Close oldest].
Proof.
  intros Hns Hev Hi Hshow Hclose s1 s2. subst s2 s1. unfold after.
  assert (Hlast : last (built_note body s :: notifications s) = Some oldest).
  { rewrite Hns, app_comm_cons. apply last_snoc. }
  assert (Hrest : removelast (built_note body s :: notifications s)
                  = built_note body s :: ns).
  { rewrite Hns, app_comm_cons. apply removelast_last. }
  rewrite (display_evict body s oldest Hshow Hev Hlast), Hclose, Hrest.
  cbn [snd].
  match goal with |- context [timer_fire i ?s0] => set (s1 := s0) end.
  assert (Ht1 : timers s1 !! i = Some (delay, oldest)).
  { subst s1. unfold schedule. repeat case_match; cbn; try exact Hi.
    by apply lookup_app_l_Some. }
  rewrite (timer_fire_run i s1 delay oldest Ht1), Hclose. cbn [snd].
  split; [subst s1; by rewrite schedule_notifications|].
  split; [|split]; [|exact Ht1|reflexivity].
  subst s1. apply schedule_trace_elem.
  cbn [trace set_trace set_notifications]. apply elem_of_app. right. left.
Qed.

(** Property X26.  A teardown that a notification interrupts with another
    error than [GLib.GError] is not resumed: the notification service, the
    hub and the reactor are left running and the files in place, and since
    the daemon counts as disabled from then on, [Disable] and the exit hook
    do nothing about it. *)
Theorem interrupted_teardown_is_not_resumed s pre n post e :
  enabled s = true ->
  notifications s = pre ++ n :: post ->
  (forall m, m ∈ pre -> close_raises m = None) ->
  close_raises n = Some e ->
  e ≠ GError ->
  let s' := after __del__ s in
  outcome __del__ s = Raised e ∧
  trace s' = trace s ++ (Close <$> pre) ∧
  disk s' = disk s ∧
  __del__ s' = (Returned tt, s').
Proof.
  intros Hen Hns Hpre Hn He s'. subst s'. unfold outcome, after.
  rewrite (del_cut_short s pre n post e Hen Hns Hpre Hn).
  rewrite decide_False by done. cbn [fst snd].
  repeat split; by apply del_not_enabled.
Qed.

(** Property X27.  In remote-preference mode a message on an [.fmn.] topic
    that lacks the key [msg], or the key [openid] below it, makes [consume]
    raise before anything is done: no request, no signal, no notification,
    the state is the one before. *)
Theorem preference_message_without_openid m s e :
  use_server_prefs s = true ->
  str_contains ".fmn." (topic m) = true ->
  (inner ← py_getitem (body m) "msg"; py_getitem inner "openid") = Raised e ->
  consume m s = (Raised e, s).
Proof.
  intros Hmode Htopic Hkey. unfold consume. mred. rewrite Hmode.
  unfold match_server_prefs, resolve_recipients. rewrite Htopic. mred.
  destruct (py_getitem (body m) "msg") as [inner|e'];
    cbn in Hkey |- *; [|by injection Hkey as ->].
  mred. rewrite Hkey. reflexivity.
Qed.

End Display.

(** ** The further properties on the concrete world *)

Section FurtherExamples.

Import Demo Scenes.

#[local] Existing Instance calm.
#[local] Existing Instance host.

(** [active_iff_enabled] on the class [urgent], just enabled. *)
Lemma active_iff_enabled_witness :
  let s := toggled in
  (json_loads (get_string (settings s) "filter-settings")
     = Some (JObject {[ "urgent" := "high" ]})
   ∧ "urgent" ∈ all_filters) ∧
  ("urgent"
     ∈ f_class
         <$> filters (after (settings_changed (settings s) "enabled-filters")
                        s)
   <-> "urgent" ∈ get_enabled_filters (settings s)).
Proof.
  assert (Hin : "urgent" ∈ all_filters) by left.
  split; [by split|].
  exact (active_iff_enabled (settings toggled) toggled
           {[ "urgent" := "high" ]} "urgent" eq_refl Hin).
Defined.

(** [enabled_filters_change_idempotent] on the same change. *)
Lemma enabled_filters_change_idempotent_witness :
  let s := toggled in
  let st := settings s in
  let s1 := after (settings_changed st "enabled-filters") s in
  let s2 := after (settings_changed st "enabled-filters") s1 in
  json_loads (get_string (settings s) "filter-settings")
    = Some (JObject {[ "urgent" := "high" ]}) ∧
  outcome (settings_changed st "enabled-filters") s1 = Returned tt ∧
  enabled_filters s2 = enabled_filters s1 ∧
  service_filters s2 = service_filters s1 ∧
  filters s2 = filters s1.
Proof.
  split; [reflexivity|].
  exact (enabled_filters_change_idempotent (settings toggled) toggled
           {[ "urgent" := "high" ]} eq_refl).
Defined.

(** [enabled_filters_change_undecodable] on the garbled settings. *)
Lemma enabled_filters_change_undecodable_witness :
  let s := started garbled in
  let names := get_enabled_filters (settings s) in
  let s' := after (settings_changed garbled "enabled-filters") s in
  json_loads (get_string (settings s) "filter-settings") = None ∧
  outcome (settings_changed garbled "enabled-filters") s
    = Raised ValueError ∧
  enabled_filters s' = names ∧
  service_filters s'
    = (p_prefix <$> filter (λ p, p_name p ∈ names) processors) ∧
  filters s' = filters s.
Proof.
  split; [reflexivity|].
  exact (enabled_filters_change_undecodable garbled (started garbled)
           eq_refl).
Defined.

(** [queue_stays_below_max] with a maximum of 2. *)
Lemma queue_stays_below_max_witness :
  let st := conf 2 5 "urgent" "http://down/" false in
  let s := run busy (__init__ st (Some false) "/tmp/tmpq1" ∅).2 in
  (2 ≤ get_int st "max-notifications")%Z ∧
  (Z.of_nat (length (notifications s)) < max_notifications s)%Z.
Proof.
  assert (Hmax : (2 ≤ get_int (conf 2 5 "urgent" "http://down/" false)
                        "max-notifications")%Z) by (vm_compute; discriminate).
  split; [exact Hmax|].
  exact (queue_stays_below_max (conf 2 5 "urgent" "http://down/" false)
           (Some false) "/tmp/tmpq1" ∅ busy Hmax).
Defined.

(** [shown_are_queued_or_closed] where closing never fails. *)
Lemma shown_are_queued_or_closed_witness :
  let st := conf 2 5 "urgent" "http://down/" false in
  (forall n, close_raises n = None) ∧
  none_left_open (run busy (__init__ st (Some false) "/tmp/tmpq1" ∅).2).
Proof.
  assert (Hclose : forall n, close_raises n = None) by reflexivity.
  split; [exact Hclose|].
  exact (shown_are_queued_or_closed Hclose
           (conf 2 5 "urgent" "http://down/" false) (Some false)
           "/tmp/tmpq1" ∅ busy).
Defined.

(** [teardown_removes_own_files] on a disk with three files. *)
Lemma teardown_removes_own_files_witness :
  let s := with_files in
  let s' := after __del__ s in
  (enabled s = true ∧
   forall n e, n ∈ notifications s -> close_raises n = Some e -> e = GError) ∧
  outcome __del__ s = Returned tt ∧
  forall p,
    disk s' !! p
    = if decide (p = pidfile) then None
      else if String.prefix (cache_dir s ++ "/") p then None
           else disk s !! p.
Proof.
  assert (Hclose : forall n e, n ∈ notifications with_files ->
                               close_raises n = Some e -> e = GError)
    by (intros n e _ [=]).
  split; [by split|].
  exact (teardown_removes_own_files with_files eq_refl Hclose).
Defined.

(** What is left of those three files. *)
Lemma teardown_leaves_user_file :
  disk (after __del__ with_files)
  = {[ "/home/alice/notes" := "keep" ]}.
Proof. by vm_compute. Qed.

(** [files_outside_cache_dir_untouched] on a file of the user. *)
Lemma files_outside_cache_dir_untouched_witness :
  let st := conf 2 5 "urgent" "http://down/" false in
  let p := "/home/alice/notes" in
  (get_boolean st "enabled" = true ∧
   String.prefix ("/tmp/tmpq1" ++ "/") p = false ∧
   p ≠ pidfile) ∧
  disk (run busy (__init__ st (Some false) "/tmp/tmpq1" stale_disk).2) !! p
  = stale_disk !! p.
Proof.
  assert (Hp : "/home/alice/notes" ≠ pidfile) by discriminate.
  split; [by repeat split|].
  exact (files_outside_cache_dir_untouched
           (conf 2 5 "urgent" "http://down/" false) "/tmp/tmpq1" stale_disk
           busy "/home/alice/notes" eq_refl eq_refl Hp).
Defined.

(** [service_up] on the settings that enable [urgent]. *)
Lemma service_up_witness :
  let st := conf 5 0 "urgent" "http://down/" false in
  let d : gmap string string := {[ "urgent" := "high" ]} in
  let names := get_enabled_filters st in
  let s := (__init__ st (Some false) "/tmp/tmpq1" ∅).2 in
  (get_boolean st "enabled" = true ∧
   json_loads (get_string st "filter-settings") = Some (JObject d) ∧
   show_raises (activation 0) = None) ∧
  (__init__ st (Some false) "/tmp/tmpq1" ∅).1 = Returned tt ∧
  enabled s = true ∧
  filters s = (configured d <$> filter (λ n, n ∈ names) all_filters) ∧
  service_filters s
    = (p_prefix <$> filter (λ p, p_name p ∈ names) processors) ∧
  notifications s = [activation 0] ∧
  timers s = [(3%Z, activation 0)] ∧
  Show (activation 0) ∈ trace s ∧
  cache_dir s = "/tmp/tmpq1" ∧
  disk s = ∅.
Proof.
  split; [by repeat split|].
  exact (service_up (conf 5 0 "urgent" "http://down/" false) "/tmp/tmpq1" ∅
           {[ "urgent" := "high" ]} eq_refl eq_refl eq_refl).
Defined.

(** [main_writes_pidfile] over a stale pidfile. *)
Lemma main_writes_pidfile_witness :
  let st := conf 5 0 "urgent" "http://down/" false in
  let running :=
    (__init__ st (Some false) "/tmp/tmpq1"
       (<[pidfile := "20000"]> (delete pidfile stale_disk))).2 in
  (write_raises = false ∧
   service_of (main stale_disk st (Some false) "/tmp/tmpq1")
   = Some running) ∧
  disk running !! pidfile = Some getpid_str ∧
  forall p, p ≠ pidfile -> disk running !! p = stale_disk !! p.
Proof.
  assert (Hmain : service_of (main stale_disk
                                (conf 5 0 "urgent" "http://down/" false)
                                (Some false) "/tmp/tmpq1")
                  = Some (__init__ (conf 5 0 "urgent" "http://down/" false)
                            (Some false) "/tmp/tmpq1"
                            (<[pidfile := "20000"]>
                               (delete pidfile stale_disk))).2)
    by (vm_compute; reflexivity).
  split; [by split|].
  exact (main_writes_pidfile stale_disk
           (conf 5 0 "urgent" "http://down/" false) (Some false)
           "/tmp/tmpq1" _ eq_refl Hmain).
Defined.

(** With a live daemon named in the pidfile, [main] leaves everything as
    it is; the pidfile of a process that has become a shell is replaced. *)
Lemma main_defers_to_live_daemon :
  let dk : gmap string string := {[ pidfile := "4711" ]} in
  let st := conf 5 0 "urgent" "http://down/" false in
  main dk st (Some false) "/tmp/tmpq1" = AlreadyRunning dk ∧
  exists service,
    main stale_disk st (Some false) "/tmp/tmpq1" = Serving service ∧
    disk service !! pidfile = Some "20000".
Proof. split; [reflexivity|]. eexists. split; by vm_compute. Qed.

(** [consume_signals_once] on a message that matches. *)
Lemma consume_signals_once_witness :
  let s := booted 5 0 in
  use_server_prefs s = false ∧
  signals (trace (after (consume bug_update) s))
  = signals (trace s)
    ++ (if local_match s bug_update && emit_dbus_signals s
        then [(topic bug_update, json_dumps (body bug_update))] else []).
Proof.
  split; [reflexivity|].
  exact (consume_signals_once bug_update (booted 5 0) eq_refl).
Defined.

(** [consume_without_nested_body] on that message, which has no key
    [body]. *)
Lemma consume_without_nested_body_witness :
  let s := booted 5 0 in
  let m := bug_update in
  let s' := after (consume m) s in
  (use_server_prefs s = false ∧
   local_match s m = true ∧
   body m = VDict [("priority", VStr "high")] ∧
   assoc_get "body" [("priority", VStr "high")] = None) ∧
  outcome (consume m) s = Raised KeyError ∧
  notifications s' = notifications s ∧
  deferred s' = deferred s ∧
  timers s' = timers s ∧
  shown (trace s') = shown (trace s).
Proof.
  split; [by repeat split|].
  exact (consume_without_nested_body bug_update (booted 5 0)
           [("priority", VStr "high")] eq_refl eq_refl eq_refl eq_refl).
Defined.

(** [preferences_memoized] on the service that answers. *)
Lemma preferences_memoized_witness :
  let s := remote in
  let response := {| resp_ok := true; resp_json := Some no_filters |} in
  let s' := after preferences s in
  (prefs_truthy (_preferences s) = false ∧
   requests_get (prefs_url s) = Returned response ∧
   resp_ok response = true ∧
   resp_json response = Some no_filters ∧
   repopulate_functions no_filters = Returned no_filters) ∧
  outcome preferences s = Returned [no_filters] ∧
  preferences s' = (Returned [no_filters], s').
Proof.
  split; [by repeat split|].
  exact (preferences_memoized remote
           {| resp_ok := true; resp_json := Some no_filters |}
           no_filters no_filters eq_refl eq_refl eq_refl eq_refl eq_refl).
Defined.

(** [refused_fetch_is_retried] with the service down. *)
Lemma refused_fetch_is_retried_witness :
  let s := service_down in
  let response := {| resp_ok := false; resp_json := None |} in
  let s' := after preferences s in
  (prefs_truthy (_preferences s) = false ∧
   requests_get (prefs_url s) = Returned response ∧
   resp_ok response = false) ∧
  outcome preferences s' = Returned [] ∧
  trace (after preferences s')
  = trace s' ++ [Log Info ("Getting preferences from " ++ prefs_url s);
                 fetch_failed].
Proof.
  split; [by repeat split|].
  exact (refused_fetch_is_retried service_down
           {| resp_ok := false; resp_json := None |}
           eq_refl eq_refl eq_refl).
Defined.

(** [preference_change_refetches] on a message that names the user. *)
Lemma preference_change_refetches_witness :
  let s := remote in
  let msg := body pref_change in
  let topic := topic pref_change in
  let inner := VDict [("openid", VStr "alice.id.fedoraproject.org")] in
  let response := {| resp_ok := true; resp_json := Some no_filters |} in
  let s' := after (resolve_recipients msg topic) s in
  (str_contains ".fmn." topic = true ∧
   py_getitem msg "msg" = Returned inner ∧
   py_getitem inner "openid" = Returned (VStr (openid_of s)) ∧
   requests_get (prefs_url s) = Returned response ∧
   resp_ok response = true ∧
   resp_json response = Some no_filters ∧
   repopulate_functions no_filters = Returned no_filters) ∧
  outcome (resolve_recipients msg topic) s
    = Returned (recipients [no_filters] msg) ∧
  _preferences s' = Some [no_filters] ∧
  Log Info ("Getting preferences from " ++ prefs_url s) ∈ trace s'.
Proof.
  split; [by repeat split|].
  exact (preference_change_refetches (body pref_change) (topic pref_change)
           remote (VDict [("openid", VStr "alice.id.fedoraproject.org")])
           {| resp_ok := true; resp_json := Some no_filters |}
           no_filters no_filters
           eq_refl eq_refl eq_refl eq_refl eq_refl eq_refl eq_refl).
Defined.

(** [landed_icon_is_a_hit] on a logo. *)
Lemma landed_icon_is_a_hit_witness :
  let s := booted 5 0 in
  let s1 := after (get_icon logo) s in
  let s2 := after (download_done (next_id s) (Some "PNG")) s1 in
  (_icon_cache s !! logo = None ∧
   disk s !! icon_file s logo = None ∧
   (forall k f, _icon_cache s !! k = Some f ->
                str_truthy f = true ∧ disk s !! f = Some "PNG"
                ∨ k ≠ md5_hexdigest "PNG") ∧
   (forall d, d ∈ downloads s -> d_id d < next_id s)) ∧
  outcome (get_icon logo) s = Returned (Some (next_id s)) ∧
  (exists f, _icon_cache s2 !! logo = Some f ∧ disk s2 !! f = Some "PNG") ∧
  get_icon logo s2 = (Returned None, s2).
Proof.
  assert (Hcache : forall k f, _icon_cache (booted 5 0) !! k = Some f ->
                     str_truthy f = true ∧ disk (booted 5 0) !! f = Some "PNG"
                     ∨ k ≠ md5_hexdigest "PNG").
  { intros k f Hk.
    change (_icon_cache (booted 5 0)) with (∅ : gmap string string) in Hk.
    by rewrite lookup_empty in Hk. }
  assert (Hdl : forall d, d ∈ downloads (booted 5 0) ->
                          d_id d < next_id (booted 5 0)).
  { intros d Hd. change (downloads (booted 5 0)) with (@nil Download) in Hd.
    by apply elem_of_nil in Hd. }
  split; [by repeat split|].
  exact (landed_icon_is_a_hit logo "PNG" (booted 5 0)
           eq_refl eq_refl Hcache Hdl).
Defined.

(** [failed_download_still_displays] on a message that waits for its
    logo. *)
Lemma failed_download_still_displays_witness :
  let s := after (notify with_logo) (booted 5 0) in
  let body := VDict [("icon", VStr logo)] in
  let d := {| d_id := 1; d_url := logo;
              d_file := "/tmp/tmpq1/uuid5-http://a/logo.png" |} in
  let s1 := set_deferred []
              (set_trace
                 (trace s ++ [Log Error ("Download failed: " ++ d_url d)])
                 (set_downloads (delete 0 (downloads s)) s)) in
  let s' := after (download_done 1 None) s in
  (list_find (λ x, d_id x = 1) (downloads s) = Some (0, d) ∧
   deferred s = [ {| awaiting := [1]; p_body := body |} ]) ∧
  outcome (download_done 1 None) s = Returned tt ∧
  s' = after (display_notification body) s1 ∧
  (show_raises (built_note body s1) = None ->
   Show (built_note body s1) ∈ trace s') ∧
  _icon_cache s' = _icon_cache s ∧
  disk s' = disk s ∧
  deferred s' = [].
Proof.
  split; [by split|].
  exact (failed_download_still_displays 1
           (after (notify with_logo) (booted 5 0)) 0
           {| d_id := 1; d_url := logo;
              d_file := "/tmp/tmpq1/uuid5-http://a/logo.png" |}
           (VDict [("icon", VStr logo)]) eq_refl eq_refl).
Defined.

(** [icon_requested_twice_loses_file] on a logo. *)
Lemma icon_requested_twice_loses_file_witness :
  let s := booted 5 0 in
  let f := icon_file s logo in
  let s1 := after (get_icon logo) s in
  let s2 := after (get_icon logo) s1 in
  let s3 := after (download_done (next_id s) (Some "PNG")) s2 in
  let s4 := after (download_done (S (next_id s)) (Some "PNG")) s3 in
  (_icon_cache s !! logo = None ∧
   disk s !! icon_file s logo = None ∧
   _icon_cache s !! md5_hexdigest "PNG" = None ∧
   (forall d, d ∈ downloads s -> d_id d < next_id s)) ∧
  outcome (get_icon logo) s = Returned (Some (next_id s)) ∧
  outcome (get_icon logo) s1 = Returned (Some (S (next_id s))) ∧
  _icon_cache s4 !! logo = Some f ∧
  disk s4 !! f = None ∧
  get_icon logo s4 = (Returned None, s4).
Proof.
  assert (Hdl : forall d, d ∈ downloads (booted 5 0) ->
                          d_id d < next_id (booted 5 0)).
  { intros d Hd. change (downloads (booted 5 0)) with (@nil Download) in Hd.
    by apply elem_of_nil in Hd. }
  split; [by repeat split|].
  exact (icon_requested_twice_loses_file logo "PNG" (booted 5 0)
           eq_refl eq_refl eq_refl Hdl).
Defined.

(** [notification_waits_for_icon] on a message with a logo. *)
Lemma notification_waits_for_icon_witness :
  let s := booted 5 0 in
  let kv := [("priority", VStr "high");
             ("body", VDict [("icon", VStr logo)])] in
  let b := VDict [("icon", VStr logo)] in
  let s1 := after (notify (VDict kv)) s in
  let s2 := after (download_done (next_id s) (Some "PNG")) s1 in
  (assoc_get "body" kv = Some b ∧
   msg2icon b = Some logo ∧
   str_truthy logo = true ∧
   msg2secondary_icon b = None ∧
   _icon_cache s !! logo = None ∧
   disk s !! icon_file s logo = None ∧
   _icon_cache s !! md5_hexdigest "PNG" = None ∧
   deferred s = [] ∧
   (forall d, d ∈ downloads s -> d_id d < next_id s) ∧
   (forall n, show_raises n = None)) ∧
  outcome (notify (VDict kv)) s = Returned tt ∧
  notifications s1 = notifications s ∧
  shown (trace s1) = shown (trace s) ∧
  deferred s2 = [] ∧
  exists note,
    shown (trace s2) = shown (trace s) ++ [note] ∧
    summary note = (format_text b).1 ∧
    note_icon note = Some (icon_file s logo) ∧
    image_path note = Some (icon_file s logo).
Proof.
  assert (Hdl : forall d, d ∈ downloads (booted 5 0) ->
                          d_id d < next_id (booted 5 0)).
  { intros d Hd. change (downloads (booted 5 0)) with (@nil Download) in Hd.
    by apply elem_of_nil in Hd. }
  assert (Hshow : forall n, show_raises n = None) by reflexivity.
  split; [by repeat split|].
  exact (notification_waits_for_icon
           [("priority", VStr "high"); ("body", VDict [("icon", VStr logo)])]
           (VDict [("icon", VStr logo)]) logo "PNG" (booted 5 0)
           eq_refl eq_refl eq_refl eq_refl eq_refl eq_refl eq_refl eq_refl
           Hdl Hshow).
Defined.

(** [evicted_note_is_closed_again] on the activation notification, with
    a maximum of 2. *)
Lemma evicted_note_is_closed_again_witness :
  let s := booted 2 5 in
  let s1 := after (display_notification high) s in
  let s2 := after (timer_fire 0) s1 in
  (notifications s = [] ++ [activation 0] ∧
   evicts s = true ∧
   timers s !! 0 = Some (3%Z, activation 0) ∧
   show_raises (built_note high s) = None ∧
   close_raises (activation 0) = None) ∧
  notifications s1 = built_note high s :: [] ∧
  Close (activation 0) ∈ trace s1 ∧
  timers s1 !! 0 = Some (3%Z, activation 0) ∧
  trace s2 = trace s1 ++ [Close (activation 0)].
Proof.
  split; [by repeat split|].
  exact (evicted_note_is_closed_again high (booted 2 5) [] (activation 0) 0
           3%Z eq_refl eq_refl eq_refl eq_refl eq_refl).
Defined.

(** [preference_message_without_openid] on a message that names
    nobody. *)
Lemma preference_message_without_openid_witness :
  let s := remote in
  let m := pref_anonymous in
  (use_server_prefs s = true ∧
   str_contains ".fmn." (topic m) = true ∧
   (inner ← py_getitem (body m) "msg"; py_getitem inner "openid")
   = Raised KeyError) ∧
  consume m s = (Raised KeyError, s).
Proof.
  split; [by repeat split|].
  exact (preference_message_without_openid pref_anonymous remote KeyError
           eq_refl eq_refl eq_refl).
Defined.

End FurtherExamples.

Section FaultyExamples.

Import Demo Scenes.

#[local] Existing Instance faulty.

(** [interrupted_teardown_is_not_resumed] where the activation
    notification cannot be closed. *)
Lemma interrupted_teardown_is_not_resumed_witness :
  let s := started (conf 5 0 "urgent" "http://down/" false) in
  let s' := after __del__ s in
  (enabled s = true ∧
   notifications s = [] ++ activation 0 :: [] ∧
   (forall m, m ∈ [] -> close_raises m = None) ∧
   close_raises (activation 0) = Some RuntimeError ∧
   RuntimeError ≠ GError) ∧
  outcome __del__ s = Raised RuntimeError ∧
  trace s' = trace s ++ (Close <$> []) ∧
  disk s' = disk s ∧
  __del__ s' = (Returned tt, s').
Proof.
  assert (Hpre : forall m : Note, m ∈ [] -> close_raises m = None)
    by (intros m Hm; by apply elem_of_nil in Hm).
  assert (He : RuntimeError ≠ GError) by discriminate.
  split; [by repeat split|].
  exact (interrupted_teardown_is_not_resumed
           (started (conf 5 0 "urgent" "http://down/" false))
           [] (activation 0) [] RuntimeError eq_refl eq_refl Hpre eq_refl He).
Defined.

End FaultyExamples.
